(** * transx2gtfs: timetable materialisation and calendar resolution

    A shallow embedding of the Python functions of [transx2gtfs] that
    build the stop-time table of a TransXChange document
    ([transxchange.py], [stop_times.py], [calendar.py]) together with the
    properties that the specification states about them.

    Conventions of the embedding:
    - Python [str] values are [string]s of ASCII characters; the string
      primitives used by the code ([split], [in], [strip], [lower],
      [int], [str], [zfill]) are defined below on that alphabet.
    - a raised exception is the [Raise] branch of [result]; the kinds are
      the built-in exceptions that the code can raise.
    - a pandas [DataFrame] is the list of its rows, in index order.
    - a naive [datetime] on or after the reference day is the number of
      seconds since the reference day's midnight; a [timedelta] is a number
      of microseconds.  Python ends the range of [datetime] with the year
      9999 and raises [OverflowError] for a sum beyond it; the embedding
      has the sums within the range, so that a run that returns in Python
      returns the same here; a statement about every run that returns
      takes the return of the run as a hypothesis. *)

From Stdlib Require Import ZArith List Bool Ascii String Lia Permutation Sorted.
Import ListNotations.

Open Scope string_scope.
Open Scope Z_scope.

(** ** Exceptions *)

Inductive exn : Type :=
| IndexError
| ValueError
| KeyError
| AttributeError
| UnboundLocalError.

Inductive result (A : Type) : Type :=
| Ok (a : A)
| Raise (e : exn).

Arguments Ok {A} a.
Arguments Raise {A} e.

Definition bind {A B : Type} (m : result A) (k : A -> result B) : result B :=
  match m with
  | Ok a => k a
  | Raise e => Raise e
  end.

Notation "x <- m ;; k" := (bind m (fun x => k))
  (at level 61, m at next level, right associativity).
Notation "' pat <- m ;; k" := (bind m (fun x => match x with pat => k end))
  (at level 61, pat pattern, m at next level, right associativity).

Definition is_ok {A : Type} (m : result A) : bool :=
  match m with Ok _ => true | Raise _ => false end.

(** [[f(x) for x in xs]] with an [f] that may raise. *)
Fixpoint mapM {A B : Type} (f : A -> result B) (xs : list A) : result (list B) :=
  match xs with
  | [] => Ok []
  | x :: xs' => y <- f x ;; ys <- mapM f xs' ;; Ok (y :: ys)
  end.

(** [for x in xs] with a body that updates local variables and may raise. *)
Fixpoint for_each {S A : Type} (body : S -> A -> result S) (st : S) (xs : list A)
    : result S :=
  match xs with
  | [] => Ok st
  | x :: xs' => st' <- body st x ;; for_each body st' xs'
  end.

(** ** Python string primitives *)

Module Py.

(** [str.isspace] on ASCII: TAB, LF, VT, FF, CR, FS, GS, RS, US, SPACE. *)
Definition is_space (c : ascii) : bool :=
  let n := nat_of_ascii c in
  (((9 <=? n) && (n <=? 13)) || ((28 <=? n) && (n <=? 32)))%nat.

(** The white space that [int] passes over: TAB, LF, VT, FF, CR, SPACE. *)
Definition is_int_space (c : ascii) : bool :=
  let n := nat_of_ascii c in
  (((9 <=? n) && (n <=? 13)) || (n =? 32))%nat.

Definition is_digit (c : ascii) : bool :=
  let n := nat_of_ascii c in ((48 <=? n) && (n <=? 57))%nat.

Definition digit_value (c : ascii) : Z := Z.of_nat (nat_of_ascii c) - 48.

Definition digit_char (d : Z) : ascii := ascii_of_nat (Z.to_nat (d + 48)).

Definition is_empty (s : string) : bool :=
  match s with EmptyString => true | String _ _ => false end.

(** [s] without its leading characters of the class [sp]. *)
Fixpoint lstrip (sp : ascii -> bool) (s : string) : string :=
  match s with
  | EmptyString => EmptyString
  | String c s' => if sp c then lstrip sp s' else s
  end.

(** [s] without its trailing characters of the class [sp]. *)
Fixpoint rstrip (sp : ascii -> bool) (s : string) : string :=
  match s with
  | EmptyString => EmptyString
  | String c s' =>
      let r := rstrip sp s' in
      if sp c && is_empty r then EmptyString else String c r
  end.

(** [s.strip()] *)
Definition strip (s : string) : string := rstrip is_space (lstrip is_space s).

Definition lower_char (c : ascii) : ascii :=
  let n := nat_of_ascii c in
  if ((65 <=? n) && (n <=? 90))%nat then ascii_of_nat (n + 32) else c.

(** [s.lower()] *)
Fixpoint lower (s : string) : string :=
  match s with
  | EmptyString => EmptyString
  | String c s' => String (lower_char c) (lower s')
  end.

(** [sub in s] *)
Fixpoint contains (sub s : string) : bool :=
  prefix sub s ||
  match s with
  | EmptyString => false
  | String _ s' => contains sub s'
  end.

(** The scan of [s.split(sep)] for a non-empty [sep]: [cur] is the piece
    being collected, [skip] the number of characters of a separator just
    matched that are still to be passed over. *)
Fixpoint split_scan (sep : string) (skip : nat) (cur s : string) : list string :=
  match s with
  | EmptyString => [cur]
  | String c s' =>
      match skip with
      | S k => split_scan sep k cur s'
      | O =>
          if prefix sep s
          then cur :: split_scan sep (String.length sep - 1) EmptyString s'
          else split_scan sep O (cur ++ String c EmptyString) s'
      end
  end.

(** [s.split(sep)] *)
Definition split (sep s : string) : list string := split_scan sep O EmptyString s.

(** [sep.join(parts)] *)
Fixpoint join (sep : string) (parts : list string) : string :=
  match parts with
  | [] => EmptyString
  | [p] => p
  | p :: ps => p ++ sep ++ join sep ps
  end.

(** The digits of an integer literal, with the single underscores that
    Python allows between two digits. *)
Fixpoint int_digits (acc : Z) (after_digit : bool) (s : string) : option Z :=
  match s with
  | EmptyString => if after_digit then Some acc else None
  | String c s' =>
      if is_digit c then int_digits (10 * acc + digit_value c) true s'
      else if Ascii.eqb c "_"
           then if after_digit then int_digits acc false s' else None
           else None
  end.

(** An integer literal without white space around it: an optional sign,
    then the digits. *)
Definition int_body (body : string) : option Z :=
  match body with
  | String "-" ds => option_map Z.opp (int_digits 0 false ds)
  | String "+" ds => int_digits 0 false ds
  | _ => int_digits 0 false body
  end.

(** [int(s)] in base ten: white space around the literal is passed over,
    and anything that is not a literal is a [ValueError]. *)
Definition int (s : string) : result Z :=
  match int_body (rstrip is_int_space (lstrip is_int_space s)) with
  | Some z => Ok z
  | None => Raise ValueError
  end.

(** The decimal digits of a natural number, most significant first. *)
Fixpoint str_digits (fuel : nat) (n : Z) (acc : string) : string :=
  let acc' := String (digit_char (n mod 10)) acc in
  match fuel with
  | O => acc'
  | S f => if n <? 10 then acc' else str_digits f (n / 10) acc'
  end.

(** [str(n)] *)
Definition str (n : Z) : string :=
  if n <? 0
  then String "-" (str_digits (Z.to_nat (Z.log2 (- n))) (- n) EmptyString)
  else str_digits (Z.to_nat (Z.log2 n)) n EmptyString.

Fixpoint zeros (k : nat) : string :=
  match k with
  | O => EmptyString
  | S k' => String "0" (zeros k')
  end.

(** [s.zfill(width)]: zeros are inserted after a leading sign. *)
Definition zfill (width : nat) (s : string) : string :=
  let pad := zeros (width - String.length s) in
  match s with
  | String "-" r => String "-" (pad ++ r)
  | String "+" r => String "+" (pad ++ r)
  | _ => pad ++ s
  end.

(** Every character of [s] satisfies [p]. *)
Fixpoint all_chars (p : ascii -> bool) (s : string) : bool :=
  match s with
  | EmptyString => true
  | String c s' => p c && all_chars p s'
  end.

(** The letters a to z. *)
Definition is_lower_letter (c : ascii) : bool :=
  let n := nat_of_ascii c in ((97 <=? n) && (n <=? 122))%nat.

(** [x] is another character than [c]. *)
Definition is_not (c x : ascii) : bool := negb (Ascii.eqb x c).

(** [xs[i]] *)
Definition index {A : Type} (xs : list A) (i : nat) : result A :=
  match nth_error xs i with
  | Some x => Ok x
  | None => Raise IndexError
  end.

End Py.

(** ** calendar.py *)

Module Calendar.

(** A Python [dict] literal, in insertion order. *)
Definition dict (K V : Type) : Type := list (K * V).

Fixpoint dict_get {V : Type} (d : dict string V) (k : string) : result V :=
  match d with
  | [] => Raise KeyError
  | (k', v) :: d' => if String.eqb k' k then Ok v else dict_get d' k
  end.

Fixpoint num_get {V : Type} (d : dict Z V) (k : Z) : result V :=
  match d with
  | [] => Raise KeyError
  | (k', v) :: d' => if Z.eqb k' k then Ok v else num_get d' k
  end.

Definition weekday_to_num : dict string Z :=
  [("monday", 0); ("tuesday", 1); ("wednesday", 2); ("thursday", 3);
   ("friday", 4); ("saturday", 5); ("sunday", 6)].

Definition num_to_weekday : dict Z string :=
  [(0, "monday"); (1, "tuesday"); (2, "wednesday"); (3, "thursday");
   (4, "friday"); (5, "saturday"); (6, "sunday")].

(** [range(a, b)] *)
Definition range (a b : Z) : list Z :=
  map (fun k => a + Z.of_nat k) (seq 0 (Z.to_nat (b - a))).

(** [daynum in active_days] *)
Definition mem (x : Z) (xs : list Z) : bool := existsb (Z.eqb x) xs.

(** The one-row frame that [parse_day_range] returns: its columns, in
    order, with the value of each. *)
Definition day_row : Type := dict string Z.

Definition calendar_row (active_days : list Z) : result day_row :=
  mapM (fun daynum =>
          daycol <- num_get num_to_weekday daynum ;;
          Ok (daycol, if mem daynum active_days then 1 else 0))
       (range 0 7).

Definition parse_day_range (dayinfo : option string) : result day_row :=
  match dayinfo with
  | None =>
      mapM (fun i => daycol <- num_get num_to_weekday i ;; Ok (daycol, 0)) (range 0 7)
  | Some dayinfo =>
      active_days <-
        (if Py.contains "weekend" (Py.lower (Py.strip dayinfo)) then Ok [5; 6]
         else if Py.contains "To" dayinfo then
           let day_range := Py.split "To" dayinfo in
           d0 <- Py.index day_range 0 ;;
           start_i <- dict_get weekday_to_num (Py.lower d0) ;;
           d1 <- Py.index day_range 1 ;;
           end_i <- dict_get weekday_to_num (Py.lower d1) ;;
           Ok (range start_i (end_i + 1))
         else if Py.contains "|" dayinfo then
           mapM (fun day => dict_get weekday_to_num (Py.lower day))
                (Py.split "|" dayinfo)
         else
           d <- dict_get weekday_to_num (Py.lower dayinfo) ;; Ok [d]) ;;
      calendar_row active_days
  end.

End Calendar.

(** ** stop_times.py *)

Module StopTimes.

(** A row of the [gtfs_info] frame.  [None] in an optional column is
    Python's [None] (or the [NaN] that [pd.concat] puts where a row has no
    value for the column). *)
Record row : Type := mk_row {
  stop_id : string;
  stop_sequence : Z;
  timepoint : Z;
  arrival_time : string;
  departure_time : string;
  route_link_ref : string;
  agency_id : string;
  trip_id : string;
  route_id : string;
  vehicle_journey_id : string;
  service_ref : string;
  direction_id : Z;
  line_name : string;
  travel_mode : Z;
  trip_headsign : string;
  vehicle_type : option string;
  start_date : string;
  end_date : string;
  weekdays : option string;
  non_operative_days : option string;
  service_id : option string
}.

Definition set_service_id (v : option string) (r : row) : row :=
  mk_row (stop_id r) (stop_sequence r) (timepoint r) (arrival_time r)
         (departure_time r) (route_link_ref r) (agency_id r) (trip_id r)
         (route_id r) (vehicle_journey_id r) (service_ref r) (direction_id r)
         (line_name r) (travel_mode r) (trip_headsign r) (vehicle_type r)
         (start_date r) (end_date r) (weekdays r) (non_operative_days r) v.

(** A row of the [stop_times] frame: the columns [stop_times_cols]. *)
Record stop_time : Type := mk_stop_time {
  st_trip_id : string;
  st_arrival_time : string;
  st_departure_time : string;
  st_stop_id : string;
  st_stop_sequence : Z;
  st_timepoint : Z
}.

Definition select_stop_times_cols (r : row) : stop_time :=
  mk_stop_time (trip_id r) (arrival_time r) (departure_time r) (stop_id r)
               (stop_sequence r) (timepoint r).

Definition stop_time_eqb (a b : stop_time) : bool :=
  String.eqb (st_trip_id a) (st_trip_id b)
  && String.eqb (st_arrival_time a) (st_arrival_time b)
  && String.eqb (st_departure_time a) (st_departure_time b)
  && String.eqb (st_stop_id a) (st_stop_id b)
  && Z.eqb (st_stop_sequence a) (st_stop_sequence b)
  && Z.eqb (st_timepoint a) (st_timepoint b).

(** [df.drop_duplicates()] with [keep='first']: a row stays when no earlier
    row has the same key. *)
Fixpoint drop_duplicates_from {A K : Type} (eqb : K -> K -> bool) (key : A -> K)
    (seen : list K) (xs : list A) : list A :=
  match xs with
  | [] => []
  | x :: xs' =>
      if existsb (eqb (key x)) seen
      then drop_duplicates_from eqb key seen xs'
      else x :: drop_duplicates_from eqb key (key x :: seen) xs'
  end.

Definition drop_duplicates {A K : Type} (eqb : K -> K -> bool) (key : A -> K)
    (xs : list A) : list A :=
  drop_duplicates_from eqb key [] xs.

(** The keys of [df.groupby(col)], which pandas visits in sorted order. *)
Fixpoint insert_sorted (k : string) (ks : list string) : list string :=
  match ks with
  | [] => [k]
  | k' :: ks' => if String.leb k k' then k :: ks else k' :: insert_sorted k ks'
  end.

Definition sort_keys (ks : list string) : list string :=
  fold_right insert_sorted [] ks.

Definition group_keys (ks : list string) : list string :=
  sort_keys (drop_duplicates String.eqb (fun k => k) ks).

(** A frame without the columns of [stop_times_cols] is the frame of a run
    without journeys; it has no rows, and the result has none. *)
Definition get_stop_times (gtfs_info : list row) : list stop_time :=
  let stop_times := map select_stop_times_cols gtfs_info in
  let stop_times := drop_duplicates stop_time_eqb (fun r => r) stop_times in
  let grouped := group_keys (map st_trip_id stop_times) in
  fold_left
    (fun filtered_stop_times idx =>
       let group := filter (fun r => String.eqb (st_trip_id r) idx) stop_times in
       if (1 <? List.length group)%nat
       then (filtered_stop_times ++ group)%list
       else filtered_stop_times)
    grouped [].

(** The non-null values of a column, for [groupby], which leaves out the
    rows whose key is null. *)
Fixpoint non_null (xs : list (option string)) : list string :=
  match xs with
  | [] => []
  | Some x :: xs' => x :: non_null xs'
  | None :: xs' => non_null xs'
  end.

Definition has_weekdays (weekday : string) (r : row) : bool :=
  match weekdays r with
  | Some w => String.eqb w weekday
  | None => false
  end.

(** [f"{service_ref}_{start_d}_{end_d}_{daygroup}"] *)
Definition format_service_id (service_ref start_d end_d daygroup : string) : string :=
  service_ref ++ "_" ++ start_d ++ "_" ++ end_d ++ "_" ++ daygroup.

(** One turn of the loop over [calendar_groups]; [daygroup], the one value
    of the [weekdays] column of the group, is the key [weekday]. *)
Definition assign_group (calendar_info : list row) (stop_times : list row)
    (weekday : string) : list row :=
  let cgroup := filter (has_weekdays weekday) calendar_info in
  match cgroup with
  | [] => stop_times
  | first :: _ =>
      let vehicle_journey_ids := map vehicle_journey_id cgroup in
      let service_id :=
        format_service_id (service_ref first) (start_date first) (end_date first) weekday in
      map (fun r =>
             if existsb (String.eqb (vehicle_journey_id r)) vehicle_journey_ids
             then set_service_id (Some service_id) r
             else r)
          stop_times
  end.

(** The branch for a frame without a [weekdays] column is that of the
    frame of a run without journeys, which has no rows and is returned as
    it is; a frame with rows has the column. *)
Definition generate_service_id (stop_times : list row) : list row :=
  let stop_times := map (set_service_id None) stop_times in
  let calendar_info := drop_duplicates String.eqb vehicle_journey_id stop_times in
  let calendar_groups := group_keys (non_null (map weekdays calendar_info)) in
  fold_left (assign_group calendar_info) calendar_groups stop_times.

End StopTimes.

(** ** transxchange.py *)

Module TransXChange.

Import StopTimes.

(** *** Runtime codes *)

Definition HOUR_IN_SECONDS : Z := 60 * 60.
Definition MINUTE_IN_SECONDS : Z := 60.

Definition parse_runtime_duration (runtime : string) : result Z :=
  let time := 0 in
  runtime <- Py.index (Py.split "PT" runtime) 1 ;;
  '(time, runtime) <-
    (if Py.contains "H" runtime then
       let split := Py.split "H" runtime in
       s0 <- Py.index split 0 ;;
       n <- Py.int s0 ;;
       s1 <- Py.index split 1 ;;
       Ok (time + n * HOUR_IN_SECONDS, s1)
     else Ok (time, runtime)) ;;
  '(time, runtime) <-
    (if Py.contains "M" runtime then
       let split := Py.split "M" runtime in
       s0 <- Py.index split 0 ;;
       n <- Py.int s0 ;;
       s1 <- Py.index split 1 ;;
       Ok (time + n * MINUTE_IN_SECONDS, s1)
     else Ok (time, runtime)) ;;
  if Py.contains "S" runtime then
    let split := Py.split "S" runtime in
    s0 <- Py.index split 0 ;;
    n <- Py.int s0 ;;
    Ok (time + n * MINUTE_IN_SECONDS)
  else Ok time.

(** *** Dates and times *)

(** Seconds since midnight of the reference day [current_date], for the
    instants up to the end of the year 9999, the last that Python has. *)
Definition datetime : Type := Z.

(** Microseconds. *)
Definition timedelta : Type := Z.

(** [time(hour, minute)] on the reference day; the constructor checks the
    ranges of its fields. *)
Definition combine_time (hour minute : Z) : result datetime :=
  if (0 <=? hour) && (hour <=? 23) && (0 <=? minute) && (minute <=? 59)
  then Ok (hour * 3600 + minute * 60)
  else Raise ValueError.

(** [dt.hour] *)
Definition dt_hour (dt : datetime) : Z := (dt mod 86400) / 3600.

(** [dt.strftime("%M:%S")] *)
Definition strftime_MS (dt : datetime) : string :=
  Py.zfill 2 (Py.str ((dt mod 3600) / 60)) ++ ":" ++ Py.zfill 2 (Py.str (dt mod 60)).

(** [a - b] of two datetimes. *)
Definition dt_sub (a b : datetime) : timedelta := (a - b) * 1000000.

(** [_divide_and_round]: the quotient rounded to the nearest integer, ties
    to even. *)
Definition divide_and_round (a b : Z) : Z :=
  let q := a / b in
  let r := 2 * (a mod b) in
  let greater_than_half := if 0 <? b then b <? r else r <? b in
  if greater_than_half || ((r =? b) && (q mod 2 =? 1)) then q + 1 else q.

(** [td / k] for an integer [k] *)
Definition td_div (td : timedelta) (k : Z) : timedelta := divide_and_round td k.

(** [td.seconds]: the seconds field of the normalised (days, seconds,
    microseconds) triple. *)
Definition td_seconds (td : timedelta) : Z := (td / 1000000) mod 86400.

Definition get_midnight_formatted_times
    (arrival_hour departure_hour hour : Z) (current_dt departure_dt : datetime) : Z * Z :=
  if arrival_hour <? hour then
    let last_second_of_day : datetime := 23 * 3600 + 59 * 60 + 59 in
    let arrival_over_midnight_surplus :=
      td_seconds (td_div (td_div (dt_sub current_dt last_second_of_day) 60) 60) + 1 in
    let departure_over_midnight_surplus :=
      td_seconds (td_div (td_div (dt_sub departure_dt last_second_of_day) 60) 60) + 1 in
    (23 + arrival_over_midnight_surplus, 23 + departure_over_midnight_surplus)
  else (arrival_hour, departure_hour).

(** *** The parsed document *)

Record timing_link : Type := mk_link {
  From_StopPointRef : string;
  To_StopPointRef : string;
  RunTime : string;
  RouteLinkRef : string
}.

(** A [JourneyPatternSection] element.  An element without a
    [JourneyPatternTimingLink] child has the empty list here. *)
Record section : Type := mk_section {
  section_id : string;
  JourneyPatternTimingLink : list timing_link
}.

(** A [VehicleJourney] element; [weekday_info] and [calendar_dates_exceptions]
    are what [get_weekday_info] and [get_calendar_dates_exceptions] read from
    its operating profile. *)
Record vehicle_journey : Type := mk_journey {
  ServiceRef : string;
  JourneyPatternRef : string;
  VehicleJourneyCode : string;
  DepartureTime : string;
  weekday_info : option string;
  calendar_dates_exceptions : option string
}.

(** A row of [service_jp_info]. *)
Record jp_info : Type := mk_jp_info {
  jp_journey_pattern_id : string;
  jp_section_reference : string;
  jp_agency_id : string;
  jp_route_id : string;
  jp_direction_id : Z;
  jp_line_name : string;
  jp_travel_mode : option Z;
  jp_trip_headsign : string;
  jp_vehicle_type : option string;
  jp_start_date : string;
  jp_end_date : string
}.

(** The text that an f-string puts for a value that may be [None]. *)
Definition format_optional (v : option string) : string :=
  match v with
  | Some s => s
  | None => "None"
  end.

(** *** Stop times of a journey *)

(** What is fixed while the sections of one journey are walked. *)
Record journey_context : Type := mk_context {
  ctx_agency_id : string;
  ctx_route_id : string;
  ctx_direction_id : Z;
  ctx_line_name : string;
  ctx_travel_mode : Z;
  ctx_trip_headsign : string;
  ctx_vehicle_type : option string;
  ctx_start_date : string;
  ctx_end_date : string;
  ctx_vehicle_journey_id : string;
  ctx_service_ref : string;
  ctx_weekdays : option string;
  ctx_non_operative_days : option string;
  ctx_hour : Z;
  ctx_minute : Z
}.

Definition boarding_time : Z := 0.

(** The four entries of the dictionary of [get_last_stop_time_info]:
    [stop_id], [stop_sequence], [arrival_time], [departure_time]. *)
Definition get_last_stop_time_info (link : timing_link) (hour : Z)
    (current_dt : datetime) (duration stop_num boarding_time : Z)
    : string * Z * string * string :=
  let stop_id := To_StopPointRef link in
  let current_dt := current_dt + duration in
  let departure_dt := current_dt + boarding_time in
  let arrival_hour := dt_hour current_dt in
  let departure_hour := dt_hour departure_dt in
  let '(arrival_hour, departure_hour) :=
    get_midnight_formatted_times arrival_hour departure_hour hour current_dt departure_dt in
  let arrival_t := Py.zfill 2 (Py.str arrival_hour) ++ ":" ++ strftime_MS current_dt in
  let departure_t := Py.zfill 2 (Py.str departure_hour) ++ ":" ++ strftime_MS departure_dt in
  (stop_id, stop_num, arrival_t, departure_t).

(** The local variables that the loop over timing links updates. *)
Record link_state : Type := mk_link_state {
  ls_current_dt : option datetime;
  ls_stop_num : Z;
  ls_section_times : list row;
  ls_last : option (timing_link * Z)
}.

Definition link_step (ctx : journey_context) (trip_id : string)
    (st : link_state) (link : timing_link) : result link_state :=
  duration <- parse_runtime_duration (RunTime link) ;;
  '(current_dt, departure_dt, timepoint) <-
    match ls_current_dt st with
    | None =>
        current_dt <- combine_time (ctx_hour ctx) (ctx_minute ctx) ;;
        Ok (current_dt, current_dt, 1)
    | Some current_dt =>
        let current_dt := current_dt + duration in
        Ok (current_dt, current_dt + boarding_time, 0)
    end ;;
  let arrival_hour := dt_hour current_dt in
  let departure_hour := dt_hour departure_dt in
  let '(arrival_hour, departure_hour) :=
    get_midnight_formatted_times arrival_hour departure_hour (ctx_hour ctx)
                                 current_dt departure_dt in
  let arrival_t := Py.zfill 2 (Py.str arrival_hour) ++ ":" ++ strftime_MS current_dt in
  let departure_t := Py.zfill 2 (Py.str departure_hour) ++ ":" ++ strftime_MS departure_dt in
  let info :=
    {| stop_id := From_StopPointRef link;
       stop_sequence := ls_stop_num st;
       timepoint := timepoint;
       arrival_time := arrival_t;
       departure_time := departure_t;
       route_link_ref := RouteLinkRef link;
       agency_id := ctx_agency_id ctx;
       trip_id := trip_id;
       route_id := ctx_route_id ctx;
       vehicle_journey_id := ctx_vehicle_journey_id ctx;
       service_ref := ctx_service_ref ctx;
       direction_id := ctx_direction_id ctx;
       line_name := ctx_line_name ctx;
       travel_mode := ctx_travel_mode ctx;
       trip_headsign := ctx_trip_headsign ctx;
       vehicle_type := ctx_vehicle_type ctx;
       start_date := ctx_start_date ctx;
       end_date := ctx_end_date ctx;
       weekdays := ctx_weekdays ctx;
       non_operative_days := ctx_non_operative_days ctx;
       service_id := None |} in
  Ok {| ls_current_dt := Some current_dt;
        ls_stop_num := ls_stop_num st + 1;
        ls_section_times := (ls_section_times st ++ [info])%list;
        ls_last := Some (link, duration) |}.

(** The row of the last stop of a section: the dictionary of
    [get_last_stop_time_info] and the columns assigned after it; the frame
    has no [non_operative_days] for this row. *)
Definition last_stop_row (ctx : journey_context) (trip_id : string)
    (link : timing_link) (current_dt : datetime) (duration stop_num : Z) : row :=
  let '(stop_id, stop_sequence, arrival_t, departure_t) :=
    get_last_stop_time_info link (ctx_hour ctx) current_dt duration stop_num boarding_time in
  {| stop_id := stop_id;
     stop_sequence := stop_sequence;
     timepoint := 0;
     arrival_time := arrival_t;
     departure_time := departure_t;
     route_link_ref := RouteLinkRef link;
     agency_id := ctx_agency_id ctx;
     trip_id := trip_id;
     route_id := ctx_route_id ctx;
     vehicle_journey_id := ctx_vehicle_journey_id ctx;
     service_ref := ctx_service_ref ctx;
     direction_id := ctx_direction_id ctx;
     line_name := ctx_line_name ctx;
     travel_mode := ctx_travel_mode ctx;
     trip_headsign := ctx_trip_headsign ctx;
     vehicle_type := ctx_vehicle_type ctx;
     start_date := ctx_start_date ctx;
     end_date := ctx_end_date ctx;
     weekdays := ctx_weekdays ctx;
     non_operative_days := None;
     service_id := None |}.

(** The local variables that the loop over sections updates;
    [ss_section_times] is unbound until a first section has matched, and
    keeps its value from one journey to the next. *)
Record section_state : Type := mk_section_state {
  ss_current_dt : option datetime;
  ss_stop_num : Z;
  ss_section_times : option (list row)
}.

Definition section_step (ctx : journey_context) (jp_section_references : list string)
    (st : section_state) (sec : section) : result section_state :=
  let trip_id :=
    section_id sec ++ "_" ++ format_optional (ctx_weekdays ctx) ++ "_"
      ++ Py.zfill 2 (Py.str (ctx_hour ctx)) ++ Py.zfill 2 (Py.str (ctx_minute ctx)) in
  if negb (existsb (String.eqb (section_id sec)) jp_section_references) then Ok st
  else
    timing_links <-
      match JourneyPatternTimingLink sec with
      | [] => Raise AttributeError
      | ls => Ok ls
      end ;;
    ls <- for_each (link_step ctx trip_id)
            {| ls_current_dt := ss_current_dt st;
               ls_stop_num := ss_stop_num st;
               ls_section_times := [];
               ls_last := None |}
            timing_links ;;
    match ls_last ls, ls_current_dt ls with
    | Some (link, duration), Some current_dt =>
        let info := last_stop_row ctx trip_id link current_dt duration (ls_stop_num ls) in
        Ok {| ss_current_dt := ls_current_dt ls;
              ss_stop_num := ls_stop_num ls;
              ss_section_times := Some (ls_section_times ls ++ [info])%list |}
    | _, _ => Raise UnboundLocalError
    end.

(** [hour, minute, second = departure_time.split(':')] and the three
    [int] conversions. *)
Definition parse_departure_time (departure_time : string) : result (Z * Z * Z) :=
  match Py.split ":" departure_time with
  | [hour; minute; second] =>
      hour <- Py.int hour ;;
      minute <- Py.int minute ;;
      second <- Py.int second ;;
      Ok (hour, minute, second)
  | _ => Raise ValueError
  end.

(** The variables that live across the journeys of one run. *)
Record run_state : Type := mk_run_state {
  rs_gtfs_info : list row;
  rs_section_times : option (list row)
}.

Definition journey_step (service_jp_info : list jp_info) (sections : list section)
    (service_operative_days service_non_operative_days : option string)
    (st : run_state) (journey : vehicle_journey) : result run_state :=
  let service_ref := ServiceRef journey in
  let journey_pattern_id := JourneyPatternRef journey in
  let vehicle_journey_id := VehicleJourneyCode journey in
  let weekdays :=
    match weekday_info journey with
    | None => service_operative_days
    | w => w
    end in
  let non_operative_days :=
    match calendar_dates_exceptions journey with
    | None => service_non_operative_days
    | d => d
    end in
  service_journey_patterns <-
    match service_jp_info with
    | [] => Raise KeyError
    | _ => Ok (filter (fun jp => String.eqb (jp_journey_pattern_id jp) journey_pattern_id)
                      service_jp_info)
    end ;;
  let jp_section_references := map jp_section_reference service_journey_patterns in
  jp <- Py.index service_journey_patterns 0 ;;
  let travel_mode :=
    match jp_travel_mode jp with
    | Some m => m
    | None => 3
    end in
  '(hour, minute, second) <- parse_departure_time (DepartureTime journey) ;;
  let ctx :=
    {| ctx_agency_id := jp_agency_id jp;
       ctx_route_id := jp_route_id jp;
       ctx_direction_id := jp_direction_id jp;
       ctx_line_name := jp_line_name jp;
       ctx_travel_mode := travel_mode;
       ctx_trip_headsign := jp_trip_headsign jp;
       ctx_vehicle_type := jp_vehicle_type jp;
       ctx_start_date := jp_start_date jp;
       ctx_end_date := jp_end_date jp;
       ctx_vehicle_journey_id := vehicle_journey_id;
       ctx_service_ref := service_ref;
       ctx_weekdays := weekdays;
       ctx_non_operative_days := non_operative_days;
       ctx_hour := hour;
       ctx_minute := minute |} in
  ss <- for_each (section_step ctx jp_section_references)
          {| ss_current_dt := None;
             ss_stop_num := 1;
             ss_section_times := rs_section_times st |}
          sections ;;
  match ss_section_times ss with
  | Some section_times =>
      Ok {| rs_gtfs_info := (rs_gtfs_info st ++ section_times)%list;
            rs_section_times := Some section_times |}
  | None => Raise UnboundLocalError
  end.

Definition process_vehicle_journeys (vjourneys : list vehicle_journey)
    (service_jp_info : list jp_info) (sections : list section)
    (service_operative_days service_non_operative_days : option string)
    : result (list row) :=
  st <- for_each (journey_step service_jp_info sections
                               service_operative_days service_non_operative_days)
          {| rs_gtfs_info := []; rs_section_times := None |}
          vjourneys ;;
  Ok (generate_service_id (rs_gtfs_info st)).

End TransXChange.

(** ** Elements of the parsed document *)

Module Untangle.

(** [element.name.cdata], from the texts of the children [name] of the
    element: the parser gives the child itself when there is one; it
    raises when there is none, and gives a list, which has no [cdata],
    when there are several. *)
Definition cdata (children : list string) : result string :=
  match children with
  | [text] => Ok text
  | _ => Raise AttributeError
  end.

End Untangle.

(** ** calendar.py: weekly patterns of the document, and the calendar table *)

Module CalendarTable.

Import StopTimes Calendar.

(** [get_weekday_info]: [reg_weekdays] holds the names of the elements
    under [DaysOfWeek], in document order; it is [None] for a journey
    whose operating profile lacks the path, where the access raises and
    the function returns [None]. *)
Definition get_weekday_info (reg_weekdays : option (list string)) : option string :=
  match reg_weekdays with
  | Some weekdays =>
      Some (if (List.length weekdays =? 1)%nat
            then nth 0 weekdays ""
            else Py.join "|" weekdays)
  | None => None
  end.

(** [get_service_operative_days_info] reads the same names from the
    operating profile of the service. *)
Definition get_service_operative_days_info (reg_weekdays : option (list string))
    : option string :=
  match reg_weekdays with
  | Some weekdays =>
      Some (if (List.length weekdays =? 1)%nat
            then nth 0 weekdays ""
            else Py.join "|" weekdays)
  | None => None
  end.

(** A row of the calendar table: [service_id], the seven day columns,
    [start_date], [end_date]. *)
Record calendar_entry : Type := mk_calendar_entry {
  cal_service_id : option string;
  cal_days : day_row;
  cal_start_date : string;
  cal_end_date : string
}.

(** Equality of two values of an optional column; two nulls are equal for
    [drop_duplicates]. *)
Definition option_eqb (a b : option string) : bool :=
  match a, b with
  | Some x, Some y => String.eqb x y
  | None, None => true
  | _, _ => false
  end.

(** The columns [use_cols] of a row. *)
Definition use_cols (r : row) : option string * option string * string * string :=
  (service_id r, weekdays r, start_date r, end_date r).

Definition use_cols_eqb (a b : option string * option string * string * string) : bool :=
  let '(sid_a, wd_a, sd_a, ed_a) := a in
  let '(sid_b, wd_b, sd_b, ed_b) := b in
  option_eqb sid_a sid_b && option_eqb wd_a wd_b
  && String.eqb sd_a sd_b && String.eqb ed_a ed_b.

(** The day columns of [col_order]. *)
Definition day_cols : list string :=
  ["monday"; "tuesday"; "wednesday"; "thursday"; "friday"; "saturday"; "sunday"].

(** A frame without the columns of [use_cols] is the frame of a run
    without journeys; it has no rows, and the result has none.  The empty
    result with the columns of [final_cols] is the empty list as well.

    A null cell of the column [weekdays] is read back from the frame, by
    [iterrows], as NaN: that is not [None], so [parse_day_range] takes it
    for a text, and its [strip] raises an [AttributeError]. *)
Definition get_calendar (gtfs_info : list row) : result (list calendar_entry) :=
  let calendar := drop_duplicates use_cols_eqb use_cols gtfs_info in
  gtfs_calendar <-
    mapM (fun row =>
            dayrow <-
              match weekdays row with
              | Some dayinfo => parse_day_range (Some dayinfo)
              | None => Raise AttributeError
              end ;;
            Ok (dayrow, service_id row, start_date row, end_date row))
         calendar ;;
  mapM (fun '(dayrow, sid, sd, ed) =>
          days <- mapM (fun col => v <- dict_get dayrow col ;; Ok (col, v)) day_cols ;;
          Ok {| cal_service_id := sid;
                cal_days := days;
                cal_start_date := sd;
                cal_end_date := ed |})
       gtfs_calendar.

End CalendarTable.

(** ** trips.py *)

Module TripsTable.

Import StopTimes CalendarTable.

(** A row of the trips table: the columns [trip_cols]. *)
Record trip : Type := mk_trip {
  tr_route_id : string;
  tr_service_id : option string;
  tr_trip_id : string;
  tr_trip_headsign : string;
  tr_direction_id : Z
}.

(** The columns of [drop_duplicates(subset=...)]. *)
Definition trip_key (r : row) : string * option string * string :=
  (route_id r, service_id r, trip_id r).

Definition trip_key_eqb (a b : string * option string * string) : bool :=
  let '(route_a, sid_a, trip_a) := a in
  let '(route_b, sid_b, trip_b) := b in
  String.eqb route_a route_b && option_eqb sid_a sid_b && String.eqb trip_a trip_b.

Definition select_trip_cols (r : row) : trip :=
  mk_trip (route_id r) (service_id r) (trip_id r) (trip_headsign r) (direction_id r).

(** A frame without the columns of [trip_cols] has no rows, and neither
    has the result. *)
Definition get_trips (gtfs_info : list row) : list trip :=
  let trips := drop_duplicates trip_key_eqb trip_key gtfs_info in
  map select_trip_cols trips.

End TripsTable.

(** ** calendar_dates.py *)

Module CalendarDates.

Import StopTimes CalendarTable.

(** A row of the calendar-dates table. *)
Record calendar_date (Date : Type) : Type := mk_calendar_date {
  cd_service_id : option string;
  cd_date : Date;
  cd_exception_type : Z
}.

Arguments mk_calendar_date {Date} _ _ _.
Arguments cd_service_id {Date} _.
Arguments cd_date {Date} _.
Arguments cd_exception_type {Date} _.

Definition is_null (v : option string) : bool :=
  match v with Some _ => false | None => true end.

(** The names that one value of the column [non_operative_days] adds to
    [non_operatives]. *)
Definition exception_names (info : string) : list string :=
  if Py.contains "|" info then Py.split "|" info
  else if negb (String.eqb info "") then [info]
  else [].

(** [get_calendar_dates_exceptions]: [non_operative_days] holds the names
    of the elements under [DaysOfNonOperation] of the journey; it is
    [None] when the path to them does not exist, where the access raises
    and the function returns [None]. *)
Definition get_calendar_dates_exceptions (non_operative_days : option (list string))
    : option string :=
  match non_operative_days with
  | Some weekdays =>
      Some (if (List.length weekdays =? 1)%nat
            then nth 0 weekdays ""
            else Py.join "|" weekdays)
  | None => None
  end.

(** [get_service_calendar_dates_exceptions] reads the same names from the
    operating profile of the service. *)
Definition get_service_calendar_dates_exceptions
    (non_operative_days : option (list string)) : option string :=
  match non_operative_days with
  | Some weekdays =>
      Some (if (List.length weekdays =? 1)%nat
            then nth 0 weekdays ""
            else Py.join "|" weekdays)
  | None => None
  end.

Section BankHolidays.

(** The dates of [transx2gtfs.bank_holidays.get_bank_holiday_dates], a
    module that the functions below import: the bank holidays within the
    operating period of the frame, or [None] when there is none. *)
Context {Date : Type}.
Variable get_bank_holiday_dates : list row -> option (list Date).

(** [non_operatives] is made a set before it is read; it is read for the
    warnings about unknown names, which change no result, and for being
    empty or not.  A frame without the column [non_operative_days] has no
    rows and gives [None] like a frame without exception names. *)
Definition get_calendar_dates (gtfs_info : list row)
    : result (option (list (calendar_date Date))) :=
  let gtfs_info := filter (fun r => negb (is_null (non_operative_days r))) gtfs_info in
  let non_operative_values :=
    drop_duplicates String.eqb (fun v => v) (non_null (map non_operative_days gtfs_info)) in
  let non_operatives := flat_map exception_names non_operative_values in
  match non_operatives with
  | [] => Ok None
  | _ =>
      match get_bank_holiday_dates gtfs_info with
      | None => Ok None
      | Some bank_holidays =>
          let calendar_info := drop_duplicates option_eqb service_id gtfs_info in
          let exception_type := 2 in
          let calendar_dates :=
            flat_map (fun row =>
                        map (fun date => mk_calendar_date (service_id row) date exception_type)
                            bank_holidays)
                     calendar_info in
          (* the column [exception_type] of a frame to which no row was added *)
          match calendar_dates with
          | [] => Raise KeyError
          | _ => Ok (Some calendar_dates)
          end
      end
  end.

End BankHolidays.

End CalendarDates.

(** ** routes.py *)

Module Routes.

Import StopTimes Untangle.

(** [mode in names], for a [mode] that may be [None]. *)
Definition among (mode : option string) (names : list string) : bool :=
  match mode with
  | Some m => existsb (String.eqb m) names
  | None => false
  end.

Definition get_mode (mode : option string) : Z :=
  if among mode ["tram"; "trolleyBus"] then 0
  else if among mode ["underground"; "metro"] then 1
  else if among mode ["rail"] then 2
  else if among mode ["bus"; "coach"] then 3
  else if among mode ["ferry"] then 4
  else 3.

(** [Service] holds, for every [Service] element of the document, the
    texts of its [Mode] children; there is none when the document has no
    [Services] element, or one without a [Service], and the access raises
    then.  Several services come as a list, in which [getattr] finds no
    [Mode]; the one service comes as itself, and its [Mode] is read when
    it has one. *)
Definition get_route_type (Service : list (list string)) : result Z :=
  mode <-
    match Service with
    | [] => Raise AttributeError
    | [Mode] =>
        match Mode with
        | [] => Ok "Bus"
        | _ => cdata Mode
        end
    | _ => Ok "Bus"
    end ;;
  Ok (get_mode (Some mode)).

(** A [Route] element: its attribute [id], [None] when it has none, and
    the texts of the children that are read. *)
Record route_element : Type := mk_route_element {
  route_element_id : option string;
  Description : list string;
  PrivateCode : list string;
  RouteSectionRef : list string
}.

(** A row of the routes table: the columns [use_cols]. *)
Record route : Type := mk_route {
  rt_route_id : option string;
  rt_agency_id : string;
  rt_route_short_name : string;
  rt_route_long_name : string;
  rt_route_type : Z
}.

(** [gtfs_info.loc[gtfs_info['route_id'] == route_id, 'agency_id'].unique()];
    no row of the frame has the identifier [None]. *)
Definition agencies_of_route (gtfs_info : list row) (route_id : option string)
    : list string :=
  drop_duplicates String.eqb (fun a => a)
    (map agency_id
         (filter (fun r =>
                    match route_id with
                    | Some id => String.eqb (StopTimes.route_id r) id
                    | None => false
                    end)
                 gtfs_info)).

(** [route_elements] holds the [Route] elements of the document, none
    when the document has no [Routes.Route]; [Service] is what
    [get_route_type] reads of the document.  A frame without the columns
    [route_id] and [agency_id] has no rows, and the default agency that it
    gives every route is also what the look-up in it gives. *)
Definition get_routes (gtfs_info : list row) (route_elements : list route_element)
    (Service : list (list string)) : result (list route) :=
  mapM (fun r =>
          let route_id := route_element_id r in
          agency_id <-
            match Py.index (agencies_of_route gtfs_info route_id) 0 with
            | Raise IndexError => Ok "UNKNOWN_AGENCY"
            | other => other
            end ;;
          route_long_name <- cdata (Description r) ;;
          route_private_id <- cdata (PrivateCode r) ;;
          route_short_name <- Py.index (Py.split "-_-" route_private_id) 0 ;;
          route_section_id <- cdata (RouteSectionRef r) ;;
          route_type <- get_route_type Service ;;
          Ok {| rt_route_id := route_id;
                rt_agency_id := agency_id;
                rt_route_short_name := route_short_name;
                rt_route_long_name := route_long_name;
                rt_route_type := route_type |})
       route_elements.

End Routes.

(** ** stops.py *)

Module Stops.

Import Untangle.

Section NaPTAN.

(** The values of the columns [stop_lon] and [stop_lat]. *)
Context {Coord : Type}.

(** A row of the frame of [read_naptan_stops]. *)
Record naptan_stop : Type := mk_naptan_stop {
  ns_stop_id : string;
  ns_stop_lon : Coord;
  ns_stop_lat : Coord;
  ns_stop_name : string
}.

(** One turn of the loop over the [AnnotatedStopPointRef] elements: [p]
    holds the texts of the [StopPointRef] children of the element. *)
Definition stop_step (naptan_stops : list naptan_stop) (stop_data : list naptan_stop)
    (p : list string) : result (list naptan_stop) :=
  stop_id <- cdata p ;;
  let stop := filter (fun s => String.eqb (ns_stop_id s) stop_id) naptan_stops in
  if (List.length stop =? 0)%nat then Ok stop_data
  else if (1 <? List.length stop)%nat then Raise ValueError
  else Ok (stop_data ++ stop)%list.

(** [naptan_stops] is the frame that [read_naptan_stops] reads from the
    NaPTAN file; [AnnotatedStopPointRef] holds the elements of that name
    under [StopPoints], none when the document has no such element, where
    the access raises. *)
Definition _get_txc_21_style_stops (naptan_stops : list naptan_stop)
    (AnnotatedStopPointRef : list (list string)) : result (list naptan_stop) :=
  match AnnotatedStopPointRef with
  | [] => Raise AttributeError
  | _ => for_each (stop_step naptan_stops) [] AnnotatedStopPointRef
  end.

End NaPTAN.

Arguments naptan_stop Coord : clear implicits.

End Stops.

(** ** The index of journey patterns: [get_direction] of stop_times.py,
    and transxchange.py continued *)

(** [datetime.strftime(datetime.strptime(s, '%Y-%m-%d'), '%Y%m%d')] *)
Module Dates.

(** One character of each class in turn: the text matched, and the rest. *)
Fixpoint match_classes (classes : list (ascii -> bool)) (s : string)
    : option (string * string) :=
  match classes with
  | [] => Some (EmptyString, s)
  | cl :: classes' =>
      match s with
      | String c s' =>
          if cl c then
            match match_classes classes' s' with
            | Some (m, r) => Some (String c m, r)
            | None => None
            end
          else None
      | EmptyString => None
      end
  end.

Definition one_of (chars : string) (c : ascii) : bool :=
  existsb (Ascii.eqb c) (list_ascii_of_string chars).

(** The pattern of [%m]: 1[0-2], 0[1-9] or [1-9]. *)
Definition month_alternatives : list (list (ascii -> bool)) :=
  [[one_of "1"; one_of "012"];
   [one_of "0"; one_of "123456789"];
   [one_of "123456789"]].

(** The pattern of [%d]: 3[0-1], [1-2]\d, 0[1-9], [1-9] or a space and
    [1-9]. *)
Definition day_alternatives : list (list (ascii -> bool)) :=
  [[one_of "3"; one_of "01"];
   [one_of "12"; Py.is_digit];
   [one_of "0"; one_of "123456789"];
   [one_of "123456789"];
   [one_of " "; one_of "123456789"]].

(** The first alternative, in order, that matches at the start of [s] and
    after which the rest of the pattern, [k], matches. *)
Fixpoint first_match {A : Type} (alternatives : list (list (ascii -> bool))) (s : string)
    (k : string -> string -> option A) : option A :=
  match alternatives with
  | [] => None
  | alt :: alternatives' =>
      match match_classes alt s with
      | Some (m, r) =>
          match k m r with
          | Some a => Some a
          | None => first_match alternatives' s k
          end
      | None => first_match alternatives' s k
      end
  end.

Definition literal (c : ascii) (s : string) : option string :=
  match s with
  | String x r => if Ascii.eqb x c then Some r else None
  | EmptyString => None
  end.

(** The match of the pattern of ['%Y-%m-%d'] at the start of [s]: the
    groups [Y], [m], [d], and the text that remains. *)
Definition match_Ymd (s : string) : option (string * string * string * string) :=
  match match_classes [Py.is_digit; Py.is_digit; Py.is_digit; Py.is_digit] s with
  | Some (Y, r) =>
      match literal "-" r with
      | Some r =>
          first_match month_alternatives r
            (fun m r =>
               match literal "-" r with
               | Some r => first_match day_alternatives r (fun d r => Some (Y, m, d, r))
               | None => None
               end)
      | None => None
      end
  | None => None
  end.

Definition is_leap (year : Z) : bool :=
  (year mod 4 =? 0) && (negb (year mod 100 =? 0) || (year mod 400 =? 0)).

Definition days_in_month (year month : Z) : Z :=
  if month =? 2 then (if is_leap year then 29 else 28)
  else if (month =? 4) || (month =? 6) || (month =? 9) || (month =? 11) then 30
  else 31.

(** [datetime.strptime(s, '%Y-%m-%d')]: year, month and day. *)
Definition strptime_Ymd (s : string) : result (Z * Z * Z) :=
  match match_Ymd s with
  | Some (Y, m, d, EmptyString) =>
      year <- Py.int Y ;;
      month <- Py.int m ;;
      day <- Py.int d ;;
      if (1 <=? year) && (1 <=? day) && (day <=? days_in_month year month)
      then Ok (year, month, day)
      else Raise ValueError
  | _ => Raise ValueError
  end.

(** [strftime('%Y%m%d')], with the year as the C library of Linux writes
    it: without leading zeros. *)
Definition strftime_Ymd (date : Z * Z * Z) : string :=
  let '(year, month, day) := date in
  Py.str year ++ Py.zfill 2 (Py.str month) ++ Py.zfill 2 (Py.str day).

Definition reformat_date (s : string) : result string :=
  date <- strptime_Ymd s ;;
  Ok (strftime_Ymd date).

End Dates.

Module ServicePatterns.

Import StopTimes TransXChange Untangle Routes Dates.

(** [get_direction] of stop_times.py *)
Definition get_direction (direction_id : string) : result Z :=
  if String.eqb direction_id "inbound" then Ok 0
  else if String.eqb direction_id "outbound" then Ok 1
  else Raise ValueError.

(** A [JourneyPattern] element: its [id], the texts of the children that
    are read, and the texts of the vehicle type under [Operational], each
    [None] when the pattern has no such element that counts as true. *)
Record journey_pattern : Type := mk_journey_pattern {
  journey_pattern_id : string;
  JourneyPatternSectionRefs : list string;
  Direction : list string;
  RouteRef : list string;
  VehicleTypeCode : option string;
  VehicleTypeDescription : option string
}.

(** A [Service] element.  [ServiceDescription], [Mode] and [EndDate] are
    the texts of the optional elements [Description], [Mode] and
    [OperatingPeriod.EndDate], each [None] when the service has no such
    element that counts as true; [Lines] has, for every [Line], the texts
    of its [LineName] children; [JourneyPattern], [Origin] and
    [Destination] are those of [StandardService]. *)
Record service : Type := mk_service {
  ServiceDescription : option string;
  Mode : option string;
  Lines : list (list string);
  ServiceCode : list string;
  RegisteredOperatorRef : list string;
  StartDate : list string;
  EndDate : option string;
  JourneyPattern : list journey_pattern;
  Origin : list string;
  Destination : list string
}.

(** A row of the frame of [get_service_journey_pattern_info]: the columns
    that [process_vehicle_journeys] reads, and the three other columns. *)
Record service_jp_row : Type := mk_service_jp_row {
  read_columns : jp_info;
  service_code : string;
  service_description : string;
  vehicle_description : option string
}.

(** One turn of the loop over the journey patterns of a service. *)
Definition pattern_step (service : service)
    (service_description : string) (mode : Z) (line_name service_code agency_id
     start_date end_date : string)
    (service_jp_info : list service_jp_row) (jp : journey_pattern)
    : result (list service_jp_row) :=
  let journey_pattern_id := journey_pattern_id jp in
  section_ref <- cdata (JourneyPatternSectionRefs jp) ;;
  direction_text <- cdata (Direction jp) ;;
  direction <- get_direction direction_text ;;
  headsign <-
    (if direction =? 0 then cdata (Origin service) else cdata (Destination service)) ;;
  route_ref <- cdata (RouteRef jp) ;;
  let vehicle_type := VehicleTypeCode jp in
  let vehicle_description := VehicleTypeDescription jp in
  let row :=
    {| read_columns :=
         {| jp_journey_pattern_id := journey_pattern_id;
            jp_section_reference := section_ref;
            jp_agency_id := agency_id;
            jp_route_id := route_ref;
            jp_direction_id := direction;
            jp_line_name := line_name;
            jp_travel_mode := Some mode;
            jp_trip_headsign := headsign;
            jp_vehicle_type := vehicle_type;
            jp_start_date := start_date;
            jp_end_date := end_date |};
       service_code := service_code;
       service_description := service_description;
       vehicle_description := vehicle_description |} in
  Ok (service_jp_info ++ [row])%list.

(** One turn of the loop over the services. *)
Definition service_step (service_jp_info : list service_jp_row) (service : service)
    : result (list service_jp_row) :=
  let service_description :=
    match ServiceDescription service with
    | Some text => text
    | None => ""
    end in
  let mode :=
    match Mode service with
    | Some text => get_mode (Some text)
    | None => get_mode None
    end in
  line_name <-
    match Lines service with
    | [] => Raise AttributeError
    | [names] =>
        match names with
        | [] => Ok ""
        | _ => cdata names
        end
    | names :: _ => cdata names
    end ;;
  service_code <- cdata (ServiceCode service) ;;
  agency_id <- cdata (RegisteredOperatorRef service) ;;
  start_text <- cdata (StartDate service) ;;
  start_date <- reformat_date start_text ;;
  end_date <-
    match EndDate service with
    | Some text => reformat_date text
    | None => Ok "20991231"
    end ;;
  journey_patterns <-
    match JourneyPattern service with
    | [] => Raise AttributeError
    | patterns => Ok patterns
    end ;;
  for_each (pattern_step service service_description mode line_name service_code
                         agency_id start_date end_date)
           service_jp_info journey_patterns.

(** [services] holds the [Service] elements of the document; there is none
    when the document has no [Services] element, or one without a
    [Service], and the frame is empty then. *)
Definition get_service_journey_pattern_info (services : list service)
    : result (list service_jp_row) :=
  for_each service_step [] services.

End ServicePatterns.

Module Pipeline.

Import StopTimes TransXChange CalendarTable CalendarDates ServicePatterns.

(** What [get_gtfs_info] reads of a document: the [JourneyPatternSection]
    and [VehicleJourney] elements, none when their parent is missing or
    has none; the [Service] elements; and the names of the elements under
    [DaysOfWeek] and [DaysOfNonOperation] of the operating profile of the
    one service, [None] when the path to them does not exist (as when
    there are several services). *)
Record document : Type := mk_document {
  JourneyPatternSection : list section;
  VehicleJourney : list vehicle_journey;
  Service : list service;
  ServiceDaysOfWeek : option (list string);
  ServiceDaysOfNonOperation : option (list string)
}.

Definition get_gtfs_info (data : document) : result (list row) :=
  let sections := JourneyPatternSection data in
  let vjourneys := VehicleJourney data in
  service_jp_info <- get_service_journey_pattern_info (Service data) ;;
  let service_operative_days := get_service_operative_days_info (ServiceDaysOfWeek data) in
  let service_non_operative_days :=
    get_service_calendar_dates_exceptions (ServiceDaysOfNonOperation data) in
  process_vehicle_journeys vjourneys (map read_columns service_jp_info) sections
                           service_operative_days service_non_operative_days.

End Pipeline.

(** ** Vocabulary of the statements *)

(** Runtime codes with their segments written out. *)
Module Duration.

(** The numeral of [n] followed by its unit marker, or nothing when the
    segment is left out. *)
Definition segment (n : option nat) (marker : ascii) : string :=
  match n with
  | Some k => Py.str (Z.of_nat k) ++ String marker ""
  | None => ""
  end.

(** The code with an hour, a minute and a second segment, each optional,
    in that order. *)
Definition duration_code (h m s : option nat) : string :=
  "PT" ++ segment h "H" ++ segment m "M" ++ segment s "S".

Definition amount (n : option nat) : Z :=
  match n with
  | Some k => Z.of_nat k
  | None => 0
  end.

(** The number of seconds that the code of [h], [m] and [s] encodes. *)
Definition encoded_seconds (h m s : option nat) : Z :=
  amount h * 3600 + amount m * 60 + amount s.

(** The text after the numeral that [s] starts with. *)
Fixpoint skip_digits (s : string) : string :=
  match s with
  | EmptyString => EmptyString
  | String c s' => if Py.is_digit c then skip_digits s' else s
  end.

(** The text after a leading segment with the given marker, or [s] itself
    when it does not start with such a segment. *)
Definition skip_segment (marker : ascii) (s : string) : string :=
  match s with
  | EmptyString => s
  | String c _ =>
      if Py.is_digit c then
        match skip_digits s with
        | String m r => if Ascii.eqb m marker then r else s
        | EmptyString => s
        end
      else s
  end.

(** The well-formed codes: "PT", then an hour, a minute and a second
    segment in that order, each a numeral with its marker right after it,
    each optional, and nothing else. *)
Definition well_formed_code (s : string) : bool :=
  match s with
  | String "P" (String "T" r) =>
      Py.is_empty (skip_segment "S" (skip_segment "M" (skip_segment "H" r)))
  | _ => false
  end.

End Duration.

(** The days of the week, in calendar order. *)
Module Weekday.

Inductive day : Type :=
| Monday | Tuesday | Wednesday | Thursday | Friday | Saturday | Sunday.

Definition day_name (d : day) : string :=
  match d with
  | Monday => "monday"
  | Tuesday => "tuesday"
  | Wednesday => "wednesday"
  | Thursday => "thursday"
  | Friday => "friday"
  | Saturday => "saturday"
  | Sunday => "sunday"
  end.

(** The calendar position of a day, Monday first. *)
Definition position (d : day) : Z :=
  match d with
  | Monday => 0
  | Tuesday => 1
  | Wednesday => 2
  | Thursday => 3
  | Friday => 4
  | Saturday => 5
  | Sunday => 6
  end.

Definition all_days : list day :=
  [Monday; Tuesday; Wednesday; Thursday; Friday; Saturday; Sunday].

(** The row of seven flags in which exactly the days of [active] are 1. *)
Definition flag_row (active : day -> bool) : Calendar.day_row :=
  map (fun d => (day_name d, if active d then 1 else 0)) all_days.

(** The all-days-inactive row. *)
Definition inactive_row : Calendar.day_row := flag_row (fun _ => false).

(** The days from [a] to [b], both included. *)
Definition between (a b d : day) : bool :=
  (position a <=? position d) && (position d <=? position b).

End Weekday.

(** Trips of a stop-time table. *)
Module Trips.

Import StopTimes.

(** The rows of trip [t], in table order. *)
Definition trip_rows (t : string) (stop_times : list stop_time) : list stop_time :=
  filter (fun r => String.eqb (st_trip_id r) t) stop_times.

(** The stop-time records of trip [t] in a [gtfs_info] frame: its rows on
    the stop-time columns, a record that several rows repeat taken once. *)
Definition trip_records (t : string) (gtfs_info : list row) : list stop_time :=
  trip_rows t (drop_duplicates stop_time_eqb (fun r => r)
                 (map select_stop_times_cols gtfs_info)).

End Trips.

(** Calendar groups of a [gtfs_info] frame. *)
Module Services.

Import StopTimes.

(** The weekly pattern that the frame has for a vehicle journey: that of
    the first row of the journey. *)
Definition journey_weekdays (calendar_info : list row) (v : string) : option string :=
  match find (fun c => String.eqb (vehicle_journey_id c) v) calendar_info with
  | Some c => weekdays c
  | None => None
  end.

(** The identifier of the group of a weekly pattern: it is made from the
    first journey of the group. *)
Definition group_service_id (calendar_info : list row) (weekday : string) : option string :=
  match filter (has_weekdays weekday) calendar_info with
  | [] => None
  | first :: _ =>
      Some (format_service_id (service_ref first) (start_date first) (end_date first)
                              weekday)
  end.

(** The frame [calendar_info] of [generate_service_id]. *)
Definition calendar_info_of (stop_times : list row) : list row :=
  drop_duplicates String.eqb vehicle_journey_id (map (set_service_id None) stop_times).

(** The identifier that a row is given. *)
Definition assigned (calendar_info : list row) (r : row) : option string :=
  match journey_weekdays calendar_info (vehicle_journey_id r) with
  | Some k => group_service_id calendar_info k
  | None => None
  end.

(** Rows of one vehicle journey carry one weekly pattern. *)
Definition consistent (stop_times : list row) : Prop :=
  forall r1 r2, In r1 stop_times -> In r2 stop_times ->
                vehicle_journey_id r1 = vehicle_journey_id r2 ->
                weekdays r1 = weekdays r2.

(** The journey of row [r] has the weekly pattern [weekday] in the frame. *)
Definition in_group (stop_times : list row) (weekday : string) (r : row) : bool :=
  match journey_weekdays stop_times (vehicle_journey_id r) with
  | Some w => String.eqb w weekday
  | None => false
  end.

(** The first journey of the group of a weekly pattern: the first row of
    the frame whose journey has that pattern. *)
Definition first_of_group (stop_times : list row) (weekday : string) : option row :=
  find (in_group stop_times weekday) stop_times.

(** The calendar identifier of a row: that of the weekly pattern of its
    journey, made from the service and the dates of the first journey of
    the group of that pattern; none for a journey without a pattern. *)
Definition identifier (stop_times : list row) (r : row) : option string :=
  match journey_weekdays stop_times (vehicle_journey_id r) with
  | Some weekday =>
      match first_of_group stop_times weekday with
      | Some first =>
          Some (format_service_id (service_ref first) (start_date first) (end_date first)
                                  weekday)
      | None => None
      end
  | None => None
  end.

End Services.

(** Clock values of a trip. *)
Module Timetable.

Import StopTimes TransXChange.

(** The text "H:MM:SS" of a number of seconds since the midnight of the
    reference day, hours of two digits or more and not wrapped at 24. *)
Definition clock_string (t : Z) : string :=
  Py.zfill 2 (Py.str (t / 3600)) ++ ":" ++ strftime_MS t.

(** The number of seconds that a clock text "H:MM:SS" stands for. *)
Definition clock_value (text : string) : result Z :=
  '(h, m, s) <- parse_departure_time text ;;
  Ok (h * 3600 + m * 60 + s).

(** The text that the code emits for the clock value [clock] of a journey
    that starts in the hour [hour], the arrival and the departure being at
    the same instant. *)
Definition emitted_clock (hour : Z) (clock : datetime) : string :=
  Py.zfill 2
    (Py.str (fst (get_midnight_formatted_times (dt_hour clock) (dt_hour clock)
                                               hour clock clock)))
  ++ ":" ++ strftime_MS clock.

(** The row of a stop that is passed at [clock]. *)
Definition stop_row (ctx : journey_context) (trip stop rlr : string) (seq tp : Z)
    (nod : option string) (clock : datetime) : row :=
  {| stop_id := stop;
     stop_sequence := seq;
     timepoint := tp;
     arrival_time := emitted_clock (ctx_hour ctx) clock;
     departure_time := emitted_clock (ctx_hour ctx) clock;
     route_link_ref := rlr;
     agency_id := ctx_agency_id ctx;
     trip_id := trip;
     route_id := ctx_route_id ctx;
     vehicle_journey_id := ctx_vehicle_journey_id ctx;
     service_ref := ctx_service_ref ctx;
     direction_id := ctx_direction_id ctx;
     line_name := ctx_line_name ctx;
     travel_mode := ctx_travel_mode ctx;
     trip_headsign := ctx_trip_headsign ctx;
     vehicle_type := ctx_vehicle_type ctx;
     start_date := ctx_start_date ctx;
     end_date := ctx_end_date ctx;
     weekdays := ctx_weekdays ctx;
     non_operative_days := nod;
     service_id := None |}.

(** The rows of the links [lds], each with its duration, walked after a
    first link: a link gives the row of its departure stop, at the clock
    advanced by the duration of that same link. *)
Fixpoint link_rows (ctx : journey_context) (trip : string) (clock n : Z)
    (lds : list (timing_link * Z)) : list row :=
  match lds with
  | [] => []
  | (l, d) :: rest =>
      stop_row ctx trip (From_StopPointRef l) (RouteLinkRef l) n 0
               (ctx_non_operative_days ctx) (clock + d)
      :: link_rows ctx trip (clock + d) (n + 1) rest
  end.

(** The clock after each of the links [ds], starting from [clock]. *)
Fixpoint link_clocks (clock : Z) (ds : list Z) : list Z :=
  match ds with
  | [] => []
  | d :: ds' => (clock + d) :: link_clocks (clock + d) ds'
  end.

(** The clock values of the rows of a section walked first in a journey,
    as the code computes them: the start for the first link, then the
    clock advanced by the duration of each later link, and for the last
    stop the clock advanced by the duration of the last link once more. *)
Definition trip_clocks (start : Z) (ds : list Z) : list Z :=
  match ds with
  | [] => []
  | d1 :: rest =>
      let clocks := start :: link_clocks start rest in
      (clocks ++ [last clocks start + last ds 0])%list
  end.

(** The rows of a section that is the first to match in a journey, walked
    from stop number [n]: the first stop at the start of the journey, the
    departure stops of the later links, and the last stop. *)
Definition first_section_rows (ctx : journey_context) (trip : string) (start n : Z)
    (links : list timing_link) (ds : list Z) : list row :=
  match links, ds with
  | l1 :: links', d1 :: ds' =>
      let clock := last (link_clocks start ds') start in
      let '(l, d) := last (combine links' ds') (l1, d1) in
      (stop_row ctx trip (From_StopPointRef l1) (RouteLinkRef l1) n 1
                (ctx_non_operative_days ctx) start
       :: link_rows ctx trip start (n + 1) (combine links' ds')
       ++ [stop_row ctx trip (To_StopPointRef l) (RouteLinkRef l)
                    (n + Z.of_nat (List.length links)) 0 None (clock + d)])%list
  | _, _ => []
  end.

(** The trip identifier that the code makes for a section in a journey. *)
Definition trip_id_of (ctx : journey_context) (sec : section) : string :=
  section_id sec ++ "_" ++ format_optional (ctx_weekdays ctx) ++ "_"
    ++ Py.zfill 2 (Py.str (ctx_hour ctx)) ++ Py.zfill 2 (Py.str (ctx_minute ctx)).

(** The context of a journey with the pattern row [jp] that departs at
    [hour]:[minute]. *)
Definition context_of (jp : jp_info) (journey : vehicle_journey)
    (service_operative_days service_non_operative_days : option string)
    (hour minute : Z) : journey_context :=
  {| ctx_agency_id := jp_agency_id jp;
     ctx_route_id := jp_route_id jp;
     ctx_direction_id := jp_direction_id jp;
     ctx_line_name := jp_line_name jp;
     ctx_travel_mode := match jp_travel_mode jp with Some m => m | None => 3 end;
     ctx_trip_headsign := jp_trip_headsign jp;
     ctx_vehicle_type := jp_vehicle_type jp;
     ctx_start_date := jp_start_date jp;
     ctx_end_date := jp_end_date jp;
     ctx_vehicle_journey_id := VehicleJourneyCode journey;
     ctx_service_ref := ServiceRef journey;
     ctx_weekdays :=
       match weekday_info journey with
       | None => service_operative_days
       | w => w
       end;
     ctx_non_operative_days :=
       match calendar_dates_exceptions journey with
       | None => service_non_operative_days
       | d => d
       end;
     ctx_hour := hour;
     ctx_minute := minute |}.

(** The sections of the document that a list of references names. *)
Definition matching_sections (jp_section_references : list string)
    (sections : list section) : list section :=
  filter (fun sec => existsb (String.eqb (section_id sec)) jp_section_references)
         sections.

(** The references of the journey pattern rows with the given identifier. *)
Definition section_references (service_jp_info : list jp_info) (jp_id : string)
    : list string :=
  map jp_section_reference
      (filter (fun jp => String.eqb (jp_journey_pattern_id jp) jp_id) service_jp_info).

End Timetable.

(** Small frames and documents on which the statements are tried. *)
Module Samples.

Import StopTimes TransXChange.

(** A document with the stops A, B, C: a section of two links of one and
    two minutes, the pattern JP1 that names it, and journeys of JP1. *)
Definition link_AB : timing_link := mk_link "A" "B" "PT1M" "RL1".
Definition link_BC : timing_link := mk_link "B" "C" "PT2M" "RL2".
Definition section_ABC : section := mk_section "JPS1" [link_AB; link_BC].

Definition pattern_of (section_ref : string) : jp_info :=
  {| jp_journey_pattern_id := "JP1";
     jp_section_reference := section_ref;
     jp_agency_id := "OP1";
     jp_route_id := "R1";
     jp_direction_id := 1;
     jp_line_name := "7";
     jp_travel_mode := Some 3;
     jp_trip_headsign := "Town";
     jp_vehicle_type := None;
     jp_start_date := "20240101";
     jp_end_date := "20241231" |}.

Definition journey_at (code pattern departure : string) : vehicle_journey :=
  {| ServiceRef := "SVC1";
     JourneyPatternRef := pattern;
     VehicleJourneyCode := code;
     DepartureTime := departure;
     weekday_info := Some "MondayToFriday";
     calendar_dates_exceptions := None |}.

(** A section with the one link from A to B. *)
Definition section_AB (runtime : string) : section :=
  mk_section "JPS1" [mk_link "A" "B" runtime "RL1"].

(** The link from B to C as a section of its own. *)
Definition section_BC : section := mk_section "JPS2" [link_BC].

(** The stop, number, timepoint flag and clock texts of the rows of a run. *)
Definition stop_columns (run : result (list row))
    : result (list (string * Z * Z * string * string)) :=
  rows <- run ;;
  Ok (map (fun r => (stop_id r, stop_sequence r, timepoint r,
                     arrival_time r, departure_time r)) rows).

(** A run over one document with no service-level defaults. *)
Definition run (vjourneys : list vehicle_journey) (service_jp_info : list jp_info)
    (sections : list section) : result (list row) :=
  process_vehicle_journeys vjourneys service_jp_info sections None None.

(** A row of vehicle journey [vj] of service [sr], valid from [sd] to
    [ed] on the days [wd], for the stop number [seq] of trip [trip]. *)
Definition sample_row (trip vj sr sd ed : string) (wd : option string) (seq : Z) : row :=
  {| stop_id := "stop" ++ Py.str seq;
     stop_sequence := seq;
     timepoint := if seq =? 1 then 1 else 0;
     arrival_time := "08:0" ++ Py.str seq ++ ":00";
     departure_time := "08:0" ++ Py.str seq ++ ":00";
     route_link_ref := "RL1";
     agency_id := "OP1";
     trip_id := trip;
     route_id := "R1";
     vehicle_journey_id := vj;
     service_ref := sr;
     direction_id := 1;
     line_name := "7";
     travel_mode := 3;
     trip_headsign := "Town";
     vehicle_type := None;
     start_date := sd;
     end_date := ed;
     weekdays := wd;
     non_operative_days := None;
     service_id := None |}.

(** Two journeys of different services that run on the same days. *)
Definition two_services : list row :=
  [sample_row "T1" "VJ1" "SVC1" "20240101" "20241231" (Some "MondayToFriday") 1;
   sample_row "T2" "VJ2" "SVC2" "20240101" "20241231" (Some "MondayToFriday") 1].

(** Three journeys of one service, two on weekdays and one at the weekend. *)
Definition three_journeys : list row :=
  [sample_row "T1" "VJ1" "SVC1" "20240101" "20241231" (Some "MondayToFriday") 1;
   sample_row "T2" "VJ2" "SVC1" "20240101" "20241231" (Some "Weekend") 1;
   sample_row "T3" "VJ3" "SVC1" "20240101" "20241231" (Some "MondayToFriday") 1].

(** A journey code with rows of two weekly patterns, and a journey of a
    second service at the weekend. *)
Definition two_patterns : list row :=
  [sample_row "T1" "VJ1" "SVC1" "20240101" "20241231" (Some "MondayToFriday") 1;
   sample_row "T1" "VJ1" "SVC1" "20240101" "20241231" (Some "Weekend") 2;
   sample_row "T2" "VJ2" "SVC2" "20240101" "20241231" (Some "Weekend") 1].

(** A trip of one record and a trip of two records. *)
Definition short_and_long : list row :=
  [sample_row "T1" "VJ1" "SVC1" "20240101" "20241231" (Some "MondayToFriday") 1;
   sample_row "T2" "VJ2" "SVC1" "20240101" "20241231" (Some "MondayToFriday") 1;
   sample_row "T2" "VJ2" "SVC1" "20240101" "20241231" (Some "MondayToFriday") 2].

End Samples.

(** Sets of days, given as lists. *)
Module WeekdaySets.

Import Weekday.

(** [d] is one of the days [ds]. *)
Definition among (ds : list day) (d : day) : bool :=
  existsb (fun x => position d =? position x) ds.

Definition weekend_day (d : day) : bool :=
  match d with
  | Saturday | Sunday => true
  | _ => false
  end.

End WeekdaySets.

(** Rows of the calendar table. *)
Module CalendarRows.

Import StopTimes Calendar CalendarTable.

(** The calendar entry that a row of the frame stands for: its service,
    its period, and the flags of its weekly pattern. *)
Definition entry_of (r : row) : result calendar_entry :=
  dayrow <- parse_day_range (weekdays r) ;;
  Ok {| cal_service_id := service_id r;
        cal_days := dayrow;
        cal_start_date := start_date r;
        cal_end_date := end_date r |}.

End CalendarRows.

(** Rows of the frame with days of non-operation. *)
Module Exceptions.

Import StopTimes CalendarDates.

(** The rows that have a value in the column [non_operative_days]. *)
Definition with_exceptions (gtfs_info : list row) : list row :=
  filter (fun r => negb (is_null (non_operative_days r))) gtfs_info.

(** The row names a day of non-operation: its value is neither null nor
    the empty text. *)
Definition names_exception (r : row) : Prop :=
  exists v, non_operative_days r = Some v /\ v <> "".

End Exceptions.

(** Sections that the walk of a journey gets through. *)
Module Sections.

Import StopTimes TransXChange Timetable.

(** The section has a timing link, and the runtime code of each of its
    links can be read. *)
Definition walkable (sec : section) : Prop :=
  JourneyPatternTimingLink sec <> []
  /\ is_ok (mapM parse_runtime_duration (map RunTime (JourneyPatternTimingLink sec)))
     = true.

(** The first row of the index with the pattern identifier of a journey. *)
Definition pattern_of_journey (service_jp_info : list jp_info) (journey : vehicle_journey)
    : option jp_info :=
  find (fun jp => String.eqb (jp_journey_pattern_id jp) (JourneyPatternRef journey))
       service_jp_info.

(** The sections that the pattern of a journey names, in document order. *)
Definition sections_of_journey (service_jp_info : list jp_info) (sections : list section)
    (journey : vehicle_journey) : list section :=
  matching_sections (section_references service_jp_info (JourneyPatternRef journey))
                    sections.

End Sections.

(** Further frames and documents on which the statements are tried. *)
Module Cases.

Import StopTimes TransXChange Samples.

(** The pattern [id], which names the section [section_ref]. *)
Definition pattern_with (id section_ref : string) : jp_info :=
  {| jp_journey_pattern_id := id;
     jp_section_reference := section_ref;
     jp_agency_id := "OP1";
     jp_route_id := "R1";
     jp_direction_id := 1;
     jp_line_name := "7";
     jp_travel_mode := Some 3;
     jp_trip_headsign := "Town";
     jp_vehicle_type := None;
     jp_start_date := "20240101";
     jp_end_date := "20241231" |}.

(** A row of service [sid] with the days of non-operation [nod]. *)
Definition exception_row (sid : option string) (nod : option string) : row :=
  {| stop_id := "A";
     stop_sequence := 1;
     timepoint := 1;
     arrival_time := "08:00:00";
     departure_time := "08:00:00";
     route_link_ref := "RL1";
     agency_id := "OP1";
     trip_id := "T1";
     route_id := "R1";
     vehicle_journey_id := "VJ1";
     service_ref := "SVC1";
     direction_id := 1;
     line_name := "7";
     travel_mode := 3;
     trip_headsign := "Town";
     vehicle_type := None;
     start_date := "20240101";
     end_date := "20241231";
     weekdays := Some "MondayToFriday";
     non_operative_days := nod;
     service_id := sid |}.

(** Two services with days of non-operation and one without. *)
Definition exception_frame : list row :=
  [exception_row (Some "S1") (Some "ChristmasDay");
   exception_row (Some "S2") None;
   exception_row (Some "S3") (Some "AllBankHolidays");
   exception_row (Some "S1") (Some "BoxingDay|NewYearsDay")].

(** A frame with a weekly pattern that is no pattern of days. *)
Definition holiday_frame : list row :=
  [sample_row "T1" "VJ1" "SVC1" "20240101" "20241231" (Some "MondayToFriday") 1;
   sample_row "T2" "VJ2" "SVC1" "20240101" "20241231" (Some "HolidaysOnly") 1].

(** A journey with a weekly pattern and a journey without one. *)
Definition with_and_without : list row :=
  [sample_row "T1" "VJ1" "SVC1" "20240101" "20241231" (Some "MondayToFriday") 1;
   sample_row "T2" "VJ2" "SVC1" "20240101" "20241231" None 1].

(** The journey pattern JP1 of route R1, in the given direction and with
    the given section references. *)
Definition pattern_JP1 (direction : string) (section_refs : list string)
    : ServicePatterns.journey_pattern :=
  {| ServicePatterns.journey_pattern_id := "JP1";
     ServicePatterns.JourneyPatternSectionRefs := section_refs;
     ServicePatterns.Direction := [direction];
     ServicePatterns.RouteRef := ["R1"];
     ServicePatterns.VehicleTypeCode := None;
     ServicePatterns.VehicleTypeDescription := None |}.

(** The bus service SVC1 of operator OP1 from Town to Station, from the
    first of January 2024 on, with the given journey patterns. *)
Definition service_with (patterns : list ServicePatterns.journey_pattern)
    : ServicePatterns.service :=
  {| ServicePatterns.ServiceDescription := Some "Town - Station";
     ServicePatterns.Mode := Some "bus";
     ServicePatterns.Lines := [["7"]];
     ServicePatterns.ServiceCode := ["SVC1"];
     ServicePatterns.RegisteredOperatorRef := ["OP1"];
     ServicePatterns.StartDate := ["2024-01-01"];
     ServicePatterns.EndDate := None;
     ServicePatterns.JourneyPattern := patterns;
     ServicePatterns.Origin := ["Town"];
     ServicePatterns.Destination := ["Station"] |}.

(** A document with the given sections, journeys and services. *)
Definition document_with (sections : list section) (journeys : list vehicle_journey)
    (services : list ServicePatterns.service) : Pipeline.document :=
  {| Pipeline.JourneyPatternSection := sections;
     Pipeline.VehicleJourney := journeys;
     Pipeline.Service := services;
     Pipeline.ServiceDaysOfWeek := Some ["MondayToFriday"];
     Pipeline.ServiceDaysOfNonOperation := None |}.

(** A NaPTAN frame with the stops A and C, and with B twice. *)
Definition naptan_frame : list (Stops.naptan_stop Z) :=
  [Stops.mk_naptan_stop "A" 1 51 "Stop A";
   Stops.mk_naptan_stop "B" 2 52 "Stop B";
   Stops.mk_naptan_stop "C" 3 53 "Stop C";
   Stops.mk_naptan_stop "B" 4 54 "Stop B again"].

End Cases.

(** The journey patterns of a document and the rows of their index. *)
Module PatternIndex.

Import StopTimes TransXChange Routes Dates ServicePatterns.

(** The journey patterns of the services, each with its service, in
    document order. *)
Definition patterns_of (services : list service) : list (service * journey_pattern) :=
  flat_map (fun s => map (pair s) (JourneyPattern s)) services.

(** The direction and the headsign of a row are those of pattern [jp] of
    service [s]: 0 and the origin of the service for an inbound pattern,
    1 and its destination for an outbound one. *)
Definition heads (s : service) (jp : journey_pattern) (direction : Z) (headsign : string)
    : Prop :=
  (Direction jp = ["inbound"] /\ direction = 0 /\ Origin s = [headsign])
  \/ (Direction jp = ["outbound"] /\ direction = 1 /\ Destination s = [headsign]).

(** [row] is the row of pattern [jp] of service [s]. *)
Definition row_of_pattern (sp : service * journey_pattern) (row : service_jp_row) : Prop :=
  let '(s, jp) := sp in
  let info := read_columns row in
  jp_journey_pattern_id info = journey_pattern_id jp
  /\ JourneyPatternSectionRefs jp = [jp_section_reference info]
  /\ RouteRef jp = [jp_route_id info]
  /\ RegisteredOperatorRef s = [jp_agency_id info]
  /\ heads s jp (jp_direction_id info) (jp_trip_headsign info)
  /\ jp_travel_mode info = Some (get_mode (Mode s))
  /\ (exists start, StartDate s = [start] /\ reformat_date start = Ok (jp_start_date info))
  /\ match EndDate s with
     | Some text => reformat_date text = Ok (jp_end_date info)
     | None => jp_end_date info = "20991231"
     end.

(** The columns of a frame row that come from the index row [jp] and the
    journey [j]. *)
Definition row_of_journey (jp : jp_info) (j : vehicle_journey) (r : row) : Prop :=
  vehicle_journey_id r = VehicleJourneyCode j
  /\ service_ref r = ServiceRef j
  /\ agency_id r = jp_agency_id jp
  /\ route_id r = jp_route_id jp
  /\ direction_id r = jp_direction_id jp
  /\ line_name r = jp_line_name jp
  /\ trip_headsign r = jp_trip_headsign jp
  /\ start_date r = jp_start_date jp
  /\ end_date r = jp_end_date jp.

End PatternIndex.

(** Stops of the NaPTAN frame. *)
Module StopIndex.

Import Stops.

(** The rows of the NaPTAN frame with the identifier [ref]. *)
Definition stops_with_id {Coord : Type} (naptan_stops : list (naptan_stop Coord))
    (ref : string) : list (naptan_stop Coord) :=
  filter (fun s => String.eqb (ns_stop_id s) ref) naptan_stops.

(** The identifier [ref] is one of the NaPTAN frame. *)
Definition known_stop {Coord : Type} (naptan_stops : list (naptan_stop Coord))
    (ref : string) : bool :=
  existsb (fun s => String.eqb (ns_stop_id s) ref) naptan_stops.

End StopIndex.

(** * Properties *)

(** ** Facts about the string primitives *)

Section PyFacts.

Import Py.

Lemma append_nil_r (s : string) : s ++ "" = s.
Proof. induction s as [|c s IH]; simpl; [reflexivity | now rewrite IH]. Qed.

Lemma append_assoc (a b c : string) : (a ++ b) ++ c = a ++ (b ++ c).
Proof. induction a as [|x a IH]; simpl; [reflexivity | now rewrite IH]. Qed.

Lemma append_snoc (cur : string) (c : ascii) (s : string) :
  (cur ++ String c "") ++ s = cur ++ String c s.
Proof. now rewrite append_assoc. Qed.

Lemma prefix_nil (s : string) : prefix "" s = true.
Proof. now destruct s. Qed.

Lemma prefix_cons (c a : ascii) (s1 s2 : string) :
  prefix (String c s1) (String a s2) = Ascii.eqb c a && prefix s1 s2.
Proof.
  simpl. destruct (ascii_dec c a) as [->|Hne].
  - now rewrite Ascii.eqb_refl.
  - apply Ascii.eqb_neq in Hne. now rewrite Hne.
Qed.

Lemma all_chars_app (p : ascii -> bool) (a b : string) :
  all_chars p (a ++ b) = all_chars p a && all_chars p b.
Proof.
  induction a as [|c a IH]; simpl; [reflexivity|].
  rewrite IH. now rewrite andb_assoc.
Qed.

Lemma all_chars_impl (p q : ascii -> bool) (s : string) :
  (forall c, p c = true -> q c = true) ->
  all_chars p s = true -> all_chars q s = true.
Proof.
  intros Hpq. induction s as [|c s IH]; simpl; [reflexivity|].
  intros H. apply andb_prop in H as [Hc Hs].
  now rewrite (Hpq _ Hc), IH.
Qed.

(** *** [in] and [split] with a separator whose first character is absent *)

Lemma contains_absent (c : ascii) (sep s : string) :
  all_chars (is_not c) s = true -> contains (String c sep) s = false.
Proof.
  induction s as [|a s IH]; simpl; [reflexivity|].
  intros H. apply andb_prop in H as [Ha Hs].
  unfold is_not in Ha. apply negb_true_iff in Ha.
  destruct (ascii_dec c a) as [->|_].
  - now rewrite Ascii.eqb_refl in Ha.
  - now apply IH.
Qed.

Lemma contains_present (c : ascii) (a b : string) :
  contains (String c "") (a ++ String c b) = true.
Proof.
  induction a as [|x a IH].
  - cbn [append contains]. now rewrite prefix_cons, Ascii.eqb_refl, prefix_nil.
  - cbn [append contains]. rewrite IH. apply orb_true_r.
Qed.

Lemma split_scan_absent (c : ascii) (sep cur s : string) :
  all_chars (is_not c) s = true ->
  split_scan (String c sep) 0 cur s = [cur ++ s].
Proof.
  revert cur. induction s as [|a s IH]; intros cur H.
  - simpl. now rewrite append_nil_r.
  - cbn [all_chars] in H. apply andb_prop in H as [Ha Hs].
    unfold is_not in Ha. apply negb_true_iff in Ha.
    cbn [split_scan]. rewrite prefix_cons.
    rewrite Ascii.eqb_sym, Ha. cbn [andb].
    rewrite (IH _ Hs). now rewrite append_snoc.
Qed.

Lemma split_scan_char (c : ascii) (cur a b : string) :
  all_chars (is_not c) a = true ->
  split_scan (String c "") 0 cur (a ++ String c b)
  = (cur ++ a) :: split_scan (String c "") 0 "" b.
Proof.
  revert cur. induction a as [|x a IH]; intros cur H.
  - cbn [append split_scan]. rewrite prefix_cons, Ascii.eqb_refl.
    rewrite prefix_nil. cbn [andb String.length Nat.sub]. now rewrite append_nil_r.
  - cbn [all_chars] in H. apply andb_prop in H as [Hx Ha].
    unfold is_not in Hx. apply negb_true_iff in Hx.
    cbn [append split_scan]. rewrite prefix_cons.
    rewrite Ascii.eqb_sym, Hx. cbn [andb].
    rewrite (IH _ Ha). now rewrite append_snoc.
Qed.

(** Without an occurrence of the separator, [split] returns the text whole. *)
Lemma split_scan_missing (sep cur s : string) :
  sep <> "" -> contains sep s = false -> split_scan sep 0 cur s = [cur ++ s].
Proof.
  intros Hsep. revert cur. induction s as [|a s IH]; intros cur H.
  - simpl. now rewrite append_nil_r.
  - cbn [contains] in H. apply orb_false_elim in H as [Hp Hc].
    cbn [split_scan]. rewrite Hp, (IH _ Hc). now rewrite append_snoc.
Qed.

Lemma split_scan_not_nil (sep : string) (skip : nat) (cur s : string) :
  split_scan sep skip cur s <> [].
Proof.
  revert skip cur. induction s as [|x s IH]; intros skip cur; cbn [split_scan].
  - discriminate.
  - destruct skip; [destruct (prefix sep (String x s))|]; try apply IH.
    discriminate.
Qed.

(** With an occurrence of the separator, [split] returns at least two
    pieces. *)
Lemma split_two (sep s : string) :
  sep <> "" -> contains sep s = true ->
  exists p q rest, split sep s = p :: q :: rest.
Proof.
  intros Hsep. unfold split. generalize "" as cur.
  induction s as [|x s IH]; intros cur H.
  - destruct sep; [contradiction | discriminate H].
  - cbn [contains] in H. cbn [split_scan].
    destruct (prefix sep (String x s)).
    + destruct (split_scan sep (String.length sep - 1) "" s) as [|q rest] eqn:E.
      * now apply split_scan_not_nil in E.
      * now exists cur, q, rest.
    + cbn [orb] in H. now apply IH.
Qed.

(** *** [int] and [str] *)

Lemma digit_is_not_space (c : ascii) : is_digit c = true -> is_int_space c = false.
Proof.
  destruct c as [[] [] [] [] [] [] [] []]; intros H; try reflexivity; discriminate H.
Qed.

Lemma digit_is_not (c x : ascii) :
  is_digit c = false -> is_digit x = true -> is_not c x = true.
Proof.
  intros Hc Hx. unfold is_not. apply negb_true_iff, Ascii.eqb_neq.
  intros ->. congruence.
Qed.

Lemma digit_char_spec (d : Z) :
  0 <= d < 10 -> is_digit (digit_char d) = true /\ digit_value (digit_char d) = d.
Proof.
  intros H.
  assert (d = 0 \/ d = 1 \/ d = 2 \/ d = 3 \/ d = 4 \/ d = 5 \/ d = 6 \/ d = 7
          \/ d = 8 \/ d = 9) as Hd by lia.
  repeat (destruct Hd as [-> | Hd]; [now split|]). subst d. now split.
Qed.

Lemma int_digits_app (a : Z) (b : bool) (p q : string) (v : Z) :
  int_digits a b p = Some v -> int_digits a b (p ++ q) = int_digits v true q.
Proof.
  revert a b. induction p as [|c p IH]; intros a b H.
  - cbn in H. destruct b; [|discriminate H]. now injection H as ->.
  - cbn [append int_digits] in *.
    destruct (is_digit c); [now apply IH|].
    destruct (Ascii.eqb c "_"); [|discriminate H].
    destruct b; [now apply IH | discriminate H].
Qed.

Lemma str_digits_spec (fuel : nat) (n : Z) (acc : string) :
  0 <= n < 2 ^ (Z.of_nat fuel + 1) ->
  exists p, str_digits fuel n acc = p ++ acc
            /\ all_chars is_digit p = true
            /\ p <> ""
            /\ int_digits 0 false p = Some n.
Proof.
  revert n acc. induction fuel as [|f IH]; intros n acc Hn.
  - change (2 ^ (Z.of_nat 0 + 1)) with 2 in Hn.
    assert (n mod 10 = n) as Hm by (apply Z.mod_small; lia).
    destruct (digit_char_spec n) as [Hd Hv]; [lia|].
    exists (String (digit_char n) ""). cbn [str_digits]. rewrite Hm.
    repeat split.
    + cbn. now rewrite Hd.
    + discriminate.
    + cbn. rewrite Hd, Hv. reflexivity.
  - cbn [str_digits]. destruct (n <? 10) eqn:Hlt.
    + apply Z.ltb_lt in Hlt.
      assert (n mod 10 = n) as Hm by (apply Z.mod_small; lia).
      destruct (digit_char_spec n) as [Hd Hv]; [lia|].
      exists (String (digit_char n) ""). rewrite Hm.
      repeat split.
      * cbn. now rewrite Hd.
      * discriminate.
      * cbn. rewrite Hd, Hv. reflexivity.
    + apply Z.ltb_ge in Hlt.
      assert (0 <= n / 10 < 2 ^ (Z.of_nat f + 1)) as Hq.
      { replace (Z.of_nat (S f) + 1) with (Z.succ (Z.of_nat f + 1)) in Hn by lia.
        rewrite Z.pow_succ_r in Hn by lia.
        split; [apply Z.div_pos; lia|].
        apply Z.div_lt_upper_bound; lia. }
      destruct (IH (n / 10) (String (digit_char (n mod 10)) acc) Hq)
        as (p & Hp & Hall & _ & Hval).
      destruct (digit_char_spec (n mod 10)) as [Hd Hv];
        [apply Z.mod_pos_bound; lia|].
      exists (p ++ String (digit_char (n mod 10)) "").
      repeat split.
      * rewrite Hp. now rewrite append_snoc.
      * rewrite all_chars_app, Hall. cbn. now rewrite Hd.
      * destruct p; discriminate.
      * rewrite (int_digits_app _ _ _ _ _ Hval). cbn [int_digits]. rewrite Hd, Hv.
        f_equal. pose proof (Z.div_mod n 10). lia.
Qed.

Lemma lstrip_digits (p : string) :
  all_chars is_digit p = true -> lstrip is_int_space p = p.
Proof.
  destruct p as [|c p]; [reflexivity|]. cbn. intros H.
  apply andb_prop in H as [Hc _]. now rewrite (digit_is_not_space _ Hc).
Qed.

Lemma rstrip_digits (p : string) :
  all_chars is_digit p = true -> rstrip is_int_space p = p.
Proof.
  induction p as [|c p IH]; [reflexivity|]. cbn. intros H.
  apply andb_prop in H as [Hc Hp].
  now rewrite (digit_is_not_space _ Hc), (IH Hp).
Qed.

Lemma int_body_digits (p : string) :
  all_chars is_digit p = true -> int_body p = int_digits 0 false p.
Proof.
  destruct p as [|c p]; [reflexivity|]. cbn [all_chars]. intros H.
  apply andb_prop in H as [Hc _].
  destruct c as [[] [] [] [] [] [] [] []]; try reflexivity; discriminate Hc.
Qed.

(** A string of digits converts to the number that it writes. *)
Lemma int_digits_string (p : string) (n : Z) :
  all_chars is_digit p = true -> int_digits 0 false p = Some n -> int p = Ok n.
Proof.
  intros Hall Hval. unfold int.
  now rewrite (lstrip_digits _ Hall), (rstrip_digits _ Hall),
    (int_body_digits _ Hall), Hval.
Qed.

Lemma str_digits_only (n : Z) :
  0 <= n ->
  all_chars is_digit (str n) = true /\ str n <> ""
  /\ int_digits 0 false (str n) = Some n.
Proof.
  intros Hn. unfold str.
  destruct (n <? 0) eqn:E; [apply Z.ltb_lt in E; lia|].
  destruct (str_digits_spec (Z.to_nat (Z.log2 n)) n "") as (p & Hp & Hall & Hne & Hval).
  - split; [exact Hn|].
    rewrite Z2Nat.id by apply Z.log2_nonneg.
    destruct (Z.eq_dec n 0) as [->|Hnz]; [reflexivity|].
    replace (Z.log2 n + 1) with (Z.succ (Z.log2 n)) by lia.
    apply Z.log2_spec. lia.
  - rewrite Hp, append_nil_r. auto.
Qed.

Lemma int_raises (s : string) (e : exn) : int s = Raise e -> e = ValueError.
Proof. unfold int. destruct (int_body _); congruence. Qed.

(** [int(str(n)) == n] *)
Lemma int_str (n : Z) : 0 <= n -> int (str n) = Ok n.
Proof.
  intros Hn. destruct (str_digits_only n Hn) as (Hall & _ & Hval).
  now apply int_digits_string.
Qed.

End PyFacts.

(** ** Runtime codes *)

Section RuntimeCodes.

Import Py TransXChange Duration.

Lemma str_is_not (c : ascii) (k : nat) :
  is_digit c = false -> all_chars (is_not c) (str (Z.of_nat k)) = true.
Proof.
  intros Hc. destruct (str_digits_only (Z.of_nat k)) as (Hall & _); [lia|].
  revert Hall. apply all_chars_impl. intros x. now apply digit_is_not.
Qed.

Lemma segment_is_not (c marker : ascii) (n : option nat) :
  is_digit c = false -> Ascii.eqb marker c = false ->
  all_chars (is_not c) (segment n marker) = true.
Proof.
  intros Hc Hm. destruct n as [k|]; [|reflexivity].
  cbn [segment]. rewrite all_chars_app, (str_is_not _ _ Hc).
  cbn. unfold is_not. now rewrite Hm.
Qed.

Lemma split_PT (rest : string) :
  all_chars (is_not "P") rest = true -> split "PT" ("PT" ++ rest) = [""; rest].
Proof.
  intros H. unfold split. cbn [append split_scan String.length Nat.sub].
  rewrite prefix_cons, prefix_cons, prefix_nil. cbn [Ascii.eqb Bool.eqb andb].
  now rewrite (split_scan_absent "P" "T" "" rest H).
Qed.

(** A segment that is present: the marker is found, and the text in front
    of it is the numeral. *)
Lemma segment_present (c : ascii) (k : nat) (rest : string) :
  is_digit c = false -> all_chars (is_not c) rest = true ->
  contains (String c "") (segment (Some k) c ++ rest) = true
  /\ split (String c "") (segment (Some k) c ++ rest) = [str (Z.of_nat k); rest].
Proof.
  intros Hc Hrest. cbn [segment]. rewrite append_assoc. cbn [append].
  split; [apply contains_present|].
  unfold split. rewrite split_scan_char by now apply str_is_not.
  now rewrite (split_scan_absent c "" "" rest Hrest).
Qed.

(** The parser at a marker whose segment is present, and at one whose
    segment is left out. *)
Ltac read_segment c H :=
  match goal with
  | |- context [segment (Some ?k) c ++ ?rest] =>
      destruct (segment_present c k rest eq_refl H) as [-> ->]
  end;
  cbn [index nth_error bind]; rewrite int_str by lia; cbn [bind].

Ltac pass_segment c H :=
  cbn [segment append]; rewrite (contains_absent c "" _ H); cbn [bind].

Lemma parse_runtime_duration_segments (h m s : option nat) :
  parse_runtime_duration (duration_code h m s)
  = Ok (amount h * 3600 + amount m * 60 + amount s * 60).
Proof.
  unfold parse_runtime_duration, duration_code.
  rewrite split_PT by (rewrite !all_chars_app, !segment_is_not; reflexivity).
  cbn [index nth_error bind].
  rewrite <- (append_nil_r (segment s "S")).
  assert (all_chars (is_not "H") (segment m "M" ++ segment s "S" ++ "") = true) as HH
    by (rewrite !all_chars_app, !segment_is_not; reflexivity).
  assert (all_chars (is_not "M") (segment s "S" ++ "") = true) as HM
    by (rewrite all_chars_app, !segment_is_not; reflexivity).
  assert (all_chars (is_not "S") "" = true) as HS by reflexivity.
  destruct h as [h|]; [read_segment "H"%char HH | pass_segment "H"%char HH];
    (destruct m as [m|]; [read_segment "M"%char HM | pass_segment "M"%char HM]);
    (destruct s as [s|]; [read_segment "S"%char HS | pass_segment "S"%char HS]);
    cbn [amount]; f_equal; unfold HOUR_IN_SECONDS, MINUTE_IN_SECONDS; lia.
Qed.

(** What one marker stage of the parser can do: it adds to the time and
    passes the text after the marker on, or the numeral in front of the
    marker is not an integer literal. *)
Lemma marker_stage (c : ascii) (unit time : Z) (runtime : string) :
  contains (String c "") runtime = true ->
  (exists n rest,
      (s0 <- index (split (String c "") runtime) 0 ;;
       n <- int s0 ;;
       s1 <- index (split (String c "") runtime) 1 ;;
       Ok (time + n * unit, s1)) = Ok (time + n * unit, rest))
  \/ (s0 <- index (split (String c "") runtime) 0 ;;
      n <- int s0 ;;
      s1 <- index (split (String c "") runtime) 1 ;;
      Ok (time + n * unit, s1)) = Raise ValueError.
Proof.
  intros H. destruct (split_two (String c "") runtime) as (p & q & rest & ->);
    [discriminate | exact H |].
  cbn [index nth_error bind].
  destruct (int p) as [n|e] eqn:E; cbn [bind].
  - left. now exists n, q.
  - right. now rewrite (int_raises _ _ E).
Qed.

Lemma parse_runtime_duration_tail_raises (time : Z) (runtime : string) (e : exn) :
  (if contains "S" runtime
   then s0 <- index (split "S" runtime) 0 ;; n <- int s0 ;;
        Ok (time + n * MINUTE_IN_SECONDS)
   else Ok time) = Raise e ->
  e = ValueError.
Proof.
  destruct (contains "S" runtime) eqn:H; [|discriminate].
  destruct (split_two "S" runtime) as (p & q & rest & ->); [discriminate | exact H |].
  cbn [index nth_error bind].
  destruct (int p) as [n|e'] eqn:E; cbn [bind]; [discriminate|].
  intros [= <-]. now apply int_raises in E.
Qed.

(** After the piece behind "PT" has been found, the parser can only fail
    with a [ValueError]. *)
Lemma parse_runtime_duration_raises (s : string) (e : exn) :
  parse_runtime_duration s = Raise e ->
  (e = IndexError /\ contains "PT" s = false) \/ e = ValueError.
Proof.
  unfold parse_runtime_duration.
  destruct (contains "PT" s) eqn:HPT.
  - destruct (split_two "PT" s) as (p & r & rest & ->); [discriminate | exact HPT |].
    cbn [index nth_error bind]. intros H. right. revert H.
    destruct (contains "H" r) eqn:HH.
    + destruct (marker_stage "H" HOUR_IN_SECONDS 0 r HH) as [(n & r1 & ->)| ->];
        [|now intros [= <-]].
      cbn [bind].
      destruct (contains "M" r1) eqn:HM.
      * destruct (marker_stage "M" MINUTE_IN_SECONDS (0 + n * HOUR_IN_SECONDS) r1 HM)
          as [(n2 & r2 & ->)| ->]; [|now intros [= <-]].
        cbn [bind]. apply parse_runtime_duration_tail_raises.
      * cbn [bind]. apply parse_runtime_duration_tail_raises.
    + cbn [bind].
      destruct (contains "M" r) eqn:HM.
      * destruct (marker_stage "M" MINUTE_IN_SECONDS 0 r HM)
          as [(n2 & r2 & ->)| ->]; [|now intros [= <-]].
        cbn [bind]. apply parse_runtime_duration_tail_raises.
      * cbn [bind]. apply parse_runtime_duration_tail_raises.
  - unfold split. rewrite split_scan_missing by (discriminate || assumption).
    cbn [index nth_error bind]. intros [= <-]. now left.
Qed.

(** *** The codes with segments are the well-formed ones *)

Lemma skip_digits_numeral (p : string) (c : ascii) (rest : string) :
  all_chars is_digit p = true -> is_digit c = false ->
  skip_digits (p ++ String c rest) = String c rest.
Proof.
  intros Hp Hc. induction p as [|x p IH]; cbn [append skip_digits].
  - now rewrite Hc.
  - cbn [all_chars] in Hp. apply andb_prop in Hp as [Hx Hp]. rewrite Hx. now apply IH.
Qed.

(** A segment in front of [rest] is passed over by the marker of its own,
    and left in place by another marker. *)
Lemma skip_segment_numeral (marker c : ascii) (k : nat) (rest : string) :
  is_digit c = false ->
  skip_segment marker (segment (Some k) c ++ rest)
  = if Ascii.eqb c marker then rest else segment (Some k) c ++ rest.
Proof.
  intros Hc. cbn [segment]. rewrite append_assoc. cbn [append].
  destruct (str_digits_only (Z.of_nat k)) as (Hall & Hne & _); [lia|].
  unfold skip_segment.
  destruct (str (Z.of_nat k)) as [|x p] eqn:E; [contradiction|].
  cbn [append]. pose proof Hall as Hx. cbn [all_chars] in Hx.
  apply andb_prop in Hx as [Hx _]. rewrite Hx.
  change (String x (p ++ String c rest)) with (String x p ++ String c rest).
  now rewrite (skip_digits_numeral _ _ _ Hall Hc).
Qed.

Lemma duration_code_well_formed (h m s : option nat) :
  well_formed_code (duration_code h m s) = true.
Proof.
  unfold duration_code, well_formed_code. cbn [append].
  rewrite <- (append_nil_r (segment s "S")).
  assert (forall c rest, segment None c ++ rest = rest) as Hnone by reflexivity.
  destruct h as [h|], m as [m|], s as [s|];
    repeat first [ rewrite Hnone
                 | rewrite skip_segment_numeral by reflexivity;
                   cbn [Ascii.eqb Bool.eqb andb] ];
    reflexivity.
Qed.

(** C2.  The hour and minute segments of a runtime code count as the
    seconds they encode, but the numeral of the second segment is multiplied
    by [MINUTE_IN_SECONDS] as well: the parser returns the encoded number
    of seconds plus 59 times the seconds numeral.  A code of 2 hours and
    5 minutes parses to 7500, a code of 30 seconds to 1800 and not 30. *)
Theorem parse_runtime_duration_seconds_segment :
  (forall h m s : option nat,
      parse_runtime_duration (duration_code h m s)
      = Ok (encoded_seconds h m s + 59 * amount s))
  /\ parse_runtime_duration "PT2H5M" = Ok 7500
  /\ parse_runtime_duration "PT30S" = Ok 1800
  /\ encoded_seconds None None (Some 30%nat) = 30.
Proof.
  split; [|repeat split].
  intros h m s. rewrite parse_runtime_duration_segments.
  unfold encoded_seconds. f_equal. lia.
Qed.

(** C8, as stated, fails: the code "PT5", a numeral without any marker, is
    not well formed, and the parser returns 0 for it. *)
Lemma parse_runtime_duration_malformed_default :
  well_formed_code "PT5" = false /\ parse_runtime_duration "PT5" = Ok 0.
Proof. split; reflexivity. Qed.

(** C8, amended.  The parser has no error of its own.  It raises
    [IndexError] exactly when the code does not contain "PT", any other
    failure is the [ValueError] of [int] on the text in front of a marker,
    and a code in which none of the markers occurs after "PT" returns 0. *)
Theorem parse_runtime_duration_failures (s : string) :
  (parse_runtime_duration s = Raise IndexError <-> contains "PT" s = false)
  /\ (forall e, parse_runtime_duration s = Raise e -> e = IndexError \/ e = ValueError)
  /\ (forall r,
        index (split "PT" s) 1 = Ok r ->
        contains "H" r = false -> contains "M" r = false -> contains "S" r = false ->
        parse_runtime_duration s = Ok 0).
Proof.
  split; [split|split].
  - intros H. apply parse_runtime_duration_raises in H as [[_ H]|H];
      [exact H | discriminate H].
  - intros H. unfold parse_runtime_duration, split.
    now rewrite split_scan_missing by (discriminate || assumption).
  - intros e H. apply parse_runtime_duration_raises in H as [[H _]|H]; auto.
  - intros r Hr HH HM HS. unfold parse_runtime_duration.
    rewrite Hr. cbn [bind]. rewrite HH. cbn [bind]. rewrite HM. cbn [bind].
    now rewrite HS.
Qed.

Lemma parse_runtime_duration_failures_witness :
  (parse_runtime_duration "5M" = Raise IndexError <-> contains "PT" "5M" = false)
  /\ parse_runtime_duration "PTxM" = Raise ValueError
  /\ parse_runtime_duration "PT5" = Ok 0.
Proof.
  split; [|split].
  - apply (parse_runtime_duration_failures "5M").
  - reflexivity.
  - apply (parse_runtime_duration_failures "PT5") with (r := "5"); reflexivity.
Defined.

End RuntimeCodes.

(** ** Weekly patterns *)

Section WeeklyPatterns.

Import Py Calendar Weekday.

Lemma lower_app (a b : string) : lower (a ++ b) = lower a ++ lower b.
Proof. induction a as [|c a IH]; cbn; [reflexivity | now rewrite IH]. Qed.

Lemma letter_not_space (c : ascii) :
  is_lower_letter (lower_char c) = true -> is_space c = false.
Proof.
  destruct c as [[] [] [] [] [] [] [] []]; intros H; try reflexivity; discriminate H.
Qed.

Lemma letters_not_space (s : string) :
  all_chars is_lower_letter (lower s) = true ->
  all_chars (fun c => negb (is_space c)) s = true.
Proof.
  induction s as [|c s IH]; cbn; [reflexivity|]. intros H.
  apply andb_prop in H as [Hc Hs].
  now rewrite (letter_not_space _ Hc), IH.
Qed.

Lemma strip_no_space (s : string) :
  all_chars (fun c => negb (is_space c)) s = true -> strip s = s.
Proof.
  intros H. unfold strip.
  assert (lstrip is_space s = s) as ->.
  { destruct s as [|c s]; [reflexivity|]. cbn in *.
    apply andb_prop in H as [Hc _]. apply negb_true_iff in Hc. now rewrite Hc. }
  induction s as [|c s IH]; [reflexivity|]. cbn in *.
  apply andb_prop in H as [Hc Hs]. apply negb_true_iff in Hc.
  now rewrite Hc, (IH Hs).
Qed.

Lemma prefix_app (sep b : string) : prefix sep (sep ++ b) = true.
Proof.
  induction sep as [|c sep IH]; [apply prefix_nil|].
  cbn [append]. now rewrite prefix_cons, Ascii.eqb_refl, IH.
Qed.

Lemma contains_app (sep a b : string) : contains sep (a ++ sep ++ b) = true.
Proof.
  induction a as [|x a IH].
  - cbn [append]. destruct (sep ++ b) eqn:E; cbn [contains];
      rewrite <- E, prefix_app; reflexivity.
  - cbn [append contains]. rewrite IH. apply orb_true_r.
Qed.

(** The range separator cuts "aTob" between the two day names, however
    their letters are cased: no "To" can begin inside the first name, nor
    occur in the second. *)
Lemma split_To (cur sa sb : string) :
  contains "to" (lower sa ++ "t") = false ->
  contains "To" sb = false ->
  split_scan "To" 0 cur (sa ++ "To" ++ sb) = [cur ++ sa; sb].
Proof.
  intros Ha Hb. revert cur Ha. induction sa as [|c sa IH]; intros cur Ha.
  - cbn [append split_scan String.length Nat.sub].
    rewrite !prefix_cons, prefix_nil. cbn [Ascii.eqb Bool.eqb andb].
    rewrite split_scan_missing by (discriminate || assumption).
    now rewrite append_nil_r.
  - cbn [lower append contains] in Ha. apply orb_false_elim in Ha as [Hp Hc].
    cbn [append split_scan].
    match goal with
    | |- context [prefix ?p ?s] => assert (prefix p s = false) as ->
    end.
    { rewrite prefix_cons. rewrite prefix_cons in Hp.
      destruct (Ascii.eqb "T" c) eqn:E; [|reflexivity].
      apply Ascii.eqb_eq in E as <-. cbn [lower_char andb] in *.
      destruct sa as [|c' sa]; [reflexivity|].
      cbn [lower append] in *. rewrite prefix_cons in *. rewrite prefix_nil in *.
      destruct (Ascii.eqb "o" c') eqn:E'; [|reflexivity].
      apply Ascii.eqb_eq in E' as <-. discriminate Hp. }
    rewrite (IH _ Hc). now rewrite append_snoc.
Qed.

Lemma prefix_lower (p s : string) :
  prefix p s = true -> prefix (lower p) (lower s) = true.
Proof.
  revert s. induction p as [|c p IH]; intros s H; [apply prefix_nil|].
  destruct s as [|x s]; [discriminate H|].
  rewrite prefix_cons in H. apply andb_prop in H as [Hc Hp].
  apply Ascii.eqb_eq in Hc as <-.
  cbn [lower]. now rewrite prefix_cons, Ascii.eqb_refl, IH.
Qed.

Lemma contains_lower (p s : string) :
  contains (lower p) (lower s) = false -> contains p s = false.
Proof.
  induction s as [|x s IH].
  - cbn [lower contains]. rewrite !orb_false_r. intros H.
    destruct (prefix p "") eqn:E; [|reflexivity].
    apply prefix_lower in E. cbn [lower] in E. congruence.
  - cbn [lower contains]. intros H. apply orb_false_elim in H as [Hp Hc].
    rewrite (IH Hc), orb_false_r.
    destruct (prefix p (String x s)) eqn:E; [|reflexivity].
    apply prefix_lower in E. cbn [lower] in E. congruence.
Qed.

Lemma day_name_no_to (d : day) : contains "to" (day_name d ++ "t") = false.
Proof. now destruct d. Qed.

(** The steps of [parse_day_range] on a range phrasing, for day names in
    any letter case. *)
Lemma parse_day_range_of_range (a b : day) (sa sb : string) :
  lower sa = day_name a -> lower sb = day_name b ->
  parse_day_range (Some (sa ++ "To" ++ sb))
  = calendar_row (range (position a) (position b + 1)).
Proof.
  intros Ha Hb. unfold parse_day_range.
  assert (lower (sa ++ "To" ++ sb) = day_name a ++ "to" ++ day_name b) as Hl
    by (now rewrite !lower_app, Ha, Hb).
  rewrite strip_no_space.
  2:{ apply letters_not_space. rewrite Hl. now destruct a, b. }
  rewrite Hl.
  assert (contains "weekend" (day_name a ++ "to" ++ day_name b) = false) as ->
    by now destruct a, b.
  rewrite contains_app. unfold split. rewrite split_To.
  - cbn [append index nth_error bind]. rewrite Ha, Hb.
    now destruct a, b.
  - rewrite Ha. apply day_name_no_to.
  - apply contains_lower. rewrite Hb. now destruct b.
Qed.

(** C10.  A range whose first day comes after its second day in the week,
    such as "fridayTomonday", is not an error and does not wrap around:
    [parse_day_range] returns the row in which all seven flags are 0.  The
    day names may be written in any letter case. *)
Theorem parse_day_range_reversed (a b : day) (sa sb : string) :
  lower sa = day_name a -> lower sb = day_name b ->
  position b < position a ->
  parse_day_range (Some (sa ++ "To" ++ sb)) = Ok inactive_row.
Proof.
  intros Ha Hb Hlt. rewrite (parse_day_range_of_range a b) by assumption.
  destruct a, b; cbn in Hlt; try lia; reflexivity.
Qed.

Lemma parse_day_range_reversed_witness :
  parse_day_range (Some "fridayTomonday")
  = Ok [("monday", 0); ("tuesday", 0); ("wednesday", 0); ("thursday", 0);
        ("friday", 0); ("saturday", 0); ("sunday", 0)].
Proof.
  apply (parse_day_range_reversed Friday Monday "friday" "monday");
    [reflexivity | reflexivity | cbn; lia].
Defined.

End WeeklyPatterns.

(** ** Stop-time tables *)

Section Frames.

Import StopTimes.

(** *** [drop_duplicates] *)

Section DropDuplicates.

Context {A K : Type} (eqb : K -> K -> bool) (key : A -> K).
Hypothesis eqb_spec : forall a b, eqb a b = true <-> a = b.

Lemma existsb_eqb (k : K) (seen : list K) :
  existsb (eqb k) seen = true <-> In k seen.
Proof.
  rewrite existsb_exists. split.
  - intros (x & Hx & E). apply eqb_spec in E. now subst.
  - intros H. exists k. split; [exact H | now apply eqb_spec].
Qed.

Lemma drop_duplicates_from_In (seen : list K) (xs : list A) (x : A) :
  In x (drop_duplicates_from eqb key seen xs) -> In x xs /\ ~ In (key x) seen.
Proof.
  revert seen. induction xs as [|y xs IH]; intros seen H; [contradiction|].
  cbn [drop_duplicates_from] in H.
  destruct (existsb (eqb (key y)) seen) eqn:E.
  - apply IH in H as [H1 H2]. split; [now right | exact H2].
  - destruct H as [<- | H].
    + split; [now left|]. rewrite <- existsb_eqb. congruence.
    + apply IH in H as [H1 H2]. split; [now right|].
      intros H3. apply H2. now right.
Qed.

(** Every key that is not yet seen keeps a row. *)
Lemma drop_duplicates_from_keys (seen : list K) (xs : list A) (x : A) :
  In x xs -> ~ In (key x) seen ->
  In (key x) (map key (drop_duplicates_from eqb key seen xs)).
Proof.
  revert seen. induction xs as [|y xs IH]; intros seen H Hs; [contradiction|].
  cbn [drop_duplicates_from].
  destruct (existsb (eqb (key y)) seen) eqn:E.
  - destruct H as [-> | H]; [|now apply IH].
    apply existsb_eqb in E. contradiction.
  - cbn [map]. destruct H as [-> | H]; [now left|].
    destruct (existsb (eqb (key x)) [key y]) eqn:E'.
    + apply existsb_eqb in E' as [E'|[]]. now left.
    + right. apply IH; [exact H|]. intros [H1|H1]; [|contradiction].
      rewrite <- H1 in E'. cbn in E'.
      assert (eqb (key y) (key y) = true) as R by now apply eqb_spec.
      rewrite R in E'. discriminate E'.
Qed.

Lemma drop_duplicates_from_NoDup (seen : list K) (xs : list A) :
  NoDup (map key (drop_duplicates_from eqb key seen xs)).
Proof.
  revert seen. induction xs as [|y xs IH]; intros seen; [constructor|].
  cbn [drop_duplicates_from].
  destruct (existsb (eqb (key y)) seen); [apply IH|].
  cbn [map]. constructor; [|apply IH].
  rewrite in_map_iff. intros (x & Hk & Hx).
  apply drop_duplicates_from_In in Hx as [_ Hx]. apply Hx. now left.
Qed.

(** The row kept for a key is the first row of the frame with that key. *)
Lemma drop_duplicates_from_find (seen : list K) (xs : list A) (k : K) :
  ~ In k seen ->
  find (fun x => eqb (key x) k) (drop_duplicates_from eqb key seen xs)
  = find (fun x => eqb (key x) k) xs.
Proof.
  revert seen. induction xs as [|y xs IH]; intros seen Hk; [reflexivity|].
  cbn [drop_duplicates_from find].
  destruct (existsb (eqb (key y)) seen) eqn:E.
  - destruct (eqb (key y) k) eqn:E'.
    + apply eqb_spec in E'. apply existsb_eqb in E. congruence.
    + now apply IH.
  - cbn [find]. destruct (eqb (key y) k) eqn:E'; [reflexivity|].
    apply IH. intros [H|H]; [|contradiction].
    apply eqb_spec in H. congruence.
Qed.

(** Dropping rows leaves no more rows of a kind than there were. *)
Lemma drop_duplicates_from_count (p : A -> bool) (seen : list K) (xs : list A) :
  (List.length (filter p (drop_duplicates_from eqb key seen xs))
   <= List.length (filter p xs))%nat.
Proof.
  revert seen. induction xs as [|y xs IH]; intros seen; [cbn; lia|].
  cbn [drop_duplicates_from filter].
  destruct (existsb (eqb (key y)) seen).
  - specialize (IH seen). destruct (p y); cbn [List.length]; lia.
  - specialize (IH (key y :: seen)). cbn [filter].
    destruct (p y); cbn [List.length]; lia.
Qed.

End DropDuplicates.

Lemma string_eqb_spec (a b : string) : String.eqb a b = true <-> a = b.
Proof. apply String.eqb_eq. Qed.

Lemma stop_time_eqb_spec (a b : stop_time) : stop_time_eqb a b = true <-> a = b.
Proof.
  unfold stop_time_eqb. split.
  - intros H. repeat (apply andb_prop in H as [H ?]).
    repeat match goal with
           | E : String.eqb _ _ = true |- _ => apply String.eqb_eq in E
           | E : Z.eqb _ _ = true |- _ => apply Z.eqb_eq in E
           end.
    destruct a, b; cbn in *. congruence.
  - intros ->. now rewrite !String.eqb_refl, !Z.eqb_refl.
Qed.

(** Without repeated keys nothing is dropped. *)
Lemma drop_duplicates_NoDup {A : Type} (eqb : A -> A -> bool) (xs : list A) :
  (forall a b, eqb a b = true <-> a = b) ->
  NoDup xs -> drop_duplicates eqb (fun x => x) xs = xs.
Proof.
  intros Hspec Hnd. unfold drop_duplicates.
  assert (forall seen, (forall x, In x xs -> ~ In x seen) ->
                       drop_duplicates_from eqb (fun x => x) seen xs = xs) as H.
  { induction Hnd as [|y xs Hy Hnd IH]; intros seen Hs; [reflexivity|].
    cbn [drop_duplicates_from].
    destruct (existsb (eqb y) seen) eqn:E.
    - apply (existsb_eqb eqb Hspec) in E. now apply Hs in E; [|left].
    - f_equal. apply IH. intros x Hx [<-|H]; [contradiction|].
      apply (Hs x); [now right | exact H]. }
  apply H. intros x _ [].
Qed.

(** *** The group keys *)

Lemma insert_sorted_perm (k : string) (ks : list string) :
  Permutation (insert_sorted k ks) (k :: ks).
Proof.
  induction ks as [|k' ks IH]; cbn [insert_sorted]; [reflexivity|].
  destruct (String.leb k k'); [reflexivity|].
  rewrite IH. apply perm_swap.
Qed.

Lemma sort_keys_perm (ks : list string) : Permutation (sort_keys ks) ks.
Proof.
  induction ks as [|k ks IH]; cbn; [reflexivity|].
  rewrite insert_sorted_perm. now constructor.
Qed.

Lemma group_keys_NoDup (ks : list string) : NoDup (group_keys ks).
Proof.
  unfold group_keys, drop_duplicates.
  eapply Permutation_NoDup;
    [symmetry; apply sort_keys_perm|].
  pose proof (drop_duplicates_from_NoDup String.eqb (fun k : string => k)
                string_eqb_spec [] ks) as H.
  now rewrite map_id in H.
Qed.

Lemma group_keys_In (ks : list string) (k : string) : In k (group_keys ks) <-> In k ks.
Proof.
  unfold group_keys, drop_duplicates. split.
  - intros H. apply (Permutation_in _ (sort_keys_perm _)) in H.
    now apply (drop_duplicates_from_In String.eqb (fun k => k) string_eqb_spec) in H.
  - intros H.
    apply (Permutation_in _ (Permutation_sym (sort_keys_perm _))).
    pose proof (drop_duplicates_from_keys String.eqb (fun k : string => k)
                  string_eqb_spec [] ks k H) as H'.
    rewrite map_id in H'. apply H'. intros [].
Qed.

(** *** [get_stop_times] *)

Import Trips.

Lemma fold_left_groups {A : Type} (keep : string -> bool) (group : string -> list A)
    (keys : list string) (init : list A) :
  fold_left (fun acc idx => if keep idx then (acc ++ group idx)%list else acc) keys init
  = (init ++ flat_map (fun idx => if keep idx then group idx else []) keys)%list.
Proof.
  revert init. induction keys as [|k keys IH]; intros init; cbn.
  - now rewrite app_nil_r.
  - rewrite IH. destruct (keep k); [now rewrite <- app_assoc | reflexivity].
Qed.

Lemma filter_flat_map {A B : Type} (p : B -> bool) (f : A -> list B) (l : list A) :
  filter p (flat_map f l) = flat_map (fun x => filter p (f x)) l.
Proof.
  induction l as [|x l IH]; cbn; [reflexivity|].
  now rewrite filter_app, IH.
Qed.

Lemma flat_map_other {A : Type} (h : string -> list A) (t : string) (keys : list string) :
  (forall k, k <> t -> h k = []) -> ~ In t keys -> flat_map h keys = [].
Proof.
  intros Hh. induction keys as [|k keys IH]; intros Ht; cbn; [reflexivity|].
  rewrite Hh, IH; [reflexivity | | ]; intros H; apply Ht; [now right | now left].
Qed.

Lemma flat_map_single {A : Type} (h : string -> list A) (t : string) (keys : list string) :
  (forall k, k <> t -> h k = []) -> NoDup keys -> In t keys -> flat_map h keys = h t.
Proof.
  intros Hh Hnd. induction Hnd as [|k keys Hk Hnd IH]; intros Ht; [contradiction|].
  cbn. destruct Ht as [-> | Ht].
  - now rewrite (flat_map_other h t keys Hh Hk), app_nil_r.
  - rewrite Hh, IH; [reflexivity | exact Ht |]. intros ->. contradiction.
Qed.

Lemma trip_rows_trip_rows (t k : string) (sts : list stop_time) :
  trip_rows t (trip_rows k sts) = if String.eqb k t then trip_rows t sts else [].
Proof.
  unfold trip_rows. induction sts as [|r sts IH]; cbn.
  - now destruct (String.eqb k t).
  - destruct (String.eqb (st_trip_id r) k) eqn:E1.
    + apply String.eqb_eq in E1. cbn. rewrite IH, E1.
      destruct (String.eqb k t); [|reflexivity].
      reflexivity.
    + rewrite IH. destruct (String.eqb k t) eqn:E2; [|reflexivity].
      apply String.eqb_eq in E2. subst k. now rewrite E1.
Qed.

(** The rows of a trip in the result: all its records when there are two
    or more of them, none otherwise. *)
Lemma get_stop_times_trip (gtfs_info : list row) (t : string) :
  trip_rows t (get_stop_times gtfs_info)
  = if (1 <? List.length (trip_records t gtfs_info))%nat
    then trip_records t gtfs_info else [].
Proof.
  unfold get_stop_times, trip_records. cbv zeta.
  set (sts := drop_duplicates stop_time_eqb (fun r => r)
                (map select_stop_times_cols gtfs_info)).
  change (trip_rows t
            (fold_left
               (fun acc idx =>
                  if (1 <? List.length (trip_rows idx sts))%nat
                  then (acc ++ trip_rows idx sts)%list else acc)
               (group_keys (map st_trip_id sts)) [])
          = if (1 <? List.length (trip_rows t sts))%nat then trip_rows t sts else []).
  rewrite (fold_left_groups
             (fun idx => (1 <? List.length (trip_rows idx sts))%nat)
             (fun idx => trip_rows idx sts)).
  cbn [app]. unfold trip_rows at 1. rewrite filter_flat_map.
  set (h := fun idx => filter (fun r => String.eqb (st_trip_id r) t)
                         (if (1 <? List.length (trip_rows idx sts))%nat
                          then trip_rows idx sts else [])).
  assert (forall k, k <> t -> h k = []) as Hh.
  { intros k Hk. unfold h. destruct (1 <? _)%nat; [|reflexivity].
    fold (trip_rows t (trip_rows k sts)). rewrite trip_rows_trip_rows.
    apply String.eqb_neq in Hk. now rewrite Hk. }
  assert (h t = if (1 <? List.length (trip_rows t sts))%nat
                then trip_rows t sts else []) as Ht.
  { unfold h. destruct (1 <? _)%nat; [|reflexivity].
    fold (trip_rows t (trip_rows t sts)).
    now rewrite trip_rows_trip_rows, String.eqb_refl. }
  destruct (in_dec string_dec t (group_keys (map st_trip_id sts))) as [Hin|Hout].
  - rewrite (flat_map_single h t _ Hh (group_keys_NoDup _) Hin). exact Ht.
  - rewrite (flat_map_other h t _ Hh Hout).
    assert (trip_rows t sts = []) as ->; [|now destruct (1 <? _)%nat].
    unfold trip_rows. destruct (filter _ sts) as [|r rs] eqn:E; [reflexivity|].
    exfalso. apply Hout. apply group_keys_In.
    assert (In r (filter (fun r => String.eqb (st_trip_id r) t) sts)) as Hr
      by (rewrite E; now left).
    apply filter_In in Hr as [Hr Ht']. apply String.eqb_eq in Ht'. subst t.
    now apply in_map.
Qed.

(** C7.  [get_stop_times] leaves out every trip with fewer than two
    stop-time records and keeps, in full, every trip with two or more; a
    record that several rows of the frame repeat counts once, and in a
    frame without repeated rows the records of a trip are its rows.  A
    trip with fewer than two rows in the frame is left out in any case.
    In particular a trip of one record is absent from the result and a
    trip of two records is present. *)
Theorem get_stop_times_drops_short_trips (gtfs_info : list row) (t : string) :
  ((List.length (trip_records t gtfs_info) < 2)%nat ->
   trip_rows t (get_stop_times gtfs_info) = [])
  /\ ((2 <= List.length (trip_records t gtfs_info))%nat ->
      trip_rows t (get_stop_times gtfs_info) = trip_records t gtfs_info)
  /\ (NoDup (map select_stop_times_cols gtfs_info) ->
      trip_records t gtfs_info = trip_rows t (map select_stop_times_cols gtfs_info))
  /\ ((List.length (trip_rows t (map select_stop_times_cols gtfs_info)) < 2)%nat ->
      trip_rows t (get_stop_times gtfs_info) = []).
Proof.
  rewrite get_stop_times_trip. repeat split.
  - intros H. now rewrite (proj2 (Nat.ltb_ge _ _)) by lia.
  - intros H. now rewrite (proj2 (Nat.ltb_lt _ _)) by lia.
  - intros H. unfold trip_records.
    now rewrite (drop_duplicates_NoDup _ _ stop_time_eqb_spec H).
  - intros H.
    pose proof (drop_duplicates_from_count stop_time_eqb (fun r => r)
                  (fun r => String.eqb (st_trip_id r) t) []
                  (map select_stop_times_cols gtfs_info)) as Hle.
    fold (trip_rows t (map select_stop_times_cols gtfs_info)) in Hle.
    unfold trip_records, drop_duplicates, trip_rows at 1.
    now rewrite (proj2 (Nat.ltb_ge _ _)) by (unfold trip_rows in *; lia).
Qed.

Import Samples.

Lemma get_stop_times_drops_short_trips_witness :
  trip_rows "T1" (get_stop_times short_and_long) = []
  /\ trip_rows "T2" (get_stop_times short_and_long)
     = map select_stop_times_cols
         [sample_row "T2" "VJ2" "SVC1" "20240101" "20241231" (Some "MondayToFriday") 1;
          sample_row "T2" "VJ2" "SVC1" "20240101" "20241231" (Some "MondayToFriday") 2].
Proof.
  split.
  - apply (get_stop_times_drops_short_trips short_and_long "T1"). vm_compute. lia.
  - rewrite (proj1 (proj2 (get_stop_times_drops_short_trips short_and_long "T2")));
      [reflexivity | vm_compute; lia].
Defined.

(** *** [generate_service_id] *)

Import Services.

Lemma find_unique {A : Type} (key : A -> string) (l : list A) (c : A) :
  NoDup (map key l) -> In c l ->
  find (fun x => String.eqb (key x) (key c)) l = Some c.
Proof.
  induction l as [|x l IH]; intros Hnd Hc; [contradiction|].
  cbn [map] in Hnd. apply NoDup_cons_iff in Hnd as [Hx Hnd].
  cbn [find]. destruct Hc as [-> | Hc].
  - now rewrite String.eqb_refl.
  - destruct (String.eqb (key x) (key c)) eqn:E; [|now apply IH].
    apply String.eqb_eq in E. exfalso. apply Hx. rewrite E. now apply in_map.
Qed.

Lemma assign_group_map (calendar_info stop_times : list row) (weekday : string) :
  assign_group calendar_info stop_times weekday
  = map (fun r =>
           if existsb (String.eqb (vehicle_journey_id r))
                (map vehicle_journey_id (filter (has_weekdays weekday) calendar_info))
           then set_service_id (group_service_id calendar_info weekday) r
           else r)
        stop_times.
Proof.
  unfold assign_group, group_service_id.
  destruct (filter (has_weekdays weekday) calendar_info) as [|first rest].
  - cbn [map existsb]. now rewrite map_id.
  - reflexivity.
Qed.

(** A journey is in the group of a weekly pattern when that is the
    pattern of its row in [calendar_info]. *)
Lemma in_group_iff (calendar_info : list row) (weekday v : string) :
  NoDup (map vehicle_journey_id calendar_info) ->
  existsb (String.eqb v)
    (map vehicle_journey_id (filter (has_weekdays weekday) calendar_info)) = true
  <-> journey_weekdays calendar_info v = Some weekday.
Proof.
  intros Hnd. unfold journey_weekdays.
  rewrite (existsb_eqb String.eqb string_eqb_spec), in_map_iff. split.
  - intros (c & <- & Hc). apply filter_In in Hc as [Hc Hw].
    rewrite (find_unique vehicle_journey_id _ c Hnd Hc).
    unfold has_weekdays in Hw. destruct (weekdays c) as [w|]; [|discriminate Hw].
    apply String.eqb_eq in Hw. now subst.
  - destruct (find _ calendar_info) as [c|] eqn:E; [|discriminate].
    intros Hw. apply find_some in E as [Hc Hv]. apply String.eqb_eq in Hv.
    exists c. split; [exact Hv|]. apply filter_In. split; [exact Hc|].
    unfold has_weekdays. rewrite Hw. apply String.eqb_refl.
Qed.

(** The loop over the calendar groups gives each row the identifier of
    the group of its journey, when that group is among the ones visited. *)
Lemma assign_groups (calendar_info : list row) (keys : list string) (stop_times : list row) :
  NoDup (map vehicle_journey_id calendar_info) -> NoDup keys ->
  fold_left (assign_group calendar_info) keys stop_times
  = map (fun r =>
           match journey_weekdays calendar_info (vehicle_journey_id r) with
           | Some k =>
               if existsb (String.eqb k) keys
               then set_service_id (group_service_id calendar_info k) r
               else r
           | None => r
           end)
        stop_times.
Proof.
  intros Hci Hkeys. revert stop_times.
  induction Hkeys as [|k keys Hk Hkeys IH]; intros stop_times.
  - cbn [fold_left existsb]. rewrite <- (map_id stop_times) at 1.
    apply map_ext. intros r. now destruct (journey_weekdays _ _).
  - cbn [fold_left]. rewrite IH, assign_group_map, map_map.
    apply map_ext. intros r.
    pose proof (in_group_iff calendar_info k (vehicle_journey_id r) Hci) as Hg.
    destruct (existsb (String.eqb (vehicle_journey_id r)) _).
    + rewrite (proj1 Hg eq_refl). cbn [set_service_id vehicle_journey_id].
      rewrite (proj1 Hg eq_refl). cbn [existsb]. rewrite String.eqb_refl. cbn [orb].
      destruct (existsb (String.eqb k) keys) eqn:E; [|reflexivity].
      apply (existsb_eqb String.eqb string_eqb_spec) in E. contradiction.
    + destruct (journey_weekdays calendar_info (vehicle_journey_id r)) as [k'|];
        [|reflexivity].
      cbn [existsb]. destruct (String.eqb k' k) eqn:E; [|reflexivity].
      apply String.eqb_eq in E. subst k'.
      now pose proof (proj2 Hg eq_refl).
Qed.

Lemma non_null_In (xs : list (option string)) (k : string) :
  In k (non_null xs) <-> In (Some k) xs.
Proof.
  induction xs as [|[x|] xs IH]; cbn; [tauto | |].
  - rewrite IH. split; intros [H|H]; auto; left; congruence.
  - rewrite IH. split; [auto | intros [H|H]; [discriminate H | exact H]].
Qed.

Lemma calendar_info_NoDup (stop_times : list row) :
  NoDup (map vehicle_journey_id (calendar_info_of stop_times)).
Proof. apply drop_duplicates_from_NoDup, string_eqb_spec. Qed.

Lemma find_map {A B : Type} (p : B -> bool) (f : A -> B) (l : list A) :
  find p (map f l) = option_map f (find (fun x => p (f x)) l).
Proof.
  induction l as [|x l IH]; cbn; [reflexivity|]. now destruct (p (f x)).
Qed.

(** The row of [calendar_info] for a journey is the first row of the
    journey in the frame. *)
Lemma calendar_info_find (stop_times : list row) (v : string) :
  find (fun c => String.eqb (vehicle_journey_id c) v) (calendar_info_of stop_times)
  = option_map (set_service_id None)
      (find (fun c => String.eqb (vehicle_journey_id c) v) stop_times).
Proof.
  unfold calendar_info_of, drop_duplicates.
  rewrite (drop_duplicates_from_find String.eqb vehicle_journey_id string_eqb_spec)
    by (intros []).
  apply find_map.
Qed.

Lemma generate_service_id_rows (stop_times : list row) :
  generate_service_id stop_times
  = map (fun r => set_service_id (assigned (calendar_info_of stop_times) r) r) stop_times.
Proof.
  unfold generate_service_id. fold (calendar_info_of stop_times).
  set (ci := calendar_info_of stop_times).
  rewrite assign_groups by (apply calendar_info_NoDup || apply group_keys_NoDup).
  rewrite map_map. apply map_ext. intros r. unfold assigned.
  cbn [set_service_id vehicle_journey_id].
  destruct (journey_weekdays ci (vehicle_journey_id r)) as [k|] eqn:E;
    [|reflexivity].
  assert (existsb (String.eqb k) (group_keys (non_null (map weekdays ci))) = true) as ->.
  { apply (existsb_eqb String.eqb string_eqb_spec), group_keys_In, non_null_In.
    unfold journey_weekdays in E.
    destruct (find _ ci) as [c|] eqn:F; [|discriminate E].
    apply find_some in F as [F _]. rewrite <- E. now apply in_map. }
  reflexivity.
Qed.

(** In a consistent frame the pattern that [calendar_info] has for the
    journey of a row is the pattern of the row. *)
Lemma journey_weekdays_row (stop_times : list row) (r : row) :
  consistent stop_times -> In r stop_times ->
  journey_weekdays (calendar_info_of stop_times) (vehicle_journey_id r) = weekdays r.
Proof.
  intros Hc Hr. unfold journey_weekdays. rewrite calendar_info_find.
  destruct (find _ stop_times) as [c|] eqn:F.
  - apply find_some in F as [F Hv]. apply String.eqb_eq in Hv.
    cbn [option_map set_service_id weekdays]. now apply Hc.
  - apply (find_none _ _ F) in Hr. now rewrite String.eqb_refl in Hr.
Qed.

(** The group of a pattern that some row carries has a first journey, a
    row of the frame with that pattern. *)
Lemma group_service_id_first (stop_times : list row) (r : row) (wd : string) :
  consistent stop_times -> In r stop_times -> weekdays r = Some wd ->
  exists g, In g stop_times /\ weekdays g = Some wd
            /\ group_service_id (calendar_info_of stop_times) wd
               = Some (format_service_id (service_ref g) (start_date g) (end_date g) wd).
Proof.
  intros Hc Hr Hw. unfold group_service_id.
  destruct (filter (has_weekdays wd) (calendar_info_of stop_times)) as [|first rest] eqn:E.
  - exfalso.
    pose proof (journey_weekdays_row stop_times r Hc Hr) as J.
    unfold journey_weekdays in J.
    destruct (find _ (calendar_info_of stop_times)) as [c|] eqn:F;
      [|congruence].
    apply find_some in F as [F _].
    assert (In c (filter (has_weekdays wd) (calendar_info_of stop_times))) as Hin.
    { apply filter_In. split; [exact F|]. unfold has_weekdays.
      rewrite J, Hw. apply String.eqb_refl. }
    now rewrite E in Hin.
  - assert (In first (filter (has_weekdays wd) (calendar_info_of stop_times))) as Hin
      by (rewrite E; now left).
    apply filter_In in Hin as [Hin Hf].
    apply (drop_duplicates_from_In String.eqb vehicle_journey_id string_eqb_spec)
      in Hin as [Hin _].
    apply in_map_iff in Hin as (g & <- & Hg).
    exists g. cbn [set_service_id service_ref start_date end_date weekdays] in *.
    split; [exact Hg|]. split; [|reflexivity].
    unfold has_weekdays in Hf. cbn [set_service_id weekdays] in Hf.
    destruct (weekdays g) as [w|]; [|discriminate Hf].
    apply String.eqb_eq in Hf. now subst.
Qed.

(** The weekly pattern is the text after the last underscore of an
    identifier. *)
Lemma last_piece (cur a w : string) :
  Py.all_chars (Py.is_not "_") w = true ->
  last (Py.split_scan "_" 0 cur (a ++ String "_" w)) "" = w.
Proof.
  intros Hw. revert cur. induction a as [|x a IH]; intros cur.
  - cbn [append Py.split_scan]. rewrite prefix_cons, prefix_nil, Ascii.eqb_refl.
    cbn [andb String.length Nat.sub].
    now rewrite (split_scan_absent "_" "" "" w Hw).
  - cbn [append Py.split_scan].
    destruct (prefix "_" (String x (a ++ String "_" w))).
    + cbn [String.length Nat.sub].
      pose proof (IH "") as H.
      destruct (Py.split_scan "_" 0 "" (a ++ String "_" w)) eqn:E;
        [now apply split_scan_not_nil in E | exact H].
    + apply IH.
Qed.

Lemma format_service_id_pattern (sr sd ed w sr' sd' ed' w' : string) :
  Py.all_chars (Py.is_not "_") w = true -> Py.all_chars (Py.is_not "_") w' = true ->
  format_service_id sr sd ed w = format_service_id sr' sd' ed' w' -> w = w'.
Proof.
  intros Hw Hw' E. unfold format_service_id in E.
  assert (forall a b c d, a ++ "_" ++ b ++ "_" ++ c ++ "_" ++ d
                          = (a ++ "_" ++ b ++ "_" ++ c) ++ String "_" d) as R.
  { intros a b c d. now rewrite !append_assoc. }
  rewrite !R in E.
  rewrite <- (last_piece "" (sr ++ "_" ++ sd ++ "_" ++ ed) w Hw).
  rewrite <- (last_piece "" (sr' ++ "_" ++ sd' ++ "_" ++ ed') w' Hw').
  now rewrite E.
Qed.

Lemma generate_service_id_In (stop_times : list row) (r : row) :
  In r (generate_service_id stop_times) ->
  exists r0, In r0 stop_times
             /\ r = set_service_id (assigned (calendar_info_of stop_times) r0) r0.
Proof.
  rewrite generate_service_id_rows, in_map_iff.
  intros (r0 & <- & H). now exists r0.
Qed.

(** C5, as stated, fails: two journeys of the services SVC1 and SVC2 that
    run on the same days differ in their service reference, and both get
    the identifier made from SVC1. *)
Lemma generate_service_id_merges_services :
  map service_ref (generate_service_id two_services) = ["SVC1"; "SVC2"]
  /\ map service_id (generate_service_id two_services)
     = [Some "SVC1_20240101_20241231_MondayToFriday";
        Some "SVC1_20240101_20241231_MondayToFriday"].
Proof. split; reflexivity. Qed.

(** The pattern that [calendar_info] has for a journey is that of the first
    row of the journey in the frame. *)
Lemma journey_weekdays_calendar_info (stop_times : list row) (v : string) :
  journey_weekdays (calendar_info_of stop_times) v = journey_weekdays stop_times v.
Proof.
  unfold journey_weekdays. rewrite calendar_info_find.
  now destruct (find _ stop_times).
Qed.

Lemma find_app_none {A : Type} (p : A -> bool) (l1 l2 : list A) :
  (forall x, In x l1 -> p x = false) -> find p (l1 ++ l2) = find p l2.
Proof.
  intros H. induction l1 as [|x l1 IH]; [reflexivity|].
  cbn [app find]. rewrite (H x (or_introl eq_refl)).
  apply IH. intros y Hy. apply H. now right.
Qed.

(** The rows kept by [drop_duplicates] from the rest [rest] of a frame,
    after the rows [before]: the first of them with the pattern [weekday]
    is the first row of [rest] whose journey has that pattern. *)
Lemma first_kept_of_group (weekday : string) (before rest : list row)
    (seen : list string) :
  (forall v, In v seen <-> In v (map vehicle_journey_id before)) ->
  (forall r, In r before -> in_group (before ++ rest) weekday r = false) ->
  find (has_weekdays weekday)
       (drop_duplicates_from String.eqb vehicle_journey_id seen
          (map (set_service_id None) rest))
  = option_map (set_service_id None) (find (in_group (before ++ rest) weekday) rest).
Proof.
  revert before seen. induction rest as [|x rest IH]; intros before seen Hseen Hbefore;
    [reflexivity|].
  assert (Hfrm : (before ++ x :: rest = (before ++ [x]) ++ rest)%list)
    by now rewrite <- app_assoc.
  cbn [map drop_duplicates_from find].
  change (vehicle_journey_id (set_service_id None x)) with (vehicle_journey_id x).
  destruct (existsb (String.eqb (vehicle_journey_id x)) seen) eqn:E.
  - apply (existsb_eqb String.eqb string_eqb_spec) in E.
    apply Hseen, in_map_iff in E. destruct E as (r0 & Hv & Hr0).
    assert (in_group (before ++ x :: rest) weekday x = false) as Hx.
    { rewrite <- (Hbefore r0 Hr0). unfold in_group. now rewrite Hv. }
    rewrite Hx, Hfrm. apply IH.
    + intros v. rewrite Hseen, map_app, in_app_iff. cbn [map In].
      split; [tauto|]. intros [H|[<-|[]]]; [exact H|].
      rewrite <- Hv. now apply in_map.
    + intros r Hr. rewrite <- Hfrm. apply in_app_iff in Hr.
      destruct Hr as [Hr|[<-|[]]]; [now apply Hbefore | exact Hx].
  - assert (in_group (before ++ x :: rest) weekday x = has_weekdays weekday x) as Hx.
    { unfold in_group, journey_weekdays, has_weekdays.
      rewrite find_app_none.
      - cbn [find]. now rewrite String.eqb_refl.
      - intros r Hr. destruct (String.eqb (vehicle_journey_id r) (vehicle_journey_id x))
          eqn:Ev; [|reflexivity].
        apply String.eqb_eq in Ev.
        assert (In (vehicle_journey_id x) seen) as Hin
          by (apply Hseen; rewrite <- Ev; now apply in_map).
        apply (existsb_eqb String.eqb string_eqb_spec) in Hin. congruence. }
    cbn [find]. rewrite Hx.
    change (has_weekdays weekday (set_service_id None x)) with (has_weekdays weekday x).
    destruct (has_weekdays weekday x) eqn:Ex; [reflexivity|].
    rewrite Hfrm. apply IH.
    + intros v. rewrite map_app, in_app_iff. cbn [map In]. rewrite <- Hseen. tauto.
    + intros r Hr. rewrite <- Hfrm. apply in_app_iff in Hr.
      destruct Hr as [Hr|[<-|[]]]; [now apply Hbefore | now rewrite Hx].
Qed.

Lemma filter_head_find {A : Type} (p : A -> bool) (l : list A) :
  find p l = match filter p l with [] => None | first :: _ => Some first end.
Proof.
  induction l as [|x l IH]; cbn [find filter]; [reflexivity|]. now destruct (p x).
Qed.

(** The identifier of a group is made from its first journey. *)
Lemma group_service_id_first_of_group (stop_times : list row) (weekday : string) :
  group_service_id (calendar_info_of stop_times) weekday
  = match first_of_group stop_times weekday with
    | Some first =>
        Some (format_service_id (service_ref first) (start_date first) (end_date first)
                                weekday)
    | None => None
    end.
Proof.
  unfold group_service_id, first_of_group.
  pose proof (filter_head_find (has_weekdays weekday) (calendar_info_of stop_times)) as H.
  unfold calendar_info_of, drop_duplicates in *.
  rewrite (first_kept_of_group weekday [] stop_times []) in H;
    [|intros v; reflexivity | intros r []].
  cbn [app] in H.
  destruct (filter _ _) as [|first rest]; destruct (find _ stop_times) as [g|];
    cbn [option_map] in H; try discriminate H; [reflexivity|].
  injection H as <-. reflexivity.
Qed.

Lemma assigned_identifier (stop_times : list row) (r : row) :
  assigned (calendar_info_of stop_times) r = identifier stop_times r.
Proof.
  unfold assigned, identifier. rewrite journey_weekdays_calendar_info.
  destruct (journey_weekdays stop_times (vehicle_journey_id r)); [|reflexivity].
  apply group_service_id_first_of_group.
Qed.

(** The journey of the first row of a group has the pattern of the group,
    and so has that row, the first of its journey. *)
Lemma first_of_group_row (stop_times : list row) (weekday : string) (g : row) :
  first_of_group stop_times weekday = Some g ->
  In g stop_times /\ weekdays g = Some weekday
  /\ journey_weekdays stop_times (vehicle_journey_id g) = Some weekday.
Proof.
  unfold first_of_group. intros H.
  pose proof (find_some _ _ H) as [Hin Hg].
  assert (journey_weekdays stop_times (vehicle_journey_id g) = Some weekday) as Hj.
  { unfold in_group in Hg. destruct (journey_weekdays _ _) as [w|]; [|discriminate Hg].
    apply String.eqb_eq in Hg. now subst. }
  split; [exact Hin|]. split; [|exact Hj].
  unfold journey_weekdays in Hj.
  destruct (find (fun c => String.eqb (vehicle_journey_id c) (vehicle_journey_id g))
                 stop_times) as [c|] eqn:Ec; [|discriminate Hj].
  pose proof (find_some _ _ Ec) as [Hc Hv]. apply String.eqb_eq in Hv.
  (* [c], the first row of the journey of [g], is in the group: it is [g] *)
  assert (in_group stop_times weekday c = true) as Hcg.
  { unfold in_group. rewrite Hv. unfold in_group in Hg. exact Hg. }
  clear Hin Hc Hg.
  induction stop_times as [|x l IH] in H, Ec, Hcg, Hj |- *; [discriminate H|].
  cbn [find] in H, Ec.
  destruct (in_group _ weekday x) eqn:Ex.
  - injection H as ->. rewrite String.eqb_refl in Ec. injection Ec as ->. exact Hj.
  - destruct (String.eqb (vehicle_journey_id x) (vehicle_journey_id g)) eqn:Ev.
    + injection Ec as ->. congruence.
    + revert H Ec Hcg Hj. generalize (in_group (x :: l) weekday). intros p H Ec Hcg Hj.
      clear IH Ex Ev.
      induction l as [|y l IH]; [discriminate H|].
      cbn [find] in H, Ec. destruct (p y) eqn:Ey.
      * injection H as ->. rewrite String.eqb_refl in Ec. injection Ec as ->. exact Hj.
      * destruct (String.eqb (vehicle_journey_id y) (vehicle_journey_id g)) eqn:Ev.
        -- injection Ec as ->. congruence.
        -- now apply IH.
Qed.

(** C5, amended.  [generate_service_id] changes the column [service_id]
    alone, and groups the journeys by weekly pattern alone, the pattern of
    a journey being that of its first row in the frame.  Rows whose
    journeys have one pattern get one identifier, whatever their service
    and dates.  The identifier of a row whose journey has a pattern is
    serviceRef_startDate_endDate_pattern for the service and the dates of
    the first row of the frame whose journey has that pattern, the first
    journey of the group; a row whose journey has no pattern gets none.
    Rows whose journeys have different patterns, neither with an
    underscore, get different identifiers.  In a frame where the rows of
    one journey carry one pattern, the pattern of the journey of a row is
    the pattern of the row. *)
Theorem generate_service_id_by_weekdays (stop_times : list row) :
  generate_service_id stop_times
  = map (fun r => set_service_id (identifier stop_times r) r) stop_times
  /\ (forall r1 r2,
        journey_weekdays stop_times (vehicle_journey_id r1)
        = journey_weekdays stop_times (vehicle_journey_id r2) ->
        identifier stop_times r1 = identifier stop_times r2)
  /\ (forall r wd,
        In r stop_times ->
        journey_weekdays stop_times (vehicle_journey_id r) = Some wd ->
        exists first,
          first_of_group stop_times wd = Some first
          /\ In first stop_times /\ weekdays first = Some wd
          /\ identifier stop_times r
             = Some (format_service_id (service_ref first) (start_date first)
                                       (end_date first) wd))
  /\ (forall r,
        journey_weekdays stop_times (vehicle_journey_id r) = None ->
        identifier stop_times r = None)
  /\ (forall r1 r2 w1 w2,
        In r1 stop_times -> In r2 stop_times ->
        journey_weekdays stop_times (vehicle_journey_id r1) = Some w1 ->
        journey_weekdays stop_times (vehicle_journey_id r2) = Some w2 ->
        w1 <> w2 ->
        Py.all_chars (Py.is_not "_") w1 = true ->
        Py.all_chars (Py.is_not "_") w2 = true ->
        identifier stop_times r1 <> identifier stop_times r2)
  /\ (consistent stop_times ->
      forall r, In r stop_times ->
                journey_weekdays stop_times (vehicle_journey_id r) = weekdays r).
Proof.
  assert (forall r wd,
             In r stop_times ->
             journey_weekdays stop_times (vehicle_journey_id r) = Some wd ->
             exists first,
               first_of_group stop_times wd = Some first
               /\ In first stop_times /\ weekdays first = Some wd
               /\ identifier stop_times r
                  = Some (format_service_id (service_ref first) (start_date first)
                                            (end_date first) wd)) as Hform.
  { intros r wd Hr Hw. unfold identifier. rewrite Hw.
    destruct (first_of_group stop_times wd) as [first|] eqn:E.
    - destruct (first_of_group_row _ _ _ E) as (Hin & Hwd & _).
      exists first. repeat split; assumption.
    - exfalso. unfold first_of_group in E. apply (find_none _ _ E) in Hr.
      unfold in_group in Hr. rewrite Hw, String.eqb_refl in Hr. discriminate Hr. }
  split; [|split; [|split; [|split; [|split]]]].
  - rewrite generate_service_id_rows. apply map_ext. intros r.
    now rewrite assigned_identifier.
  - intros r1 r2 H. unfold identifier. now rewrite H.
  - exact Hform.
  - intros r H. unfold identifier. now rewrite H.
  - intros r1 r2 w1 w2 H1 H2 Hw1 Hw2 Hne Hu1 Hu2 E.
    destruct (Hform r1 w1 H1 Hw1) as (g1 & _ & _ & _ & E1).
    destruct (Hform r2 w2 H2 Hw2) as (g2 & _ & _ & _ & E2).
    rewrite E1, E2 in E. injection E as E.
    now apply format_service_id_pattern in E.
  - intros Hc r Hr. rewrite <- journey_weekdays_calendar_info.
    now apply journey_weekdays_row.
Qed.

Lemma three_journeys_consistent : consistent three_journeys.
Proof.
  intros r1 r2 H1 H2.
  repeat (destruct H1 as [<- | H1]; [|]); try contradiction;
    repeat (destruct H2 as [<- | H2]; [|]); try contradiction;
    cbn; congruence.
Qed.

Lemma generate_service_id_by_weekdays_witness :
  map service_id (generate_service_id two_patterns)
  = [Some "SVC1_20240101_20241231_MondayToFriday";
     Some "SVC1_20240101_20241231_MondayToFriday";
     Some "SVC2_20240101_20241231_Weekend"]
  /\ identifier two_patterns
       (sample_row "T1" "VJ1" "SVC1" "20240101" "20241231" (Some "Weekend") 2)
     <> identifier two_patterns
          (sample_row "T2" "VJ2" "SVC2" "20240101" "20241231" (Some "Weekend") 1)
  /\ (forall r, In r three_journeys ->
                journey_weekdays three_journeys (vehicle_journey_id r) = weekdays r).
Proof.
  split; [|split].
  - rewrite (proj1 (generate_service_id_by_weekdays two_patterns)). reflexivity.
  - apply (proj1 (proj2 (proj2 (proj2 (proj2
             (generate_service_id_by_weekdays two_patterns)))))
             _ _ "MondayToFriday" "Weekend");
      [cbn; tauto | cbn; tauto | reflexivity | reflexivity | discriminate
      | reflexivity | reflexivity].
  - apply (proj2 (proj2 (proj2 (proj2 (proj2
             (generate_service_id_by_weekdays three_journeys)))))).
    exact three_journeys_consistent.
Defined.

End Frames.

(** ** Clocks *)

Section Clocks.

Import Py TransXChange.

(** Rounding to the nearest integer keeps the quotient within half a unit. *)
Lemma divide_and_round_bounds (a b : Z) :
  0 < b -> 2 * Z.abs (b * divide_and_round a b - a) <= b.
Proof.
  intros Hb. unfold divide_and_round.
  pose proof (Z.div_mod a b ltac:(lia)) as Hdm.
  pose proof (Z.mod_pos_bound a b Hb) as Hm.
  destruct (0 <? b) eqn:E; [|apply Z.ltb_ge in E; lia].
  destruct (b <? 2 * (a mod b)) eqn:E1; cbn [orb].
  - apply Z.ltb_lt in E1. lia.
  - apply Z.ltb_ge in E1.
    destruct ((2 * (a mod b) =? b) && (a / b mod 2 =? 1)) eqn:E2.
    + apply andb_prop in E2 as [E2 _]. apply Z.eqb_eq in E2. lia.
    + lia.
Qed.

(** The hours that the code counts from the last second of the reference
    day: dividing the difference by 60 twice and reading the seconds field
    gives its whole hours. *)
Lemma whole_hours (x : Z) :
  0 <= x < 3600 * 86400 ->
  td_seconds (td_div (td_div (x * 1000000) 60) 60) = x / 3600.
Proof.
  intros Hx. unfold td_seconds, td_div.
  set (q1 := divide_and_round (x * 1000000) 60).
  set (q2 := divide_and_round q1 60).
  pose proof (divide_and_round_bounds (x * 1000000) 60 ltac:(lia)) as H1.
  pose proof (divide_and_round_bounds q1 60 ltac:(lia)) as H2.
  fold q1 in H1. fold q2 in H2.
  pose proof (Z.div_mod x 3600 ltac:(lia)) as Hdm.
  pose proof (Z.mod_pos_bound x 3600 ltac:(lia)) as Hm.
  assert (0 <= x / 3600 < 86400) as Hq
    by (split; [apply Z.div_pos; lia | apply Z.div_lt_upper_bound; lia]).
  assert (q2 / 1000000 = x / 3600) as ->.
  { symmetry. apply Z.div_unique with (r := q2 - 1000000 * (x / 3600)); lia. }
  apply Z.mod_small. lia.
Qed.

Import Timetable.

Lemma get_midnight_formatted_times_wrapped (hour current_dt departure_dt : Z) :
  86399 <= current_dt < 86399 + 3600 * 86400 ->
  86399 <= departure_dt < 86399 + 3600 * 86400 ->
  dt_hour current_dt < hour ->
  get_midnight_formatted_times (dt_hour current_dt) (dt_hour departure_dt) hour
                               current_dt departure_dt
  = (24 + (current_dt - 86399) / 3600, 24 + (departure_dt - 86399) / 3600).
Proof.
  intros Hc Hd Hlt. unfold get_midnight_formatted_times, dt_sub.
  rewrite (proj2 (Z.ltb_lt _ _) Hlt).
  change (23 * 3600 + 59 * 60 + 59) with 86399.
  rewrite !whole_hours by lia. f_equal; lia.
Qed.

Lemma get_midnight_formatted_times_same_day (hour current_dt departure_dt : Z) :
  hour <= dt_hour current_dt ->
  get_midnight_formatted_times (dt_hour current_dt) (dt_hour departure_dt) hour
                               current_dt departure_dt
  = (dt_hour current_dt, dt_hour departure_dt).
Proof.
  intros H. unfold get_midnight_formatted_times.
  now rewrite (proj2 (Z.ltb_ge _ _) H).
Qed.

(** On a whole minute after the midnight that follows the reference day,
    the hours counted from the last second of the day are the hours of the
    clock. *)
Lemma hours_past_midnight (t : Z) :
  86400 <= t -> t mod 60 = 0 -> 24 + (t - 86399) / 3600 = t / 3600.
Proof.
  intros Ht Hm.
  pose proof (Z.div_mod t 60 ltac:(lia)) as Hk.
  pose proof (Z.div_mod (t / 60) 60 ltac:(lia)) as Hh.
  pose proof (Z.mod_pos_bound (t / 60) 60 ltac:(lia)) as Hb.
  assert (t / 3600 = t / 60 / 60) as ->.
  { symmetry. apply Z.div_unique with (r := 60 * ((t / 60) mod 60)); lia. }
  assert ((t - 86399) / 3600 = t / 60 / 60 - 24) as ->; [|lia].
  symmetry. apply Z.div_unique with (r := 60 * ((t / 60) mod 60) + 1); lia.
Qed.

(** The code emits the clock unwrapped as long as the clock is on a whole
    minute and has not reached the journey's initial hour on the day after
    the reference day. *)
Lemma emitted_clock_unwrapped (hour minute clock : Z) :
  0 <= hour <= 23 -> 0 <= minute <= 59 ->
  hour * 3600 + minute * 60 <= clock < 86400 + 3600 * hour ->
  clock mod 60 = 0 ->
  emitted_clock hour clock = clock_string clock.
Proof.
  intros Hh Hm Hc H60. unfold emitted_clock, clock_string. do 3 f_equal.
  destruct (Z.lt_ge_cases clock 86400) as [Hday|Hday].
  - assert (dt_hour clock = clock / 3600) as E
      by (unfold dt_hour; rewrite Z.mod_small by lia; reflexivity).
    rewrite get_midnight_formatted_times_same_day; [exact E|].
    rewrite E. apply Z.div_le_lower_bound; lia.
  - assert (dt_hour clock = (clock - 86400) / 3600) as E.
    { unfold dt_hour. f_equal. symmetry.
      apply Z.mod_unique with (q := 1); lia. }
    rewrite get_midnight_formatted_times_wrapped; try lia.
    + cbn [fst]. now apply hours_past_midnight.
    + rewrite E. apply Z.div_lt_upper_bound; lia.
Qed.

(** *** Reading a clock text back *)

Lemma int_digits_zeros (k : nat) (p : string) :
  all_chars is_digit p = true -> p <> "" ->
  int_digits 0 false (zeros k ++ p) = int_digits 0 false p.
Proof.
  intros Hp Hne. induction k as [|k IH]; [reflexivity|].
  cbn [zeros append int_digits]. change (is_digit "0") with true. cbn iota.
  change (10 * 0 + digit_value "0") with 0.
  destruct k as [|k].
  - cbn [zeros append]. destruct p as [|c p]; [contradiction|].
    cbn [all_chars] in Hp. apply andb_prop in Hp as [Hc _].
    cbn [int_digits]. now rewrite Hc.
  - rewrite <- IH. cbn [zeros append int_digits].
    change (is_digit "0") with true. cbn iota. reflexivity.
Qed.

(** [zfill] of a numeral is the numeral behind its zeros. *)
Lemma zfill_digits (width : nat) (p : string) :
  all_chars is_digit p = true ->
  zfill width p = zeros (width - String.length p) ++ p.
Proof.
  unfold zfill. destruct p as [|c p]; [reflexivity|]. cbn [all_chars]. intros H.
  apply andb_prop in H as [Hc _].
  destruct c as [[] [] [] [] [] [] [] []]; try reflexivity; discriminate Hc.
Qed.

Lemma zeros_digits (k : nat) : all_chars is_digit (zeros k) = true.
Proof. induction k as [|k IH]; [reflexivity | exact IH]. Qed.

(** A zero-filled numeral is made of digits and reads as its number. *)
Lemma zfill_str (width : nat) (n : Z) :
  0 <= n ->
  all_chars is_digit (zfill width (str n)) = true
  /\ int (zfill width (str n)) = Ok n.
Proof.
  intros Hn. destruct (str_digits_only n Hn) as (Hall & Hne & Hval).
  rewrite (zfill_digits _ _ Hall).
  assert (all_chars is_digit (zeros (width - String.length (str n)) ++ str n) = true)
    as Hz by now rewrite all_chars_app, zeros_digits, Hall.
  split; [exact Hz|].
  apply int_digits_string; [exact Hz|].
  now rewrite int_digits_zeros.
Qed.

Lemma split_colons (a b c : string) :
  all_chars is_digit a = true -> all_chars is_digit b = true ->
  all_chars is_digit c = true ->
  split ":" (a ++ ":" ++ b ++ ":" ++ c) = [a; b; c].
Proof.
  intros Ha Hb Hc.
  assert (forall s, all_chars is_digit s = true -> all_chars (is_not ":") s = true) as Hd.
  { intros s. apply all_chars_impl. intros x. now apply digit_is_not. }
  unfold split. cbn [append].
  rewrite split_scan_char by now apply Hd.
  rewrite split_scan_char by now apply Hd.
  rewrite split_scan_absent by now apply Hd.
  reflexivity.
Qed.

(** The clock text of a number of seconds reads back as that number. *)
Lemma clock_value_string (t : Z) : 0 <= t -> clock_value (clock_string t) = Ok t.
Proof.
  intros Ht. unfold clock_value, parse_departure_time, clock_string, strftime_MS.
  assert (0 <= t / 3600) as Hh by (apply Z.div_pos; lia).
  assert (0 <= t mod 3600 / 60) as Hm
    by (apply Z.div_pos; [apply Z.mod_pos_bound|]; lia).
  assert (0 <= t mod 60) as Hs by (apply Z.mod_pos_bound; lia).
  destruct (zfill_str 2 _ Hh) as [Dh Ih].
  destruct (zfill_str 2 _ Hm) as [Dm Im].
  destruct (zfill_str 2 _ Hs) as [Ds Is].
  rewrite split_colons by assumption.
  rewrite Ih. cbn [bind]. rewrite Im. cbn [bind]. rewrite Is. cbn [bind].
  f_equal.
  pose proof (Z.div_mod t 3600 ltac:(lia)).
  pose proof (Z.div_mod (t mod 3600) 60 ltac:(lia)).
  assert (t mod 60 = (t mod 3600) mod 60) as ->; [|lia].
  symmetry. apply Z.mod_unique with (q := t / 3600 * 60 + t mod 3600 / 60).
  - left. apply Z.mod_pos_bound. lia.
  - pose proof (Z.div_mod (t mod 3600) 60 ltac:(lia)). 
    pose proof (Z.mod_pos_bound (t mod 3600) 60 ltac:(lia)). lia.
Qed.

Lemma clock_values_strings (clocks : list Z) :
  Forall (fun t => 0 <= t) clocks ->
  mapM clock_value (map clock_string clocks) = Ok clocks.
Proof.
  intros H. induction H as [|t clocks Ht _ IH]; [reflexivity|].
  cbn [map mapM]. now rewrite (clock_value_string t Ht), IH.
Qed.

End Clocks.

(** ** The walk over the timing links *)

Section Walk.

Import Py StopTimes TransXChange Timetable.

Lemma get_midnight_formatted_times_equal (a hour c : Z) :
  get_midnight_formatted_times a a hour c c
  = (fst (get_midnight_formatted_times a a hour c c),
     fst (get_midnight_formatted_times a a hour c c)).
Proof. unfold get_midnight_formatted_times. now destruct (a <? hour). Qed.

(** Every duration that the parser returns is a whole number of minutes. *)
Lemma parse_runtime_duration_minutes (s : string) (d : Z) :
  parse_runtime_duration s = Ok d -> d mod 60 = 0.
Proof.
  unfold parse_runtime_duration, HOUR_IN_SECONDS, MINUTE_IN_SECONDS.
  destruct (index (split "PT" s) 1) as [r|]; cbn [bind]; [|discriminate].
  assert (forall time r0,
             time mod 60 = 0 ->
             (if contains "S" r0
              then s0 <- index (split "S" r0) 0 ;; n <- int s0 ;; Ok (time + n * 60)
              else Ok time) = Ok d -> d mod 60 = 0) as HS.
  { intros time r0 Ht. destruct (contains "S" r0); [|now intros [= <-]].
    destruct (index (split "S" r0) 0); cbn [bind]; [|discriminate].
    destruct (int a); cbn [bind]; [|discriminate].
    intros [= <-]. rewrite Z.add_mod, Ht, Z.mod_mul by lia. reflexivity. }
  assert (forall time r0,
             time mod 60 = 0 ->
             ('(time, runtime) <-
                (if contains "M" r0
                 then s0 <- index (split "M" r0) 0 ;; n <- int s0 ;;
                      s1 <- index (split "M" r0) 1 ;; Ok (time + n * 60, s1)
                 else Ok (time, r0)) ;;
              if contains "S" runtime
              then s0 <- index (split "S" runtime) 0 ;; n <- int s0 ;;
                   Ok (time + n * 60)
              else Ok time) = Ok d -> d mod 60 = 0) as HM.
  { intros time r0 Ht. destruct (contains "M" r0); cbn [bind]; [|now apply HS].
    destruct (index (split "M" r0) 0); cbn [bind]; [|discriminate].
    destruct (int a); cbn [bind]; [|discriminate].
    destruct (index (split "M" r0) 1); cbn [bind]; [|discriminate].
    apply HS. rewrite Z.add_mod, Ht, Z.mod_mul by lia. reflexivity. }
  destruct (contains "H" r); cbn [bind]; [|now apply HM].
  destruct (index (split "H" r) 0); cbn [bind]; [|discriminate].
  destruct (int a); cbn [bind]; [|discriminate].
  destruct (index (split "H" r) 1); cbn [bind]; [|discriminate].
  apply HM. rewrite Z.add_mod by lia.
  replace (a0 * (60 * 60)) with (a0 * 60 * 60) by lia.
  now rewrite Z.mod_mul by lia.
Qed.

(** One turn of the loop over the links, after the first link. *)
Lemma link_step_next (ctx : journey_context) (trip : string) (link : timing_link)
    (c n d : Z) (rows : list row) (lst : option (timing_link * Z)) :
  parse_runtime_duration (RunTime link) = Ok d ->
  link_step ctx trip
    {| ls_current_dt := Some c; ls_stop_num := n; ls_section_times := rows;
       ls_last := lst |} link
  = Ok {| ls_current_dt := Some (c + d);
          ls_stop_num := n + 1;
          ls_section_times :=
            (rows ++ [stop_row ctx trip (From_StopPointRef link) (RouteLinkRef link) n 0
                               (ctx_non_operative_days ctx) (c + d)])%list;
          ls_last := Some (link, d) |}.
Proof.
  intros Hd. unfold link_step. rewrite Hd.
  cbn [bind ls_current_dt ls_stop_num ls_section_times]. unfold boarding_time.
  rewrite Z.add_0_r, get_midnight_formatted_times_equal. reflexivity.
Qed.

(** The first turn of the loop over the links of a journey. *)
Lemma link_step_first (ctx : journey_context) (trip : string) (link : timing_link)
    (n d start : Z) (rows : list row) (lst : option (timing_link * Z)) :
  parse_runtime_duration (RunTime link) = Ok d ->
  combine_time (ctx_hour ctx) (ctx_minute ctx) = Ok start ->
  link_step ctx trip
    {| ls_current_dt := None; ls_stop_num := n; ls_section_times := rows;
       ls_last := lst |} link
  = Ok {| ls_current_dt := Some start;
          ls_stop_num := n + 1;
          ls_section_times :=
            (rows ++ [stop_row ctx trip (From_StopPointRef link) (RouteLinkRef link) n 1
                               (ctx_non_operative_days ctx) start])%list;
          ls_last := Some (link, d) |}.
Proof.
  intros Hd Hs. unfold link_step. rewrite Hd.
  cbn [bind ls_current_dt ls_stop_num ls_section_times]. rewrite Hs. cbn [bind].
  rewrite get_midnight_formatted_times_equal. reflexivity.
Qed.

Lemma last_stop_row_eq (ctx : journey_context) (trip : string) (link : timing_link)
    (c d n : Z) :
  last_stop_row ctx trip link c d n
  = stop_row ctx trip (To_StopPointRef link) (RouteLinkRef link) n 0 None (c + d).
Proof.
  unfold last_stop_row, get_last_stop_time_info, boarding_time.
  rewrite Z.add_0_r, get_midnight_formatted_times_equal. reflexivity.
Qed.

Lemma mapM_cons {A B : Type} (f : A -> result B) (x : A) (xs : list A) (ys : list B) :
  mapM f (x :: xs) = Ok ys ->
  exists y ys', ys = y :: ys' /\ f x = Ok y /\ mapM f xs = Ok ys'.
Proof.
  cbn [mapM]. destruct (f x) as [y|]; cbn [bind]; [|discriminate].
  destruct (mapM f xs) as [ys'|]; cbn [bind]; [|discriminate].
  intros [= <-]. now exists y, ys'.
Qed.

Lemma mapM_length {A B : Type} (f : A -> result B) (xs : list A) (ys : list B) :
  mapM f xs = Ok ys -> List.length ys = List.length xs.
Proof.
  revert ys. induction xs as [|x xs IH]; intros ys H.
  - injection H as <-. reflexivity.
  - apply mapM_cons in H as (y & ys' & -> & _ & H). cbn. now rewrite (IH _ H).
Qed.

Lemma last_cons_default {A : Type} (x a : A) (l : list A) :
  last (x :: l) a = last l x.
Proof.
  revert x a. induction l as [|y l IH]; intros x a; [reflexivity|].
  change (last (x :: y :: l) a) with (last (y :: l) a).
  now rewrite !IH.
Qed.

(** The loop over the links that follow the first one. *)
Lemma links_loop (ctx : journey_context) (trip : string) (links : list timing_link)
    (ds : list Z) (c n : Z) (rows : list row) (lst : timing_link * Z) :
  mapM parse_runtime_duration (map RunTime links) = Ok ds ->
  for_each (link_step ctx trip)
    {| ls_current_dt := Some c; ls_stop_num := n; ls_section_times := rows;
       ls_last := Some lst |} links
  = Ok {| ls_current_dt := Some (last (link_clocks c ds) c);
          ls_stop_num := n + Z.of_nat (List.length links);
          ls_section_times := (rows ++ link_rows ctx trip c n (combine links ds))%list;
          ls_last := Some (last (combine links ds) lst) |}.
Proof.
  revert ds c n rows lst. induction links as [|l links IH]; intros ds c n rows lst H.
  - injection H as <-. cbn. now rewrite Z.add_0_r, app_nil_r.
  - cbn [map] in H. apply mapM_cons in H as (d & ds' & -> & Hd & H).
    cbn [for_each]. rewrite (link_step_next _ _ _ _ _ _ _ _ Hd). cbn [bind].
    rewrite (IH _ _ _ _ _ H). f_equal. f_equal.
    + cbn [link_clocks]. now rewrite last_cons_default.
    + cbn [List.length]. lia.
    + cbn [combine link_rows]. now rewrite <- app_assoc.
    + cbn [combine]. now rewrite last_cons_default.
Qed.

(** A section that is the first of a journey to match. *)
Lemma section_step_first (ctx : journey_context) (refs : list string) (sec : section)
    (n start : Z) (stale : option (list row)) (ds : list Z) :
  existsb (String.eqb (section_id sec)) refs = true ->
  JourneyPatternTimingLink sec <> [] ->
  mapM parse_runtime_duration (map RunTime (JourneyPatternTimingLink sec)) = Ok ds ->
  combine_time (ctx_hour ctx) (ctx_minute ctx) = Ok start ->
  section_step ctx refs
    {| ss_current_dt := None; ss_stop_num := n; ss_section_times := stale |} sec
  = Ok {| ss_current_dt := Some (last (link_clocks start (tl ds)) start);
          ss_stop_num := n + Z.of_nat (List.length (JourneyPatternTimingLink sec));
          ss_section_times :=
            Some (first_section_rows ctx (trip_id_of ctx sec) start n
                    (JourneyPatternTimingLink sec) ds) |}.
Proof.
  intros Hm Hne Hds Hs. unfold section_step. rewrite Hm. cbn [negb].
  fold (trip_id_of ctx sec).
  destruct (JourneyPatternTimingLink sec) as [|l1 links]; [contradiction|].
  cbn [bind map] in *. apply mapM_cons in Hds as (d1 & ds' & -> & Hd1 & Hds).
  cbn [for_each ss_current_dt ss_stop_num].
  rewrite (link_step_first _ _ _ _ _ _ _ _ Hd1 Hs). cbn [bind].
  rewrite (links_loop _ _ _ _ _ _ _ _ Hds).
  cbn [bind ls_last ls_current_dt ls_stop_num ls_section_times tl first_section_rows app].
  destruct (last (combine links ds') (l1, d1)) as [l d].
  rewrite last_stop_row_eq.
  replace (n + Z.of_nat (List.length (l1 :: links)))
    with (n + 1 + Z.of_nat (List.length links)) by (cbn [List.length]; lia).
  reflexivity.
Qed.

(** Sections that the pattern does not name are passed over. *)
Lemma sections_loop_matching (ctx : journey_context) (refs : list string)
    (st : section_state) (sections : list section) :
  for_each (section_step ctx refs) st sections
  = for_each (section_step ctx refs) st (matching_sections refs sections).
Proof.
  revert st. induction sections as [|sec sections IH]; intros st; [reflexivity|].
  cbn [matching_sections filter for_each].
  destruct (existsb (String.eqb (section_id sec)) refs) eqn:E.
  - cbn [for_each]. destruct (section_step ctx refs st sec); cbn [bind];
      [apply IH | reflexivity].
  - unfold section_step at 1. rewrite E. cbn [negb bind]. apply IH.
Qed.

(** The turn of the loop over the vehicle journeys for a journey whose
    pattern names exactly one section of the document. *)
Lemma journey_step_single (jps : list jp_info) (sections : list section)
    (sod snod : option string) (st st' : run_state) (j : vehicle_journey)
    (sec : section) (hour minute second : Z) (ds : list Z) :
  journey_step jps sections sod snod st j = Ok st' ->
  matching_sections (section_references jps (JourneyPatternRef j)) sections = [sec] ->
  parse_departure_time (DepartureTime j) = Ok (hour, minute, second) ->
  mapM parse_runtime_duration (map RunTime (JourneyPatternTimingLink sec)) = Ok ds ->
  exists jp rows,
    In jp jps /\ jp_journey_pattern_id jp = JourneyPatternRef j
    /\ 0 <= hour <= 23 /\ 0 <= minute <= 59
    /\ JourneyPatternTimingLink sec <> []
    /\ rows = first_section_rows (context_of jp j sod snod hour minute)
                (trip_id_of (context_of jp j sod snod hour minute) sec)
                (hour * 3600 + minute * 60) 1 (JourneyPatternTimingLink sec) ds
    /\ st' = {| rs_gtfs_info := (rs_gtfs_info st ++ rows)%list;
                rs_section_times := Some rows |}.
Proof.
  intros H Hsec Hdep Hds. unfold journey_step in H.
  assert (Hin : In sec (matching_sections (section_references jps (JourneyPatternRef j))
                          sections)) by (rewrite Hsec; now left).
  apply filter_In in Hin as [_ Hm].
  unfold section_references in Hsec, Hm.
  destruct jps as [|jp0 jps0] eqn:Ejps; [discriminate H|]. rewrite <- Ejps in *.
  cbn [bind] in H.
  destruct (filter (fun jp => String.eqb (jp_journey_pattern_id jp) (JourneyPatternRef j))
                   jps) as [|jp found] eqn:Ef; [discriminate H|].
  assert (In jp jps /\ jp_journey_pattern_id jp = JourneyPatternRef j) as [Hjp Hid].
  { assert (In jp (jp :: found)) as Hi by now left.
    rewrite <- Ef in Hi. apply filter_In in Hi as [Hi Hi'].
    now apply String.eqb_eq in Hi'. }
  cbn [Py.index nth_error bind] in H. rewrite Hdep in H. cbn [bind] in H.
  fold (context_of jp j sod snod hour minute) in H.
  set (ctx := context_of jp j sod snod hour minute) in *.
  rewrite sections_loop_matching, Hsec in H. cbn [for_each] in H.
  destruct (JourneyPatternTimingLink sec) as [|l1 links] eqn:El.
  { unfold section_step in H. rewrite Hm, El in H. discriminate H. }
  destruct (combine_time (ctx_hour ctx) (ctx_minute ctx)) as [start|e] eqn:Ec.
  - rewrite <- El in Hds.
    rewrite (section_step_first ctx _ sec 1 start _ ds Hm) in H;
      [|rewrite El; discriminate | exact Hds | exact Ec].
    cbn [bind ss_section_times] in H. injection H as <-.
    unfold combine_time in Ec. cbn [ctx context_of ctx_hour ctx_minute] in Ec.
    destruct ((0 <=? hour) && (hour <=? 23) && (0 <=? minute) && (minute <=? 59)) eqn:Eb;
      [|discriminate Ec].
    injection Ec as <-.
    repeat (apply andb_prop in Eb as [Eb ?]).
    exists jp, (first_section_rows ctx (trip_id_of ctx sec) (hour * 3600 + minute * 60) 1
                  (JourneyPatternTimingLink sec) ds).
    rewrite El. repeat split; try lia; try discriminate; assumption.
  - exfalso. unfold section_step in H. rewrite Hm, El in H.
    cbn [negb bind for_each map] in H. cbn [map] in Hds.
    apply mapM_cons in Hds as (d1 & ds' & -> & Hd1 & _).
    unfold link_step at 1 in H. rewrite Hd1 in H.
    cbn [bind ls_current_dt ss_current_dt] in H. rewrite Ec in H. discriminate H.
Qed.

Lemma for_each_app {S A : Type} (body : S -> A -> result S) (st : S) (xs ys : list A) :
  for_each body st (xs ++ ys) = (st' <- for_each body st xs ;; for_each body st' ys).
Proof.
  revert st. induction xs as [|x xs IH]; intros st; [reflexivity|].
  cbn [app for_each]. destruct (body st x); cbn [bind]; [apply IH | reflexivity].
Qed.

(** A journey only adds rows to the frame. *)
Lemma journey_step_grows (jps : list jp_info) (sections : list section)
    (sod snod : option string) (st st' : run_state) (j : vehicle_journey) :
  journey_step jps sections sod snod st j = Ok st' ->
  exists rows, rs_gtfs_info st' = (rs_gtfs_info st ++ rows)%list.
Proof.
  unfold journey_step. intros H.
  repeat match type of H with
         | bind ?m _ = Ok _ =>
             let x := fresh in destruct m as [x|]; cbn [bind] in H; [|discriminate H]
         | (let (_, _) := ?p in _) = Ok _ => destruct p
         | match ?o with Some _ => _ | None => _ end = Ok _ =>
             destruct o; [|discriminate H]
         end.
  injection H as <-. cbn. eauto.
Qed.

Lemma journeys_loop_grows (jps : list jp_info) (sections : list section)
    (sod snod : option string) (js : list vehicle_journey) (st st' : run_state) :
  for_each (journey_step jps sections sod snod) st js = Ok st' ->
  exists rows, rs_gtfs_info st' = (rs_gtfs_info st ++ rows)%list.
Proof.
  revert st. induction js as [|j js IH]; intros st H.
  - injection H as <-. exists []. now rewrite app_nil_r.
  - cbn [for_each] in H.
    destruct (journey_step jps sections sod snod st j) as [st1|] eqn:E;
      [|discriminate H].
    cbn [bind] in H. apply journey_step_grows in E as (r1 & E1).
    apply IH in H as (r2 & E2). exists (r1 ++ r2)%list.
    now rewrite E2, E1, app_assoc.
Qed.

(** The rows of a section have no service identifier yet. *)
Lemma first_section_rows_service_id (ctx : journey_context) (trip : string)
    (start n : Z) (links : list timing_link) (ds : list Z) :
  map (set_service_id None) (first_section_rows ctx trip start n links ds)
  = first_section_rows ctx trip start n links ds.
Proof.
  unfold first_section_rows.
  destruct links as [|l1 links]; [reflexivity|].
  destruct ds as [|d1 ds']; [reflexivity|].
  destruct (last (combine links ds') (l1, d1)) as [l d].
  cbn [map]. f_equal. rewrite map_app. cbn [map]. f_equal.
  generalize start, (n + 1).
  induction (combine links ds') as [|[l' d'] lds IH]; intros c k; [reflexivity|].
  cbn [link_rows map]. now rewrite IH.
Qed.

(** The frame that a run returns holds, for a journey whose pattern names
    exactly one section, the rows of that section one after the other. *)
Lemma process_vehicle_journeys_rows (before after : list vehicle_journey)
    (j : vehicle_journey) (jps : list jp_info) (sections : list section)
    (sod snod : option string) (out : list row)
    (sec : section) (hour minute second : Z) (ds : list Z) :
  process_vehicle_journeys (before ++ j :: after) jps sections sod snod = Ok out ->
  matching_sections (section_references jps (JourneyPatternRef j)) sections = [sec] ->
  parse_departure_time (DepartureTime j) = Ok (hour, minute, second) ->
  mapM parse_runtime_duration (map RunTime (JourneyPatternTimingLink sec)) = Ok ds ->
  exists jp pre post,
    In jp jps /\ jp_journey_pattern_id jp = JourneyPatternRef j
    /\ 0 <= hour <= 23 /\ 0 <= minute <= 59
    /\ JourneyPatternTimingLink sec <> []
    /\ map (set_service_id None) out
       = (pre
          ++ first_section_rows (context_of jp j sod snod hour minute)
               (trip_id_of (context_of jp j sod snod hour minute) sec)
               (hour * 3600 + minute * 60) 1 (JourneyPatternTimingLink sec) ds
          ++ post)%list.
Proof.
  intros H Hsec Hdep Hds. unfold process_vehicle_journeys in H.
  rewrite for_each_app in H.
  destruct (for_each _ _ before) as [st1|] eqn:E1; [|discriminate H].
  cbn [bind for_each] in H.
  destruct (journey_step jps sections sod snod st1 j) as [st2|] eqn:E2;
    [|discriminate H].
  cbn [bind] in H.
  destruct (for_each _ st2 after) as [st3|] eqn:E3; [|discriminate H].
  cbn [bind] in H. injection H as <-.
  destruct (journey_step_single _ _ _ _ _ _ _ _ _ _ _ _ E2 Hsec Hdep Hds)
    as (jp & rows & Hjp & Hid & Hh & Hm & Hne & -> & ->).
  apply journeys_loop_grows in E3 as (post & E3). cbn [rs_gtfs_info] in E3.
  exists jp, (map (set_service_id None) (rs_gtfs_info st1)),
    (map (set_service_id None) post).
  repeat (split; [assumption|]).
  rewrite generate_service_id_rows, map_map.
  rewrite (map_ext _ (set_service_id None)) by now intros [].
  rewrite E3, <- app_assoc, !map_app.
  now rewrite first_section_rows_service_id.
Qed.

End Walk.

(** ** The rows of a trip *)

Section TripRows.

Import Py StopTimes TransXChange Timetable.

Lemma link_rows_sequence (ctx : journey_context) (trip : string) (c n : Z)
    (lds : list (timing_link * Z)) :
  map stop_sequence (link_rows ctx trip c n lds)
  = map (fun k => n + Z.of_nat k) (seq 0 (List.length lds)).
Proof.
  revert c n. induction lds as [|[l d] lds IH]; intros c n; [reflexivity|].
  cbn [link_rows map List.length seq stop_row stop_sequence].
  rewrite IH, <- seq_shift, map_map. f_equal; [lia|].
  apply map_ext. intros k. lia.
Qed.

Lemma link_rows_times (ctx : journey_context) (trip : string) (c n : Z)
    (lds : list (timing_link * Z)) :
  map arrival_time (link_rows ctx trip c n lds)
  = map (emitted_clock (ctx_hour ctx)) (link_clocks c (map snd lds))
  /\ map departure_time (link_rows ctx trip c n lds)
     = map (emitted_clock (ctx_hour ctx)) (link_clocks c (map snd lds)).
Proof.
  revert c n. induction lds as [|[l d] lds IH]; intros c n; [now split|].
  cbn [link_rows map snd link_clocks stop_row arrival_time departure_time].
  destruct (IH (c + d) (n + 1)) as [-> ->]. now split.
Qed.

Lemma map_snd_combine {A B : Type} (xs : list A) (ys : list B) :
  List.length xs = List.length ys -> map snd (combine xs ys) = ys.
Proof.
  revert ys. induction xs as [|x xs IH]; intros [|y ys] H; try discriminate H;
    [reflexivity|].
  cbn. f_equal. apply IH. now injection H.
Qed.

Lemma last_map {A B : Type} (f : A -> B) (l : list A) (a : A) :
  last (map f l) (f a) = f (last l a).
Proof.
  induction l as [|x l IH]; [reflexivity|].
  destruct l as [|y l]; [reflexivity|]. exact IH.
Qed.

(** The stop numbers of a section walked from stop number [n]. *)
Lemma first_section_rows_sequence (ctx : journey_context) (trip : string)
    (start n : Z) (links : list timing_link) (ds : list Z) :
  links <> [] -> List.length ds = List.length links ->
  map stop_sequence (first_section_rows ctx trip start n links ds)
  = map (fun k => n + Z.of_nat k) (seq 0 (S (List.length links))).
Proof.
  intros Hne Hlen. unfold first_section_rows.
  destruct links as [|l1 links]; [contradiction|].
  destruct ds as [|d1 ds]; [discriminate Hlen|].
  injection Hlen as Hlen.
  destruct (last (combine links ds) (l1, d1)) as [l d].
  cbn [map stop_row stop_sequence]. rewrite map_app, link_rows_sequence.
  cbn [map stop_row stop_sequence].
  rewrite length_combine, Hlen, Nat.min_id.
  cbn [List.length]. rewrite (seq_S (S (List.length links)) 0).
  cbn [seq]. rewrite <- seq_shift, map_app. cbn [map app]. rewrite map_map.
  apply f_equal2; [lia|]. apply f_equal2; [apply map_ext; intros k; lia|].
  apply f_equal2; [lia | reflexivity].
Qed.

(** The clock strings of a section walked first in a journey. *)
Lemma first_section_rows_times (ctx : journey_context) (trip : string)
    (start n : Z) (links : list timing_link) (ds : list Z) :
  links <> [] -> List.length ds = List.length links ->
  map arrival_time (first_section_rows ctx trip start n links ds)
  = map (emitted_clock (ctx_hour ctx)) (trip_clocks start ds)
  /\ map departure_time (first_section_rows ctx trip start n links ds)
     = map (emitted_clock (ctx_hour ctx)) (trip_clocks start ds).
Proof.
  intros Hne Hlen. unfold first_section_rows, trip_clocks.
  destruct links as [|l1 links]; [contradiction|].
  destruct ds as [|d1 ds]; [discriminate Hlen|].
  injection Hlen as Hlen.
  assert (snd (last (combine links ds) (l1, d1)) = last (d1 :: ds) 0) as Hd.
  { rewrite last_cons_default.
    rewrite <- (map_snd_combine links ds) at 2 by congruence.
    now rewrite <- (last_map snd). }
  destruct (last (combine links ds) (l1, d1)) as [l d]. cbn [snd] in Hd. subst d.
  cbn [map stop_row arrival_time departure_time]. rewrite !map_app.
  destruct (link_rows_times ctx trip start (n + 1) (combine links ds)) as [-> ->].
  rewrite map_snd_combine by congruence.
  cbn [map stop_row arrival_time departure_time app].
  rewrite (last_cons_default start start). now split.
Qed.

(** *** Clock values that do not decrease *)

Lemma link_clocks_sorted (c : Z) (ds : list Z) :
  Forall (fun d => 0 <= d) ds -> Sorted Z.le (c :: link_clocks c ds).
Proof.
  intros H. revert c. induction H as [|d ds Hd _ IH]; intros c; cbn [link_clocks].
  - repeat constructor.
  - constructor; [apply IH|]. constructor. lia.
Qed.

Lemma sorted_snoc (a x : Z) (l : list Z) :
  Sorted Z.le (a :: l) -> last l a <= x -> Sorted Z.le ((a :: l) ++ [x]).
Proof.
  revert a. induction l as [|b l IH]; intros a Hs Hx; cbn [app].
  - repeat constructor. exact Hx.
  - apply Sorted_inv in Hs as [Hs Hr]. apply HdRel_inv in Hr.
    constructor; [|now constructor].
    apply IH; [exact Hs|]. now rewrite <- (last_cons_default b a).
Qed.

Lemma trip_clocks_sorted (start : Z) (ds : list Z) :
  Forall (fun d => 0 <= d) ds -> Sorted Z.le (trip_clocks start ds).
Proof.
  intros H. unfold trip_clocks. destruct ds as [|d1 ds]; [constructor|].
  apply Forall_cons_iff in H as [H1 H].
  apply sorted_snoc; [now apply link_clocks_sorted|].
  rewrite last_cons_default.
  assert (0 <= last (d1 :: ds) 0); [|lia].
  assert (Forall (fun d => 0 <= d) (d1 :: ds)) as Hall by now constructor.
  clear -Hall. induction Hall as [|d l Hd Hl IH]; [cbn; lia|].
  destruct l; [exact Hd | exact IH].
Qed.

(** Every value of a sorted list lies between its head and its last value. *)
Lemma sorted_bounds (a : Z) (l : list Z) :
  Sorted Z.le (a :: l) -> Forall (fun t => a <= t <= last l a) (a :: l).
Proof.
  revert a. induction l as [|b l IH]; intros a Hs.
  - constructor; [cbn; lia | constructor].
  - apply Sorted_inv in Hs as [Hs Hr]. apply HdRel_inv in Hr.
    specialize (IH b Hs). rewrite last_cons_default.
    pose proof (Forall_inv IH) as Hb. cbn beta in Hb.
    constructor; [lia|].
    revert IH. apply Forall_impl. intros t Ht. lia.
Qed.

Lemma link_clocks_minutes (c : Z) (ds : list Z) :
  c mod 60 = 0 -> Forall (fun d => d mod 60 = 0) ds ->
  Forall (fun t => t mod 60 = 0) (link_clocks c ds).
Proof.
  intros Hc H. revert c Hc. induction H as [|d ds Hd _ IH]; intros c Hc;
    cbn [link_clocks]; constructor.
  - now rewrite Z.add_mod, Hc, Hd by lia.
  - apply IH. now rewrite Z.add_mod, Hc, Hd by lia.
Qed.

Lemma trip_clocks_minutes (start : Z) (ds : list Z) :
  start mod 60 = 0 -> Forall (fun d => d mod 60 = 0) ds ->
  Forall (fun t => t mod 60 = 0) (trip_clocks start ds).
Proof.
  intros Hs H. unfold trip_clocks. destruct ds as [|d1 ds]; [constructor|].
  pose proof (Forall_inv_tail H) as Ht.
  assert (Forall (fun t => t mod 60 = 0) (start :: link_clocks start ds)) as Hc
    by (constructor; [exact Hs | now apply link_clocks_minutes]).
  apply Forall_app. split; [exact Hc|].
  constructor; [|constructor].
  assert (last (start :: link_clocks start ds) start mod 60 = 0) as H1.
  { clear -Hc Hs. induction Hc as [|t l Ht Hl IH]; [exact Hs|].
    destruct l; [exact Ht | exact IH]. }
  assert (last (d1 :: ds) 0 mod 60 = 0) as H2.
  { clear -H. induction H as [|t l Ht Hl IH]; [reflexivity|].
    destruct l; [exact Ht | exact IH]. }
  now rewrite Z.add_mod, H1, H2 by lia.
Qed.

Lemma mapM_Forall {A B : Type} (f : A -> result B) (P : B -> Prop)
    (xs : list A) (ys : list B) :
  (forall x y, f x = Ok y -> P y) -> mapM f xs = Ok ys -> Forall P ys.
Proof.
  intros Hf. revert ys. induction xs as [|x xs IH]; intros ys H.
  - injection H as <-. constructor.
  - apply mapM_cons in H as (y & ys' & -> & Hy & H).
    constructor; [now apply (Hf x) | now apply IH].
Qed.

Lemma first_section_rows_trip (ctx : journey_context) (trip : string)
    (start n : Z) (links : list timing_link) (ds : list Z) :
  Forall (fun r => trip_id r = trip
                   /\ vehicle_journey_id r = ctx_vehicle_journey_id ctx)
         (first_section_rows ctx trip start n links ds).
Proof.
  unfold first_section_rows.
  destruct links as [|l1 links]; [constructor|].
  destruct ds as [|d1 ds]; [constructor|].
  destruct (last (combine links ds) (l1, d1)) as [l d].
  constructor; [now split|]. apply Forall_app. split; [|now repeat constructor].
  generalize start, (n + 1).
  induction (combine links ds) as [|[l' d'] lds IH]; intros c k; [constructor|].
  cbn [link_rows]. constructor; [now split | apply IH].
Qed.

Lemma emitted_clocks_unwrapped (hour minute : Z) (clocks : list Z) :
  0 <= hour <= 23 -> 0 <= minute <= 59 ->
  Forall (fun t => hour * 3600 + minute * 60 <= t < 86400 + 3600 * hour) clocks ->
  Forall (fun t => t mod 60 = 0) clocks ->
  map (emitted_clock hour) clocks = map clock_string clocks.
Proof.
  intros Hh Hm Hb H60. induction clocks as [|t clocks IH]; [reflexivity|].
  apply Forall_cons_iff in Hb as [Hb1 Hb], H60 as [H1 H60].
  cbn [map]. now rewrite (emitted_clock_unwrapped hour minute t), IH.
Qed.

Lemma trip_clocks_bounds (start : Z) (ds : list Z) :
  Forall (fun d => 0 <= d) ds ->
  Forall (fun t => start <= t <= last (trip_clocks start ds) 0) (trip_clocks start ds).
Proof.
  intros H. pose proof (trip_clocks_sorted start ds H) as Hs.
  destruct (trip_clocks start ds) as [|a l] eqn:E; [constructor|].
  assert (a = start) as ->.
  { unfold trip_clocks in E. destruct ds; [discriminate E|]. now injection E. }
  rewrite last_cons_default. now apply sorted_bounds.
Qed.

Lemma link_rows_timepoint (ctx : journey_context) (trip : string) (c n : Z)
    (lds : list (timing_link * Z)) :
  map timepoint (link_rows ctx trip c n lds) = repeat 0 (List.length lds).
Proof.
  revert c n. induction lds as [|[l d] lds IH]; intros c n; [reflexivity|].
  cbn [link_rows map List.length repeat stop_row timepoint]. now rewrite IH.
Qed.

(** Only the first row of a section walked first is a timepoint. *)
Lemma first_section_rows_timepoint (ctx : journey_context) (trip : string)
    (start n : Z) (links : list timing_link) (ds : list Z) :
  links <> [] -> List.length ds = List.length links ->
  map timepoint (first_section_rows ctx trip start n links ds)
  = 1 :: repeat 0 (List.length links).
Proof.
  intros Hne Hlen. unfold first_section_rows.
  destruct links as [|l1 links]; [contradiction|].
  destruct ds as [|d1 ds]; [discriminate Hlen|].
  injection Hlen as Hlen.
  destruct (last (combine links ds) (l1, d1)) as [l d].
  cbn [map stop_row timepoint]. rewrite map_app, link_rows_timepoint.
  cbn [map stop_row timepoint List.length].
  rewrite length_combine, Hlen, Nat.min_id. now rewrite <- repeat_cons.
Qed.

(** The frame of a run of one journey whose pattern names exactly one
    section is the rows of that section. *)
Lemma process_single_journey (j : vehicle_journey) (jps : list jp_info)
    (sections : list section) (sod snod : option string) (out : list row)
    (sec : section) (hour minute second : Z) (ds : list Z) :
  process_vehicle_journeys [j] jps sections sod snod = Ok out ->
  matching_sections (section_references jps (JourneyPatternRef j)) sections = [sec] ->
  parse_departure_time (DepartureTime j) = Ok (hour, minute, second) ->
  mapM parse_runtime_duration (map RunTime (JourneyPatternTimingLink sec)) = Ok ds ->
  exists ctx trip,
    ctx_hour ctx = hour
    /\ JourneyPatternTimingLink sec <> []
    /\ map (set_service_id None) out
       = first_section_rows ctx trip (hour * 3600 + minute * 60) 1
           (JourneyPatternTimingLink sec) ds.
Proof.
  intros H Hsec Hdep Hds. unfold process_vehicle_journeys in H. cbn [for_each] in H.
  destruct (journey_step jps sections sod snod _ j) as [st|] eqn:E; [|discriminate H].
  cbn [bind] in H. injection H as <-.
  destruct (journey_step_single _ _ _ _ _ _ _ _ _ _ _ _ E Hsec Hdep Hds)
    as (jp & rows & _ & _ & _ & _ & Hne & -> & ->).
  exists (context_of jp j sod snod hour minute),
    (trip_id_of (context_of jp j sod snod hour minute) sec).
  split; [reflexivity|]. split; [exact Hne|].
  cbn [rs_gtfs_info app]. rewrite generate_service_id_rows, map_map.
  rewrite (map_ext _ (set_service_id None)) by now intros [].
  apply first_section_rows_service_id.
Qed.

(** What the code computes for a journey whose pattern names exactly one
    section: the first row is the only timepoint and has the clock of the
    departure hour and minute, but the clock of every later row is
    advanced by the durations of the links from the second one on, and the
    duration of the last link counts once more for the last stop; the
    duration of the first link is not used.  With two links of durations
    [d1] and [d2] the clocks are the start, the start plus [d2] and the
    start plus twice [d2]. *)
Lemma single_section_link_clocks (j : vehicle_journey) (jps : list jp_info)
    (sections : list section) (sod snod : option string) (out : list row)
    (sec : section) (hour minute second : Z) (ds : list Z) :
  process_vehicle_journeys [j] jps sections sod snod = Ok out ->
  matching_sections (section_references jps (JourneyPatternRef j)) sections = [sec] ->
  parse_departure_time (DepartureTime j) = Ok (hour, minute, second) ->
  mapM parse_runtime_duration (map RunTime (JourneyPatternTimingLink sec)) = Ok ds ->
  map timepoint out = 1 :: repeat 0 (List.length (JourneyPatternTimingLink sec))
  /\ map arrival_time out
     = map (emitted_clock hour) (trip_clocks (hour * 3600 + minute * 60) ds)
  /\ (forall d1 d2,
        ds = [d1; d2] ->
        map arrival_time out
        = map (emitted_clock hour)
            [hour * 3600 + minute * 60;
             hour * 3600 + minute * 60 + d2;
             hour * 3600 + minute * 60 + d2 + d2]).
Proof.
  intros H Hsec Hdep Hds.
  destruct (process_single_journey _ _ _ _ _ _ _ _ _ _ _ H Hsec Hdep Hds)
    as (ctx & trip & Hh & Hne & E).
  pose proof (mapM_length _ _ _ Hds) as Hlen. rewrite length_map in Hlen.
  assert (forall (A : Type) (f : row -> A),
             (forall r, f (set_service_id None r) = f r) ->
             map f out = map f (first_section_rows ctx trip (hour * 3600 + minute * 60) 1
                                  (JourneyPatternTimingLink sec) ds)) as Hcol.
  { intros A f Hf. rewrite <- E, map_map. apply map_ext. intros r. now rewrite Hf. }
  assert (map arrival_time out
          = map (emitted_clock hour) (trip_clocks (hour * 3600 + minute * 60) ds)) as Ha.
  { rewrite (Hcol _ arrival_time) by reflexivity. rewrite <- Hh.
    now apply first_section_rows_times. }
  split; [|split].
  - rewrite (Hcol _ timepoint) by reflexivity.
    now apply first_section_rows_timepoint.
  - exact Ha.
  - intros d1 d2 ->. exact Ha.
Qed.

(** C4, amended.  In the frame that a run returns, the rows of a vehicle
    journey whose pattern names exactly one section of the document stand
    together; they are two or more, numbered 1, 2, ..., n without a gap,
    and arrival and departure are the same text at every stop.  When no
    link has a negative duration and the last clock value comes before the
    journey's initial hour on the day after the reference day, the clock
    texts are those of the clock values of the walk, unwrapped; read back
    as numbers of seconds they are these values, which do not decrease.  Nothing is said of a pattern that names
    several sections. *)
Theorem materialized_trip_rows (before after : list vehicle_journey)
    (j : vehicle_journey) (jps : list jp_info) (sections : list section)
    (sod snod : option string) (out : list row)
    (sec : section) (hour minute second : Z) (ds : list Z) :
  process_vehicle_journeys (before ++ j :: after) jps sections sod snod = Ok out ->
  matching_sections (section_references jps (JourneyPatternRef j)) sections = [sec] ->
  parse_departure_time (DepartureTime j) = Ok (hour, minute, second) ->
  mapM parse_runtime_duration (map RunTime (JourneyPatternTimingLink sec)) = Ok ds ->
  exists pre rows post trip,
    out = (pre ++ rows ++ post)%list
    /\ Forall (fun r => trip_id r = trip
                        /\ vehicle_journey_id r = VehicleJourneyCode j) rows
    /\ (2 <= List.length rows)%nat
    /\ List.length rows = S (List.length (JourneyPatternTimingLink sec))
    /\ map stop_sequence rows = map Z.of_nat (seq 1 (List.length rows))
    /\ map departure_time rows = map arrival_time rows
    /\ (Forall (fun d => 0 <= d) ds ->
        last (trip_clocks (hour * 3600 + minute * 60) ds) 0 < 86400 + 3600 * hour ->
        map arrival_time rows
        = map clock_string (trip_clocks (hour * 3600 + minute * 60) ds)
        /\ mapM clock_value (map arrival_time rows)
           = Ok (trip_clocks (hour * 3600 + minute * 60) ds)
        /\ Sorted Z.le (trip_clocks (hour * 3600 + minute * 60) ds)).
Proof.
  intros H Hsec Hdep Hds.
  destruct (process_vehicle_journeys_rows _ _ _ _ _ _ _ _ _ _ _ _ _ H Hsec Hdep Hds)
    as (jp & pre0 & post0 & _ & _ & Hh & Hm & Hne & E).
  set (ctx := context_of jp j sod snod hour minute) in *.
  set (start := hour * 3600 + minute * 60) in *.
  set (links := JourneyPatternTimingLink sec) in *.
  apply map_eq_app in E as (pre & rest & -> & _ & E).
  apply map_eq_app in E as (rows & post & -> & E & _).
  pose proof (mapM_length _ _ _ Hds) as Hlen. rewrite length_map in Hlen.
  fold links in Hlen.
  assert (forall (A : Type) (f : row -> A),
             (forall r, f (set_service_id None r) = f r) ->
             map f rows = map f (first_section_rows ctx (trip_id_of ctx sec) start 1
                                   links ds)) as Hcol.
  { intros A f Hf. rewrite <- E, map_map. apply map_ext. intros r. now rewrite Hf. }
  assert (List.length rows = S (List.length links)) as Hrows.
  { rewrite <- (length_map stop_sequence), (Hcol _ stop_sequence) by reflexivity.
    rewrite first_section_rows_sequence by assumption.
    now rewrite length_map, length_seq. }
  destruct (first_section_rows_times ctx (trip_id_of ctx sec) start 1 links ds Hne Hlen)
    as [Ha Hd].
  exists pre, rows, post, (trip_id_of ctx sec).
  split; [reflexivity|]. split; [|split; [|split; [|split; [|split]]]].
  - pose proof (first_section_rows_trip ctx (trip_id_of ctx sec) start 1 links ds) as Ht.
    rewrite <- E in Ht. rewrite Forall_map in Ht.
    revert Ht. apply Forall_impl. now intros [].
  - rewrite Hrows. pose proof (proj1 (length_zero_iff_nil links)) as Hz.
    destruct (List.length links); [exfalso; now apply Hne, Hz | lia].
  - exact Hrows.
  - rewrite (Hcol _ stop_sequence) by reflexivity.
    rewrite first_section_rows_sequence by assumption.
    rewrite Hrows, <- seq_shift, map_map. apply map_ext. intros k. lia.
  - rewrite (Hcol _ departure_time), (Hcol _ arrival_time) by reflexivity.
    now rewrite Ha, Hd.
  - intros Hpos Hlast.
    pose proof (trip_clocks_bounds start ds Hpos) as Hb.
    assert (map arrival_time rows = map clock_string (trip_clocks start ds)) as Htxt.
    { rewrite (Hcol _ arrival_time), Ha by reflexivity.
      apply (emitted_clocks_unwrapped hour minute); try assumption.
      - revert Hb. apply Forall_impl. intros t Ht. unfold start in *. lia.
      - apply trip_clocks_minutes.
        + unfold start. rewrite Z.add_mod by lia.
          replace (hour * 3600) with (hour * 60 * 60) by lia.
          now rewrite !Z.mod_mul by lia.
        + revert Hds. apply mapM_Forall. intros x y Hx.
          now apply parse_runtime_duration_minutes in Hx. }
    split; [exact Htxt|]. split; [|now apply trip_clocks_sorted].
    rewrite Htxt. apply clock_values_strings.
    revert Hb. apply Forall_impl. intros t Ht. unfold start in *. lia.
Qed.

End TripRows.

(** ** Runs of [process_vehicle_journeys] *)

Section Runs.

Import Py StopTimes TransXChange Timetable Samples.

(** C1.  A journey that departs at 08:00:00 over the links A to B of one
    minute and B to C of two minutes: the first row has the departure time
    and is the only timepoint, but the row of B has the clock advanced by
    the duration of the second link, 08:02:00, and the row of C by that
    duration twice, 08:04:00, where the durations of the links passed so
    far give 08:01:00 and 08:03:00.  The seconds of a departure at
    08:00:30 are left out of the first stop time. *)
Theorem process_vehicle_journeys_link_clocks :
  stop_columns (run [journey_at "VJ1" "JP1" "08:00:00"] [pattern_of "JPS1"] [section_ABC])
  = Ok [("A", 1, 1, "08:00:00", "08:00:00");
        ("B", 2, 0, "08:02:00", "08:02:00");
        ("C", 3, 0, "08:04:00", "08:04:00")]
  /\ mapM parse_runtime_duration (map RunTime (JourneyPatternTimingLink section_ABC))
     = Ok [60; 120]
  /\ (rows <- run [journey_at "VJ1" "JP1" "08:00:00"] [pattern_of "JPS1"] [section_ABC] ;;
      Ok (map arrival_time rows))
     = Ok (map (emitted_clock 8) [8 * 3600 + 0 * 60;
                                  8 * 3600 + 0 * 60 + 120;
                                  8 * 3600 + 0 * 60 + 120 + 120])
  /\ map clock_string [8 * 3600; 8 * 3600 + 60; 8 * 3600 + 60 + 120]
     = ["08:00:00"; "08:01:00"; "08:03:00"]
  /\ stop_columns (run [journey_at "VJ1" "JP1" "08:00:30"] [pattern_of "JPS1"]
                       [section_AB "PT1M"])
     = Ok [("A", 1, 1, "08:00:00", "08:00:00"); ("B", 2, 0, "08:01:00", "08:01:00")].
Proof.
  split; [reflexivity|]. split; [reflexivity|]. split; [|split; reflexivity].
  destruct (run [journey_at "VJ1" "JP1" "08:00:00"] [pattern_of "JPS1"] [section_ABC])
    as [out|] eqn:E; [|discriminate E].
  cbn [bind]. f_equal.
  destruct (single_section_link_clocks
              (journey_at "VJ1" "JP1" "08:00:00") [pattern_of "JPS1"] [section_ABC]
              None None out section_ABC 8 0 0 [60; 120] E eq_refl eq_refl eq_refl)
    as (_ & _ & H).
  exact (H 60 120 eq_refl).
Qed.

(** C4, as stated, fails.  A journey that departs at 10:30:00 over one
    link of 23 hours and 45 minutes gives a trip of two rows, which
    [get_stop_times] keeps, and the clock of the second row, 10:15:00, is
    less than that of the first.  And for a pattern that names two
    sections the rows of the last section alone reach the frame, numbered
    2 and 3: from where the first section stopped, not from 1. *)
Lemma materialized_trip_invariants_fail :
  stop_columns (run [journey_at "VJ1" "JP1" "10:30:00"] [pattern_of "JPS1"]
                    [section_AB "PT23H45M"])
  = Ok [("A", 1, 1, "10:30:00", "10:30:00"); ("B", 2, 0, "10:15:00", "10:15:00")]
  /\ (rows <- run [journey_at "VJ1" "JP1" "10:30:00"] [pattern_of "JPS1"]
                  [section_AB "PT23H45M"] ;;
      Ok (map st_arrival_time (get_stop_times rows)))
     = Ok ["10:30:00"; "10:15:00"]
  /\ stop_columns (run [journey_at "VJ1" "JP1" "08:00:00"]
                       [pattern_of "JPS1"; pattern_of "JPS2"]
                       [section_AB "PT1M"; section_BC])
     = Ok [("B", 2, 0, "08:02:00", "08:02:00"); ("C", 3, 0, "08:04:00", "08:04:00")]
  /\ (rows <- run [journey_at "VJ1" "JP1" "08:00:00"]
                  [pattern_of "JPS1"; pattern_of "JPS2"]
                  [section_AB "PT1M"; section_BC] ;;
      Ok (map st_stop_sequence (get_stop_times rows)))
     = Ok [2; 3].
Proof. repeat split; reflexivity. Qed.

Lemma materialized_trip_rows_witness :
  exists pre rows post trip,
    run [journey_at "VJ0" "JP1" "07:00:00"; journey_at "VJ1" "JP1" "08:00:00"]
        [pattern_of "JPS1"] [section_ABC]
    = Ok (pre ++ rows ++ post)%list
    /\ Forall (fun r => trip_id r = trip /\ vehicle_journey_id r = "VJ1") rows
    /\ map stop_sequence rows = [1; 2; 3]
    /\ map arrival_time rows = ["08:00:00"; "08:02:00"; "08:04:00"]
    /\ mapM clock_value (map arrival_time rows) = Ok [28800; 28920; 29040]
    /\ Sorted Z.le [28800; 28920; 29040].
Proof.
  destruct (run [journey_at "VJ0" "JP1" "07:00:00"; journey_at "VJ1" "JP1" "08:00:00"]
                [pattern_of "JPS1"] [section_ABC]) as [out|] eqn:E;
    [|discriminate E].
  destruct (materialized_trip_rows
              [journey_at "VJ0" "JP1" "07:00:00"] [] (journey_at "VJ1" "JP1" "08:00:00")
              [pattern_of "JPS1"] [section_ABC] None None out
              section_ABC 8 0 0 [60; 120] E eq_refl eq_refl eq_refl)
    as (pre & rows & post & trip & -> & Ht & _ & Hn & Hs & _ & Hc).
  destruct Hc as (Ha & Hv & Hsorted); [repeat constructor; lia | vm_compute; reflexivity |].
  exists pre, rows, post, trip. rewrite Hn in Hs.
  repeat split; assumption.
Defined.

(** C3, as stated, fails: a journey that departs at 00:30:00 over one link
    of 23 hours and 45 minutes crosses midnight once, and the arrival is
    emitted with the hour wrapped, 00:15:00, where 24:15:00 is claimed. *)
Lemma process_vehicle_journeys_hour_wraps :
  parse_runtime_duration "PT23H45M" = Ok 85500
  /\ 86400 <= (0 * 3600 + 30 * 60) + 85500 < 2 * 86400
  /\ stop_columns (run [journey_at "VJ1" "JP1" "00:30:00"] [pattern_of "JPS1"]
                       [section_AB "PT23H45M"])
     = Ok [("A", 1, 1, "00:30:00", "00:30:00"); ("B", 2, 0, "00:15:00", "00:15:00")].
Proof. repeat split; (reflexivity || discriminate). Qed.

(** C3, amended.  For a clock on the day after the reference day whose
    hour of the day is below the journey's initial hour, the hour that is
    emitted is 24 plus the whole hours elapsed since the last second of the
    reference day, which for a clock on a whole minute is 24 plus its hour
    of the day; the last stop of a section gets its two clock texts with
    that hour.  A departure at 23:30:00 followed by one link of 3300
    seconds gives the arrival 24:25:00. *)
Theorem get_midnight_formatted_times_next_day (hour current_dt departure_dt : Z) :
  86400 <= current_dt < 2 * 86400 ->
  86400 <= departure_dt < 2 * 86400 ->
  dt_hour current_dt < hour ->
  get_midnight_formatted_times (dt_hour current_dt) (dt_hour departure_dt) hour
                               current_dt departure_dt
  = (24 + (current_dt - 86399) / 3600, 24 + (departure_dt - 86399) / 3600)
  /\ (current_dt mod 60 = 0 ->
      24 + (current_dt - 86399) / 3600 = 24 + dt_hour current_dt)
  /\ (forall link before duration stop_num,
        current_dt = before + duration ->
        get_last_stop_time_info link hour before duration stop_num 0
        = (To_StopPointRef link, stop_num,
           zfill 2 (str (24 + (current_dt - 86399) / 3600)) ++ ":"
             ++ strftime_MS current_dt,
           zfill 2 (str (24 + (current_dt - 86399) / 3600)) ++ ":"
             ++ strftime_MS current_dt))
  /\ parse_runtime_duration "PT55M" = Ok 3300
  /\ stop_columns (run [journey_at "VJ1" "JP1" "23:30:00"] [pattern_of "JPS1"]
                       [section_AB "PT55M"])
     = Ok [("A", 1, 1, "23:30:00", "23:30:00"); ("B", 2, 0, "24:25:00", "24:25:00")].
Proof.
  intros Hc Hd Hlt. split; [|split; [|split; [|split; reflexivity]]].
  - apply get_midnight_formatted_times_wrapped; lia.
  - intros Hm. rewrite hours_past_midnight by lia.
    unfold dt_hour. replace (current_dt mod 86400) with (current_dt - 86400).
    + symmetry. apply Z.div_unique with (r := (current_dt - 86400) mod 3600).
      * left. apply Z.mod_pos_bound. lia.
      * pose proof (Z.div_mod (current_dt - 86400) 3600). lia.
    + apply Z.mod_unique with (q := 1); lia.
  - intros link before duration stop_num ->.
    unfold get_last_stop_time_info. rewrite Z.add_0_r.
    rewrite get_midnight_formatted_times_wrapped by lia. reflexivity.
Qed.

Lemma get_midnight_formatted_times_next_day_witness :
  get_midnight_formatted_times (dt_hour 87900) (dt_hour 87900) 23 87900 87900 = (24, 24)
  /\ get_last_stop_time_info (mk_link "A" "B" "PT55M" "RL1") 23 84600 3300 2 0
     = ("B", 2, "24:25:00", "24:25:00").
Proof.
  destruct (get_midnight_formatted_times_next_day 23 87900 87900)
    as (H1 & _ & H2 & _); [lia | lia | vm_compute; reflexivity |].
  split; [exact H1|].
  exact (H2 (mk_link "A" "B" "PT55M" "RL1") 84600 3300 2 eq_refl).
Defined.

(** *** Journeys without a pattern *)

Lemma for_each_raises {S A : Type} (body : S -> A -> result S) (x : A) (xs : list A) :
  (forall st, exists e, body st x = Raise e) -> In x xs ->
  forall st, exists e, for_each body st xs = Raise e.
Proof.
  intros Hx. induction xs as [|y xs IH]; intros Hin st; [contradiction|].
  cbn [for_each]. destruct Hin as [-> | Hin].
  - destruct (Hx st) as (e & ->). now exists e.
  - destruct (body st y) as [st'|e]; cbn [bind]; [now apply IH | now exists e].
Qed.

(** The journey pattern reference is looked up without a guard: when no
    row of the index has it, taking the first row found is an error. *)
Lemma journey_step_unresolved (jps : list jp_info) (sections : list section)
    (sod snod : option string) (st : run_state) (j : vehicle_journey) :
  (forall jp, In jp jps -> jp_journey_pattern_id jp <> JourneyPatternRef j) ->
  journey_step jps sections sod snod st j
  = Raise (match jps with [] => KeyError | _ => IndexError end).
Proof.
  intros H. unfold journey_step.
  destruct jps as [|jp0 jps0] eqn:E; [reflexivity|]. rewrite <- E in *.
  cbn [bind].
  assert (filter (fun jp => String.eqb (jp_journey_pattern_id jp) (JourneyPatternRef j))
                 jps = []) as ->; [|reflexivity].
  clear E. induction jps as [|jp jps IH]; [reflexivity|].
  cbn [filter].
  assert (String.eqb (jp_journey_pattern_id jp) (JourneyPatternRef j) = false) as ->
    by (apply String.eqb_neq, H; now left).
  apply IH. intros jp' Hjp'. apply H. now right.
Qed.

(** C9, as stated, fails: after a journey that is materialized, a journey
    whose pattern JP9 is not in the index makes the whole run fail with an
    [IndexError]; no row of the first journey is returned. *)
Lemma process_vehicle_journeys_unresolved_aborts :
  is_ok (run [journey_at "VJ1" "JP1" "08:00:00"] [pattern_of "JPS1"] [section_ABC]) = true
  /\ run [journey_at "VJ1" "JP1" "08:00:00"; journey_at "VJ9" "JP9" "09:00:00"]
         [pattern_of "JPS1"] [section_ABC]
     = Raise IndexError.
Proof. split; reflexivity. Qed.

(** C9, amended.  When a vehicle journey of the run has a journey pattern
    reference that no row of the index has, [process_vehicle_journeys]
    raises an exception and returns no frame at all; there is no warning
    and no skipping.  When that journey is the first of the run the
    exception is the [IndexError] of taking the first pattern row ([KeyError]
    when the index is the frame without columns). *)
Theorem process_vehicle_journeys_unresolved (vjourneys : list vehicle_journey)
    (jps : list jp_info) (sections : list section) (sod snod : option string)
    (j : vehicle_journey) :
  In j vjourneys ->
  (forall jp, In jp jps -> jp_journey_pattern_id jp <> JourneyPatternRef j) ->
  (exists e, process_vehicle_journeys vjourneys jps sections sod snod = Raise e)
  /\ (forall after,
        process_vehicle_journeys (j :: after) jps sections sod snod
        = Raise (match jps with [] => KeyError | _ => IndexError end)).
Proof.
  intros Hin Hj. split.
  - unfold process_vehicle_journeys.
    destruct (for_each_raises (journey_step jps sections sod snod) j vjourneys)
      with (st := {| rs_gtfs_info := []; rs_section_times := None |}) as (e & ->);
      [|exact Hin | now exists e].
    intros st. eexists. now apply journey_step_unresolved.
  - intros after. unfold process_vehicle_journeys. cbn [for_each].
    now rewrite journey_step_unresolved.
Qed.

Lemma process_vehicle_journeys_unresolved_witness :
  exists e,
    run [journey_at "VJ1" "JP1" "08:00:00"; journey_at "VJ9" "JP9" "09:00:00";
         journey_at "VJ2" "JP1" "10:00:00"]
        [pattern_of "JPS1"] [section_ABC]
    = Raise e.
Proof.
  apply (process_vehicle_journeys_unresolved _ _ _ _ _ (journey_at "VJ9" "JP9" "09:00:00")).
  - right. now left.
  - intros jp [<- | []]. discriminate.
Defined.

End Runs.

(** ** Weekly patterns: outcomes of [parse_day_range] *)

Section WeeklyOutcomes.

Import Py Calendar Weekday WeekdaySets CalendarTable.

Lemma calendar_row_flags (active_days : list Z) :
  calendar_row active_days = Ok (flag_row (fun d => mem (position d) active_days)).
Proof. reflexivity. Qed.

Lemma flag_row_ext (f g : day -> bool) :
  (forall d, f d = g d) -> flag_row f = flag_row g.
Proof.
  intros H. unfold flag_row. apply map_ext. intros d. now rewrite H.
Qed.

Lemma mem_positions (ds : list day) (d : day) :
  mem (position d) (map position ds) = among ds d.
Proof.
  unfold mem, among. induction ds as [|x ds IH]; simpl; [reflexivity | now rewrite IH].
Qed.

Lemma flag_row_columns (f : day -> bool) :
  map fst (flag_row f) = day_cols
  /\ Forall (fun cv => snd cv = 0 \/ snd cv = 1) (flag_row f).
Proof.
  split; [reflexivity|].
  unfold flag_row. apply Forall_forall. intros cv Hin.
  apply in_map_iff in Hin. destruct Hin as [d [<- _]]. simpl.
  destruct (f d); auto.
Qed.

Lemma parse_day_range_flags (dayinfo : option string) (row : day_row) :
  parse_day_range dayinfo = Ok row -> exists f, row = flag_row f.
Proof.
  destruct dayinfo as [s|]; unfold parse_day_range.
  - match goal with |- bind ?m _ = _ -> _ => destruct m as [active|e] end; cbn [bind].
    + rewrite calendar_row_flags. intros [= <-]. eauto.
    + discriminate.
  - intros [= <-]. exists (fun _ => false). reflexivity.
Qed.

Lemma dict_get_raises {V : Type} (d : dict string V) (k : string) (e : exn) :
  dict_get d k = Raise e -> e = KeyError.
Proof.
  induction d as [|[k' v] d IH]; simpl; [congruence|].
  destruct (String.eqb k' k); [discriminate | exact IH].
Qed.

Lemma mapM_raises {A B : Type} (f : A -> result B) (xs : list A) (e e0 : exn) :
  (forall x e', f x = Raise e' -> e' = e0) -> mapM f xs = Raise e -> e = e0.
Proof.
  intros Hf. induction xs as [|x xs IH]; simpl; [discriminate|].
  destruct (f x) as [y|e'] eqn:Hx; simpl.
  - destruct (mapM f xs) as [ys|e''] ; simpl; [discriminate|].
    intros [= <-]. now apply IH.
  - intros [= <-]. now apply (Hf x).
Qed.

(** Whenever [parse_day_range] returns, the row has the seven day columns
    in calendar order, and every flag is 0 or 1. *)
Theorem parse_day_range_row_shape (dayinfo : option string) (row : day_row) :
  parse_day_range dayinfo = Ok row ->
  map fst row = ["monday"; "tuesday"; "wednesday"; "thursday"; "friday";
                 "saturday"; "sunday"]
  /\ Forall (fun cv => snd cv = 0 \/ snd cv = 1) row.
Proof.
  intros H. destruct (parse_day_range_flags _ _ H) as [f ->].
  apply flag_row_columns.
Qed.

Lemma parse_day_range_row_shape_witness :
  parse_day_range (Some "Weekend")
  = Ok [("monday", 0); ("tuesday", 0); ("wednesday", 0); ("thursday", 0);
        ("friday", 0); ("saturday", 1); ("sunday", 1)]
  /\ map fst [("monday", 0); ("tuesday", 0); ("wednesday", 0); ("thursday", 0);
              ("friday", 0); ("saturday", 1); ("sunday", 1)]
     = ["monday"; "tuesday"; "wednesday"; "thursday"; "friday"; "saturday"; "sunday"].
Proof.
  split; [reflexivity|].
  exact (proj1 (parse_day_range_row_shape (Some "Weekend") _ eq_refl)).
Defined.

Lemma parse_day_range_raises (dayinfo : option string) (e : exn) :
  parse_day_range dayinfo = Raise e -> e = KeyError.
Proof.
  destruct dayinfo as [s|]; unfold parse_day_range; [|discriminate].
  destruct (contains "weekend" (lower (strip s))); [discriminate|].
  destruct (contains "To" s) eqn:HTo.
  - destruct (split_two "To" s) as [p [q [rest Hs]]]; [discriminate | exact HTo |].
    rewrite Hs. unfold index. cbn [nth_error bind].
    destruct (dict_get weekday_to_num (lower p)) as [a|e1] eqn:Hp; cbn [bind].
    + destruct (dict_get weekday_to_num (lower q)) as [b|e2] eqn:Hq; cbn [bind].
      * rewrite calendar_row_flags. discriminate.
      * intros [= <-]. now apply dict_get_raises in Hq.
    + intros [= <-]. now apply dict_get_raises in Hp.
  - destruct (contains "|" s).
    + destruct (mapM _ (split "|" s)) as [active|e1] eqn:Hm; cbn [bind].
      * rewrite calendar_row_flags. discriminate.
      * intros [= <-]. apply mapM_raises with (e0 := KeyError) in Hm; [exact Hm|].
        intros x e'. apply dict_get_raises.
    + destruct (dict_get weekday_to_num (lower s)) as [d|e1] eqn:Hd; cbn [bind].
      * rewrite calendar_row_flags. discriminate.
      * intros [= <-]. now apply dict_get_raises in Hd.
Qed.

Lemma dict_get_day (d : day) : dict_get weekday_to_num (day_name d) = Ok (position d).
Proof. destruct d; reflexivity. Qed.

Lemma dict_get_not_day (k : string) :
  (forall d, k <> day_name d) -> dict_get weekday_to_num k = Raise KeyError.
Proof.
  intros H. unfold weekday_to_num. cbn [dict_get].
  repeat match goal with
  | |- context [String.eqb ?n k] =>
      destruct (String.eqb_spec n k) as [E|_];
      [exfalso; subst k;
       first [ now apply (H Monday) | now apply (H Tuesday) | now apply (H Wednesday)
             | now apply (H Thursday) | now apply (H Friday) | now apply (H Saturday)
             | now apply (H Sunday) ] |]
  end.
  reflexivity.
Qed.

Lemma is_space_lower (c : ascii) : is_space (lower_char c) = is_space c.
Proof. destruct c as [[] [] [] [] [] [] [] []]; reflexivity. Qed.

Lemma is_not_bar_lower (c : ascii) : is_not "|" (lower_char c) = is_not "|" c.
Proof. destruct c as [[] [] [] [] [] [] [] []]; reflexivity. Qed.

Lemma all_chars_lower (p : ascii -> bool) (s : string) :
  (forall c, p (lower_char c) = p c) -> all_chars p (lower s) = all_chars p s.
Proof.
  intros H. induction s as [|c s IH]; simpl; [reflexivity | now rewrite H, IH].
Qed.

Lemma no_space_lower (s : string) :
  all_chars (fun c => negb (is_space c)) (lower s) = true ->
  all_chars (fun c => negb (is_space c)) s = true.
Proof.
  intros H. rewrite <- H. symmetry.
  apply (all_chars_lower (fun c => negb (is_space c))).
  intros c. now rewrite is_space_lower.
Qed.

Lemma lower_join (names : list string) :
  lower (join "|" names) = join "|" (map lower names).
Proof.
  induction names as [|n [|m r] IH]; try reflexivity.
  change (join "|" (n :: m :: r)) with (n ++ "|" ++ join "|" (m :: r)).
  rewrite !lower_app, IH. reflexivity.
Qed.

(** The names of some days, in lower case and joined by the bar. *)
Lemma all_chars_days (p : ascii -> bool) (ds : list day) :
  (forall d, all_chars p (day_name d) = true) -> p "|"%char = true ->
  all_chars p (join "|" (map day_name ds)) = true.
Proof.
  intros Hd Hbar. induction ds as [|d [|d' r] IH]; try reflexivity.
  - apply Hd.
  - change (join "|" (map day_name (d :: d' :: r)))
      with (day_name d ++ "|" ++ join "|" (map day_name (d' :: r))).
    rewrite !all_chars_app, Hd, IH. simpl. now rewrite Hbar.
Qed.

Lemma contains_days (sub : string) (ds : list day) (rest : string) :
  (forall d rest, contains sub (day_name d ++ rest) = contains sub rest) ->
  (forall rest, contains sub ("|" ++ rest) = contains sub rest) ->
  contains sub (join "|" (map day_name ds) ++ rest) = contains sub rest.
Proof.
  intros Hd Hbar. induction ds as [|d [|d' r] IH]; try reflexivity.
  - apply Hd.
  - change (join "|" (map day_name (d :: d' :: r)))
      with (day_name d ++ "|" ++ join "|" (map day_name (d' :: r))).
    rewrite !append_assoc, Hd, Hbar. apply IH.
Qed.

Lemma weekend_after_day (d : day) (rest : string) :
  contains "weekend" (day_name d ++ rest) = contains "weekend" rest.
Proof. destruct d; reflexivity. Qed.

Lemma to_after_day (d : day) (rest : string) :
  contains "to" (day_name d ++ rest) = contains "to" rest.
Proof. destruct d; reflexivity. Qed.

Lemma days_plain (ds : list day) :
  contains "weekend" (join "|" (map day_name ds)) = false
  /\ contains "to" (join "|" (map day_name ds)) = false
  /\ all_chars (fun c => negb (is_space c)) (join "|" (map day_name ds)) = true.
Proof.
  repeat split.
  - rewrite <- (append_nil_r (join "|" (map day_name ds))).
    rewrite contains_days; [reflexivity | apply weekend_after_day | reflexivity].
  - rewrite <- (append_nil_r (join "|" (map day_name ds))).
    rewrite contains_days; [reflexivity | apply to_after_day | reflexivity].
  - apply all_chars_days; [|reflexivity]. now intros [].
Qed.

Lemma split_join (c : ascii) (names : list string) (cur : string) :
  Forall (fun n => all_chars (is_not c) n = true) names -> names <> [] ->
  split_scan (String c "") 0 cur (join (String c "") names)
  = (cur ++ hd "" names) :: tl names.
Proof.
  revert cur. induction names as [|n [|m r] IH]; intros cur Hall Hne.
  - congruence.
  - inversion Hall; subst. simpl. now apply split_scan_absent.
  - inversion Hall as [|? ? Hn Hrest]; subst.
    change (join (String c "") (n :: m :: r))
      with (n ++ String c (join (String c "") (m :: r))).
    rewrite split_scan_char by exact Hn.
    rewrite IH by (assumption || discriminate). reflexivity.
Qed.

Lemma day_names_no_bar (names : list string) (ds : list day) :
  map lower names = map day_name ds ->
  Forall (fun n => all_chars (is_not "|") n = true) names.
Proof.
  revert ds. induction names as [|n names IH]; intros [|d ds] H; try discriminate;
    constructor.
  - injection H as Hn _. rewrite <- (all_chars_lower _ n is_not_bar_lower), Hn.
    now destruct d.
  - injection H as _ Hr. now apply (IH ds).
Qed.

Lemma mapM_day_names (names : list string) (ds : list day) :
  map lower names = map day_name ds ->
  mapM (fun day => dict_get weekday_to_num (lower day)) names = Ok (map position ds).
Proof.
  revert ds. induction names as [|n names IH]; intros [|d ds] H; try discriminate.
  - reflexivity.
  - injection H as Hn Hr. cbn [mapM map]. rewrite Hn, dict_get_day. cbn [bind].
    rewrite (IH ds Hr). reflexivity.
Qed.

Lemma parse_day_range_name (s : string) (d : day) :
  lower s = day_name d -> parse_day_range (Some s) = Ok (flag_row (among [d])).
Proof.
  intros H. unfold parse_day_range.
  rewrite strip_no_space
    by (apply no_space_lower; rewrite H; now destruct d).
  rewrite H.
  replace (contains "weekend" (day_name d)) with false by now destruct d.
  rewrite (contains_lower "To" s) by (rewrite H; now destruct d).
  rewrite (contains_lower "|" s) by (rewrite H; now destruct d).
  rewrite dict_get_day. cbn [bind]. rewrite calendar_row_flags.
  reflexivity.
Qed.

Lemma parse_day_range_names (names : list string) (ds : list day) :
  map lower names = map day_name ds -> ds <> [] ->
  parse_day_range (get_weekday_info (Some names)) = Ok (flag_row (among ds)).
Proof.
  intros H Hne. destruct names as [|n [|m r]].
  - destruct ds; [congruence | discriminate].
  - destruct ds as [|d [|]]; try discriminate. injection H as H.
    now apply parse_day_range_name.
  - unfold get_weekday_info. cbn [List.length Nat.eqb].
    set (s := join "|" (n :: m :: r)).
    assert (Hlow : lower s = join "|" (map day_name ds))
      by (unfold s; now rewrite lower_join, H).
    destruct (days_plain ds) as [Hw [Hto Hsp]].
    unfold parse_day_range.
    rewrite strip_no_space by (apply no_space_lower; now rewrite Hlow).
    rewrite Hlow, Hw.
    rewrite (contains_lower "To" s) by now rewrite Hlow.
    replace (contains "|" s) with true
      by (symmetry; apply (contains_app "|" n (join "|" (m :: r)))).
    unfold split, s.
    rewrite (split_join "|" (n :: m :: r) "")
      by (try discriminate; now apply (day_names_no_bar _ ds)).
    cbn [hd tl append].
    rewrite (mapM_day_names (n :: m :: r) ds H). cbn [bind].
    rewrite calendar_row_flags. f_equal. apply flag_row_ext. intros x.
    apply mem_positions.
Qed.

(** The elements of single days under [DaysOfWeek], in any order, with
    repetitions and in any letter case, are read back as the days that they
    name: the row has a 1 for exactly those days.  An element without
    children is not read: it gives the empty text, which is no day name. *)
Theorem get_weekday_info_day_elements (names : list string) (ds : list day) :
  map lower names = map day_name ds ->
  (ds <> [] ->
   parse_day_range (get_weekday_info (Some names)) = Ok (flag_row (among ds)))
  /\ (ds = [] -> parse_day_range (get_weekday_info (Some names)) = Raise KeyError).
Proof.
  intros H. split.
  - now apply parse_day_range_names.
  - intros ->. destruct names; [reflexivity | discriminate].
Qed.

(** *** Stripping keeps an inner word *)

Lemma lstrip_keeps (sp : ascii -> bool) (a : string) (c : ascii) (w : string) :
  sp c = false -> exists a', lstrip sp (a ++ String c w) = a' ++ String c w.
Proof.
  intros Hc. induction a as [|x a IH].
  - exists "". simpl. now rewrite Hc.
  - simpl. destruct (sp x).
    + exact IH.
    + now exists (String x a).
Qed.

Lemma rstrip_tail (sp : ascii -> bool) (w b : string) :
  all_chars (fun c => negb (sp c)) w = true ->
  exists b', rstrip sp (w ++ b) = w ++ b'.
Proof.
  induction w as [|c w IH]; intros Hw.
  - now exists (rstrip sp b).
  - simpl in Hw. apply andb_prop in Hw. destruct Hw as [Hc Hw].
    destruct (IH Hw) as [b' Hb']. exists b'. cbn [append rstrip].
    rewrite Hb'. apply negb_true_iff in Hc. now rewrite Hc.
Qed.

Lemma rstrip_keeps (sp : ascii -> bool) (a : string) (c : ascii) (w b : string) :
  all_chars (fun x => negb (sp x)) (String c w) = true ->
  exists b', rstrip sp (a ++ String c w ++ b) = a ++ String c w ++ b'.
Proof.
  intros Hw. induction a as [|x a IH].
  - now apply (rstrip_tail sp (String c w) b).
  - destruct IH as [b' Hb']. exists b'. cbn [append rstrip]. cbn [append] in Hb'.
    rewrite Hb'. destruct a; cbn [append is_empty]; now rewrite andb_false_r.
Qed.

Lemma weekend_word (w : string) :
  lower w = "weekend" ->
  all_chars (fun c => negb (is_space c)) w = true /\ w <> "".
Proof.
  intros H. split.
  - apply no_space_lower. now rewrite H.
  - intros ->. discriminate.
Qed.

Lemma weekend_inside (a w b : string) :
  lower w = "weekend" ->
  parse_day_range (Some (a ++ w ++ b)) = Ok (flag_row weekend_day).
Proof.
  intros H. destruct (weekend_word w H) as [Hsp Hne].
  destruct w as [|c w]; [congruence|].
  assert (Hc : is_space c = false).
  { simpl in Hsp. apply andb_prop in Hsp. now apply negb_true_iff. }
  destruct (rstrip_keeps is_space a c w b Hsp) as [b' Hb'].
  unfold parse_day_range, strip.
  assert (Hin : contains "weekend"
                  (lower (rstrip is_space (lstrip is_space (a ++ String c w ++ b)))) = true).
  { destruct (lstrip_keeps is_space a c (w ++ b) Hc) as [a' Ha'].
    cbn [append] in Ha'. cbn [append]. rewrite Ha'.
    destruct (rstrip_keeps is_space a' c w b Hsp) as [b2 Hb2].
    cbn [append] in Hb2. rewrite Hb2.
    change (a' ++ String c (w ++ b2)) with (a' ++ String c w ++ b2).
    rewrite !lower_app, H. apply contains_app. }
  rewrite Hin. cbn [bind]. reflexivity.
Qed.

(** A text in which the word "weekend" occurs, in any letter case, stands
    for Saturday and Sunday and for nothing else, whatever stands before
    and after the word. *)
Theorem parse_day_range_weekend_anywhere (a w b : string) :
  lower w = "weekend" ->
  parse_day_range (Some (a ++ w ++ b)) = Ok (flag_row weekend_day).
Proof. apply weekend_inside. Qed.

(** *** A range among other elements *)

Lemma join_cons_more (sep p : string) (t : list string) :
  t <> [] -> join sep (p :: t) = p ++ sep ++ join sep t.
Proof. destruct t; [congruence | reflexivity]. Qed.

Lemma join_middle (pre : list string) (x : string) (post : list string) :
  join "|" (pre ++ x :: post)
  = match pre with [] => "" | _ => join "|" pre ++ "|" end
    ++ x ++ match post with [] => "" | _ => "|" ++ join "|" post end.
Proof.
  induction pre as [|p pre IH].
  - destruct post as [|q post]; cbn [app append].
    + now rewrite append_nil_r.
    + reflexivity.
  - cbn [app]. rewrite join_cons_more by (now destruct pre). rewrite IH.
    destruct pre as [|q pre].
    + cbn [join append]. now rewrite !append_assoc.
    + rewrite (join_cons_more "|" p (q :: pre)) by discriminate.
      now rewrite !append_assoc.
Qed.

Lemma lower_before (pre : list string) (dpre : list day) :
  map lower pre = map day_name dpre ->
  lower match pre with [] => "" | _ => join "|" pre ++ "|" end
  = match dpre with [] => "" | _ => join "|" (map day_name dpre) ++ "|" end.
Proof.
  intros H. destruct pre as [|p pre], dpre as [|d dpre]; try discriminate.
  - reflexivity.
  - now rewrite lower_app, lower_join, H.
Qed.

Lemma lower_after (post : list string) (dpost : list day) :
  map lower post = map day_name dpost ->
  lower match post with [] => "" | _ => "|" ++ join "|" post end
  = match dpost with [] => "" | _ => "|" ++ join "|" (map day_name dpost) end.
Proof.
  intros H. destruct post as [|p post], dpost as [|d dpost]; try discriminate.
  - reflexivity.
  - now rewrite lower_app, lower_join, H.
Qed.

Lemma contains_before (sub : string) (dpre : list day) (rest : string) :
  (forall d rest, contains sub (day_name d ++ rest) = contains sub rest) ->
  (forall rest, contains sub ("|" ++ rest) = contains sub rest) ->
  contains sub (match dpre with [] => "" | _ => join "|" (map day_name dpre) ++ "|" end
                ++ rest)
  = contains sub rest.
Proof.
  intros Hd Hbar. destruct dpre as [|d dpre]; [reflexivity|].
  rewrite append_assoc, contains_days by assumption. apply Hbar.
Qed.

Lemma contains_after (sub : string) (dpost : list day) :
  (forall d rest, contains sub (day_name d ++ rest) = contains sub rest) ->
  (forall rest, contains sub ("|" ++ rest) = contains sub rest) ->
  contains sub "" = false ->
  contains sub match dpost with [] => "" | _ => "|" ++ join "|" (map day_name dpost) end
  = false.
Proof.
  intros Hd Hbar He. destruct dpost as [|d dpost]; [exact He|].
  rewrite Hbar. rewrite <- (append_nil_r (join "|" (map day_name (d :: dpost)))).
  now rewrite contains_days.
Qed.

Lemma name_bar_not_key (d : day) (rest : string) :
  dict_get weekday_to_num (day_name d ++ String "|" rest) = Raise KeyError.
Proof. destruct d; reflexivity. Qed.

Lemma range_among_days (before sa sb after : string) (a b : day)
    (dpre dpost : list day) :
  lower before
  = match dpre with [] => "" | _ => join "|" (map day_name dpre) ++ "|" end ->
  lower after
  = match dpost with [] => "" | _ => "|" ++ join "|" (map day_name dpost) end ->
  lower sa = day_name a -> lower sb = day_name b ->
  dpre <> [] \/ dpost <> [] ->
  parse_day_range (Some (before ++ (sa ++ "To" ++ sb) ++ after)) = Raise KeyError.
Proof.
  intros HP HQ Ha Hb Hne.
  pose proof weekend_after_day as Wd. pose proof to_after_day as Td.
  assert (Wbar : forall rest, contains "weekend" ("|" ++ rest) = contains "weekend" rest)
    by reflexivity.
  assert (Tbar : forall rest, contains "to" ("|" ++ rest) = contains "to" rest)
    by reflexivity.
  set (s := before ++ (sa ++ "To" ++ sb) ++ after).
  assert (Hs : s = (before ++ sa) ++ "To" ++ (sb ++ after))
    by (unfold s; now rewrite !append_assoc).
  assert (Hlow : lower s = lower before ++ day_name a ++ "to" ++ day_name b ++ lower after)
    by (unfold s; rewrite !lower_app, Ha, Hb; now rewrite !append_assoc).
  assert (Hsp : all_chars (fun c => negb (is_space c)) (lower s) = true).
  { rewrite Hlow, HP, HQ, !all_chars_app.
    replace (all_chars (fun c => negb (is_space c)) (day_name a)) with true
      by now destruct a.
    replace (all_chars (fun c => negb (is_space c)) (day_name b)) with true
      by now destruct b.
    assert (Hdays : forall ds, all_chars (fun c => negb (is_space c))
                                 (join "|" (map day_name ds)) = true)
      by (intros ds; apply (proj2 (proj2 (days_plain ds)))).
    destruct dpre, dpost; rewrite ?all_chars_app, ?Hdays; reflexivity. }
  unfold parse_day_range.
  rewrite strip_no_space by now apply no_space_lower.
  assert (Hw : contains "weekend" (lower s) = false).
  { rewrite Hlow, HP, HQ. rewrite contains_before, Wd by assumption.
    change (contains "weekend" ("to" ++ ?x)) with (contains "weekend" x).
    rewrite Wd. now apply contains_after. }
  rewrite Hw.
  assert (HTo : contains "To" s = true) by (rewrite Hs; apply contains_app).
  rewrite HTo. unfold split. rewrite Hs.
  rewrite split_To; cycle 1.
  { rewrite lower_app, Ha, HP, append_assoc.
    rewrite contains_before, Td by assumption. reflexivity. }
  { apply (contains_lower "To"). rewrite lower_app, Hb, HQ.
    change (lower "To") with "to". rewrite Td. now apply contains_after. }
  unfold index. cbn [nth_error bind append].
  rewrite lower_app, Ha, HP.
  destruct dpre as [|d1 dpre].
  - cbn [append]. rewrite dict_get_day. cbn [bind].
    rewrite lower_app, Hb, HQ.
    destruct dpost as [|d2 dpost]; [now destruct Hne|].
    cbn [append]. now rewrite name_bar_not_key.
  - destruct dpre as [|d2 dpre].
    + cbn [map join]. rewrite append_assoc. cbn [append].
      now rewrite name_bar_not_key.
    + change (join "|" (map day_name (d1 :: d2 :: dpre)))
        with (day_name d1 ++ "|" ++ join "|" (map day_name (d2 :: dpre))).
      rewrite !append_assoc. cbn [append]. now rewrite name_bar_not_key.
Qed.

(** A [DaysOfWeek] element with a range element among elements of single
    days cannot be read: the joined names are cut at the "To" of the range,
    and a piece with a bar in it is no day name. *)
Theorem get_weekday_info_range_among_days (pre post : list string)
    (dpre dpost : list day) (sa sb : string) (a b : day) :
  map lower pre = map day_name dpre -> map lower post = map day_name dpost ->
  lower sa = day_name a -> lower sb = day_name b ->
  pre <> [] \/ post <> [] ->
  parse_day_range (get_weekday_info (Some (app pre ((sa ++ "To" ++ sb) :: post))))
  = Raise KeyError.
Proof.
  intros Hpre Hpost Ha Hb Hne. unfold get_weekday_info.
  replace (List.length (app pre ((sa ++ "To" ++ sb) :: post)) =? 1)%nat with false.
  - rewrite join_middle.
    apply (range_among_days _ sa sb _ a b dpre dpost);
      try assumption; try (now apply lower_before); try (now apply lower_after).
    destruct Hne as [H|H]; [left | right]; intros ->;
      [destruct pre | destruct post]; simpl in *; congruence.
  - symmetry. apply Nat.eqb_neq. rewrite length_app. cbn [List.length].
    destruct Hne as [H|H]; [destruct pre | destruct post]; cbn [List.length];
      try congruence; lia.
Qed.

(** [parse_day_range] raises nothing but a [KeyError], and never for a
    missing text. *)
Theorem parse_day_range_only_key_error (dayinfo : option string) (e : exn) :
  parse_day_range dayinfo = Raise e -> e = KeyError /\ dayinfo <> None.
Proof.
  intros H. split; [now apply (parse_day_range_raises dayinfo)|].
  intros ->. discriminate.
Qed.

(** A text that is the name of a day, in any letter case, gives the row of
    that day alone; a text without "weekend", "To" and bar that is no such
    name is a [KeyError]. *)
Theorem parse_day_range_single_name (s : string) :
  (forall d, lower s = day_name d ->
             parse_day_range (Some s) = Ok (flag_row (among [d])))
  /\ (contains "weekend" (lower (strip s)) = false ->
      contains "To" s = false -> contains "|" s = false ->
      (forall d, lower s <> day_name d) ->
      parse_day_range (Some s) = Raise KeyError).
Proof.
  split.
  - intros d. apply parse_day_range_name.
  - intros Hw HTo Hbar Hno. unfold parse_day_range. rewrite Hw, HTo, Hbar.
    now rewrite (dict_get_not_day _ Hno).
Qed.

(** *** Phrasings of one set of days *)

Lemma get_weekday_info_joined (names : list string) :
  get_weekday_info (Some names) = Some (join "|" names).
Proof. now destruct names as [|n [|m r]]. Qed.

Lemma parse_day_range_joined (names : list string) (ds : list day) :
  map lower names = map day_name ds -> ds <> [] ->
  parse_day_range (Some (join "|" names)) = Ok (flag_row (among ds)).
Proof.
  intros H Hne. rewrite <- get_weekday_info_joined. now apply parse_day_range_names.
Qed.

Lemma position_inj (a b : day) : position a = position b -> a = b.
Proof. destruct a, b; cbn; intros H; try reflexivity; discriminate H. Qed.

Lemma among_In (ds : list day) (d : day) : among ds d = true <-> In d ds.
Proof.
  unfold among. rewrite existsb_exists. split.
  - intros [x [Hx E]]. apply Z.eqb_eq, position_inj in E. now subst.
  - intros H. exists d. split; [exact H | apply Z.eqb_refl].
Qed.

Lemma flag_row_same_days (ds : list day) (f : day -> bool) :
  (forall d, In d ds <-> f d = true) -> flag_row (among ds) = flag_row f.
Proof.
  intros H. apply flag_row_ext. intros d.
  destruct (f d) eqn:E.
  - now apply among_In, H.
  - destruct (among ds d) eqn:E'; [|reflexivity].
    apply among_In, H in E'. congruence.
Qed.

Lemma range_flags (a b : day) :
  calendar_row (range (position a) (position b + 1)) = Ok (flag_row (between a b)).
Proof. destruct a, b; reflexivity. Qed.

(** C6, as stated in general, fails: a text that mixes the forms is not
    read as the days that it names.  "Monday|Weekend" names the days of
    "Monday|Saturday|Sunday" and gives the row without Monday;
    "MondayToFriday|Saturday" names the six days of the list from Monday
    to Saturday and raises a [KeyError]. *)
Lemma parse_day_range_mixed_forms :
  parse_day_range (Some "Monday|Weekend")
  = Ok [("monday", 0); ("tuesday", 0); ("wednesday", 0); ("thursday", 0);
        ("friday", 0); ("saturday", 1); ("sunday", 1)]
  /\ parse_day_range (Some "Monday|Saturday|Sunday")
     = Ok [("monday", 1); ("tuesday", 0); ("wednesday", 0); ("thursday", 0);
           ("friday", 0); ("saturday", 1); ("sunday", 1)]
  /\ parse_day_range (Some "MondayToFriday|Saturday") = Raise KeyError
  /\ parse_day_range (Some "Monday|Tuesday|Wednesday|Thursday|Friday|Saturday")
     = Ok [("monday", 1); ("tuesday", 1); ("wednesday", 1); ("thursday", 1);
           ("friday", 1); ("saturday", 1); ("sunday", 0)].
Proof. repeat split; reflexivity. Qed.

(** C6, amended.  For the texts of one form, in any letter case,
    [parse_day_range] gives one row to the phrasings of one set of days.
    A range from a day to the same or a later day gives the row with
    exactly the days from the first to the second set, and so does every
    list, with bars, that names exactly those days, in any order and with
    repetitions; two lists that name the same days give the same row; the
    word "weekend" gives the row of Saturday and Sunday, as does the list
    of the two.  So "monday|tuesday" and "mondayTotuesday" both give the
    row with Monday and Tuesday set and the other five days clear, and
    "weekend" gives the row of "saturday|sunday"; the same holds of the
    capitalised names of a document, as in "MondayToFriday" and
    "Weekend". *)
Theorem parse_day_range_canonical :
  (forall (a b : day) (sa sb : string) (names : list string) (ds : list day),
      lower sa = day_name a -> lower sb = day_name b ->
      position a <= position b ->
      map lower names = map day_name ds ->
      (forall d, In d ds <-> between a b d = true) ->
      parse_day_range (Some (sa ++ "To" ++ sb)) = Ok (flag_row (between a b))
      /\ parse_day_range (Some (join "|" names)) = Ok (flag_row (between a b)))
  /\ (forall (names names' : list string) (ds ds' : list day),
        map lower names = map day_name ds ->
        map lower names' = map day_name ds' ->
        ds <> [] -> (forall d, In d ds <-> In d ds') ->
        parse_day_range (Some (join "|" names))
        = parse_day_range (Some (join "|" names')))
  /\ (forall w sat sun : string,
        lower w = "weekend" -> lower sat = "saturday" -> lower sun = "sunday" ->
        parse_day_range (Some w) = Ok (flag_row weekend_day)
        /\ parse_day_range (Some (sat ++ "|" ++ sun)) = Ok (flag_row weekend_day))
  /\ parse_day_range (Some "monday|tuesday")
     = Ok [("monday", 1); ("tuesday", 1); ("wednesday", 0); ("thursday", 0);
           ("friday", 0); ("saturday", 0); ("sunday", 0)]
  /\ parse_day_range (Some "mondayTotuesday") = parse_day_range (Some "monday|tuesday")
  /\ parse_day_range (Some "weekend") = parse_day_range (Some "saturday|sunday")
  /\ parse_day_range (Some "MondayToFriday")
     = Ok [("monday", 1); ("tuesday", 1); ("wednesday", 1); ("thursday", 1);
           ("friday", 1); ("saturday", 0); ("sunday", 0)]
  /\ parse_day_range (Some "MondayToFriday")
     = parse_day_range (Some "Monday|Tuesday|Wednesday|Thursday|Friday")
  /\ parse_day_range (Some "Weekend") = parse_day_range (Some "Saturday|Sunday").
Proof.
  split; [|split; [|split; [|repeat split; reflexivity]]].
  - intros a b sa sb names ds Ha Hb Hle Hnames Hds. split.
    + rewrite (parse_day_range_of_range a b sa sb Ha Hb). apply range_flags.
    + rewrite (parse_day_range_joined names ds Hnames).
      * f_equal. now apply flag_row_same_days.
      * intros ->. apply (proj2 (Hds a)). unfold between.
        rewrite Z.leb_refl. cbn [andb]. now apply Z.leb_le.
  - intros names names' ds ds' H H' Hne Hsame.
    rewrite (parse_day_range_joined names ds H Hne).
    rewrite (parse_day_range_joined names' ds' H').
    + f_equal. apply flag_row_same_days. intros d. rewrite among_In. apply Hsame.
    + intros ->. destruct ds as [|d ds]; [congruence|].
      now apply (proj1 (Hsame d) (or_introl eq_refl)).
  - intros w sat sun Hw Hsat Hsun. split.
    + pose proof (weekend_inside "" w "" Hw) as H. cbn [append] in H.
      now rewrite append_nil_r in H.
    + change (sat ++ "|" ++ sun) with (join "|" [sat; sun]).
      rewrite (parse_day_range_joined [sat; sun] [Saturday; Sunday]);
        [reflexivity | cbn [map]; now rewrite Hsat, Hsun | discriminate].
Qed.

Lemma parse_day_range_canonical_witness :
  parse_day_range (Some "TuesdayToThursday")
  = Ok [("monday", 0); ("tuesday", 1); ("wednesday", 1); ("thursday", 1);
        ("friday", 0); ("saturday", 0); ("sunday", 0)]
  /\ parse_day_range (Some "Thursday|TUESDAY|wednesday|Tuesday")
     = Ok [("monday", 0); ("tuesday", 1); ("wednesday", 1); ("thursday", 1);
           ("friday", 0); ("saturday", 0); ("sunday", 0)].
Proof.
  apply (proj1 parse_day_range_canonical Tuesday Thursday "Tuesday" "Thursday"
               ["Thursday"; "TUESDAY"; "wednesday"; "Tuesday"]
               [Thursday; Tuesday; Wednesday; Tuesday]);
    [reflexivity | reflexivity | cbn; lia | reflexivity |].
  intros []; cbn; intuition (discriminate || congruence).
Defined.

End WeeklyOutcomes.

(** ** The calendar and trips tables *)

Section Tables.

Import Py StopTimes Calendar Weekday CalendarTable CalendarRows TripsTable Trips.

Lemma bind_assoc {A B C : Type} (m : result A) (f : A -> result B) (g : B -> result C) :
  bind (bind m f) g = bind m (fun x => bind (f x) g).
Proof. now destruct m. Qed.

Lemma mapM_In {A B : Type} (f : A -> result B) (xs : list A) (ys : list B) :
  mapM f xs = Ok ys ->
  (forall x, In x xs -> exists y, In y ys /\ f x = Ok y)
  /\ (forall y, In y ys -> exists x, In x xs /\ f x = Ok y).
Proof.
  revert ys. induction xs as [|x xs IH]; intros ys H.
  - injection H as <-. split; intros ? [].
  - destruct (mapM_cons f x xs ys H) as [y [ys' [-> [Hx Hxs]]]].
    destruct (IH ys' Hxs) as [IH1 IH2]. split.
    + intros x0 [<-|Hin]; [exists y; simpl; auto|].
      destruct (IH1 x0 Hin) as [y0 [Hy0 Hf]]. exists y0. simpl. auto.
    + intros y0 [<-|Hin]; [exists x; simpl; auto|].
      destruct (IH2 y0 Hin) as [x0 [Hx0 Hf]]. exists x0. simpl. auto.
Qed.

Lemma mapM_fails {A B : Type} (f : A -> result B) (xs : list A) (e : exn) :
  mapM f xs = Raise e -> exists x, In x xs /\ f x = Raise e.
Proof.
  induction xs as [|x xs IH]; cbn [mapM]; [discriminate|].
  destruct (f x) as [y|e'] eqn:Hx; cbn [bind].
  - destruct (mapM f xs) as [ys|e''] eqn:Hxs; cbn [bind]; [discriminate|].
    intros [= <-]. destruct (IH eq_refl) as [x0 [Hin H0]]. exists x0. simpl. auto.
  - intros [= <-]. exists x. simpl. auto.
Qed.

Lemma mapM_fails_at {A B : Type} (f : A -> result B) (xs : list A) (x : A) (e : exn) :
  In x xs -> f x = Raise e -> exists e', mapM f xs = Raise e'.
Proof.
  intros Hin Hx. destruct (mapM f xs) as [ys|e'] eqn:H; [|eauto].
  destruct (proj1 (mapM_In f xs ys H) x Hin) as [y [_ Hy]]. congruence.
Qed.

Lemma option_eqb_spec (a b : option string) : option_eqb a b = true <-> a = b.
Proof.
  destruct a as [x|], b as [y|]; simpl; try (split; congruence).
  rewrite String.eqb_eq. split; congruence.
Qed.

Lemma use_cols_eqb_spec (a b : option string * option string * string * string) :
  use_cols_eqb a b = true <-> a = b.
Proof.
  destruct a as [[[s1 w1] d1] e1], b as [[[s2 w2] d2] e2]. unfold use_cols_eqb.
  rewrite !andb_true_iff, !option_eqb_spec, !String.eqb_eq.
  split; [intros [[[-> ->] ->] ->]; reflexivity | intros [= -> -> -> ->]; auto].
Qed.

Lemma trip_key_eqb_spec (a b : string * option string * string) :
  trip_key_eqb a b = true <-> a = b.
Proof.
  destruct a as [[r1 s1] t1], b as [[r2 s2] t2]. unfold trip_key_eqb.
  rewrite !andb_true_iff, option_eqb_spec, !String.eqb_eq.
  split; [intros [[-> ->] ->]; reflexivity | intros [= -> -> ->]; auto].
Qed.

(** *** [drop_duplicates] keeps one row of every key *)

Lemma drop_duplicates_In {A K : Type} (eqb : K -> K -> bool) (key : A -> K)
    (xs : list A) (x : A) :
  (forall a b, eqb a b = true <-> a = b) ->
  In x (drop_duplicates eqb key xs) -> In x xs.
Proof.
  intros Hspec H. now apply (drop_duplicates_from_In eqb key Hspec [] xs x).
Qed.

Lemma drop_duplicates_covers {A K : Type} (eqb : K -> K -> bool) (key : A -> K)
    (xs : list A) (x : A) :
  (forall a b, eqb a b = true <-> a = b) ->
  In x xs -> exists x', In x' (drop_duplicates eqb key xs) /\ key x' = key x.
Proof.
  intros Hspec H.
  pose proof (drop_duplicates_from_keys eqb key Hspec [] xs x H (fun F => F)) as Hk.
  apply in_map_iff in Hk. destruct Hk as [x' [Hk Hin]]. eauto.
Qed.

(** *** The calendar table *)

Lemma select_days_flags (f : day -> bool) :
  mapM (fun col => v <- dict_get (flag_row f) col ;; Ok (col, v)) day_cols
  = Ok (flag_row f).
Proof. reflexivity. Qed.

(** The entry that [get_calendar] makes of a row of the frame: a row
    with a null weekly pattern makes the call raise, and another row gives
    its entry. *)
Lemma get_calendar_rows (gtfs_info : list row) :
  get_calendar gtfs_info
  = mapM (fun r => match weekdays r with
                   | Some _ => entry_of r
                   | None => Raise AttributeError
                   end)
         (drop_duplicates use_cols_eqb use_cols gtfs_info).
Proof.
  unfold get_calendar.
  generalize (drop_duplicates use_cols_eqb use_cols gtfs_info) as calendar.
  induction calendar as [|r calendar IH]; [reflexivity|].
  cbn [mapM]. unfold entry_of at 1.
  destruct (weekdays r) as [dayinfo|]; cbn [bind]; [|reflexivity].
  destruct (parse_day_range (Some dayinfo)) as [dayrow|e] eqn:Hr; cbn [bind];
    [|reflexivity].
  destruct (parse_day_range_flags _ _ Hr) as [f ->].
  rewrite <- IH, !bind_assoc.
  destruct (mapM _ calendar) as [rows|e]; cbn [bind mapM]; [|reflexivity].
  rewrite select_days_flags. reflexivity.
Qed.

Lemma entry_of_use_cols (r r' : row) :
  use_cols r' = use_cols r -> entry_of r' = entry_of r.
Proof.
  unfold use_cols, entry_of. intros [= -> -> -> ->]. reflexivity.
Qed.

Lemma entry_of_raises (r : row) (e : exn) :
  entry_of r = Raise e <-> parse_day_range (weekdays r) = Raise e.
Proof.
  unfold entry_of. destruct (parse_day_range (weekdays r)); cbn [bind];
    split; congruence.
Qed.

(** What makes [get_calendar] raise at a row. *)
Lemma read_entry_raises (r : row) (e : exn) :
  match weekdays r with
  | Some _ => entry_of r
  | None => Raise AttributeError
  end = Raise e
  <-> (weekdays r = None /\ e = AttributeError)
      \/ (weekdays r <> None /\ e = KeyError
          /\ parse_day_range (weekdays r) = Raise KeyError).
Proof.
  destruct (weekdays r) as [dayinfo|] eqn:Hw.
  - rewrite <- Hw at 1. rewrite entry_of_raises, Hw. split.
    + intros H. right. pose proof (parse_day_range_raises _ _ H) as ->.
      split; [discriminate | now split].
    + intros [[H _]|[_ [-> H]]]; [discriminate H | exact H].
  - split.
    + intros [= <-]. now left.
    + intros [[_ ->]|[H _]]; [reflexivity | congruence].
Qed.

Lemma read_entry_ok (r : row) (c : calendar_entry) :
  match weekdays r with
  | Some _ => entry_of r
  | None => Raise AttributeError
  end = Ok c
  -> entry_of r = Ok c.
Proof. destruct (weekdays r); [auto | discriminate]. Qed.

Lemma weekdays_use_cols (r r' : row) : use_cols r' = use_cols r -> weekdays r' = weekdays r.
Proof. unfold use_cols. now intros [= _ -> _ _]. Qed.

(** [get_calendar] fails exactly when some row of the frame has a null
    weekly pattern or one that cannot be read; one such row is enough to
    lose the whole calendar.  It raises an [AttributeError] only for a
    null pattern and a [KeyError] only for a text that cannot be read, and
    nothing else; in a frame where every row has a text, it raises a
    [KeyError] exactly when one of the texts cannot be read. *)
Theorem get_calendar_fails (gtfs_info : list row) :
  ((exists e, get_calendar gtfs_info = Raise e)
   <-> exists r, In r gtfs_info
                 /\ (weekdays r = None
                     \/ parse_day_range (weekdays r) = Raise KeyError))
  /\ (forall e, get_calendar gtfs_info = Raise e -> e = AttributeError \/ e = KeyError)
  /\ (get_calendar gtfs_info = Raise AttributeError ->
      exists r, In r gtfs_info /\ weekdays r = None)
  /\ (get_calendar gtfs_info = Raise KeyError ->
      exists r, In r gtfs_info /\ parse_day_range (weekdays r) = Raise KeyError)
  /\ ((forall r, In r gtfs_info -> weekdays r <> None) ->
      (get_calendar gtfs_info = Raise KeyError
       <-> exists r, In r gtfs_info /\ parse_day_range (weekdays r) = Raise KeyError)).
Proof.
  assert (Hat : forall e, get_calendar gtfs_info = Raise e ->
                exists r, In r gtfs_info
                          /\ ((weekdays r = None /\ e = AttributeError)
                              \/ (weekdays r <> None /\ e = KeyError
                                  /\ parse_day_range (weekdays r) = Raise KeyError))).
  { intros e H. rewrite get_calendar_rows in H.
    destruct (mapM_fails _ _ _ H) as [r [Hin Hr]]. exists r. split.
    - now apply (drop_duplicates_In use_cols_eqb use_cols _ _ use_cols_eqb_spec).
    - now apply read_entry_raises. }
  assert (Hfails : (exists r, In r gtfs_info
                              /\ (weekdays r = None
                                  \/ parse_day_range (weekdays r) = Raise KeyError)) ->
                   exists e, get_calendar gtfs_info = Raise e).
  { intros [r [Hin Hr]].
    destruct (drop_duplicates_covers use_cols_eqb use_cols _ _ use_cols_eqb_spec Hin)
      as [r' [Hin' Hcols]].
    pose proof (weekdays_use_cols r r' Hcols) as Hw.
    rewrite get_calendar_rows.
    destruct (weekdays r) as [dayinfo|] eqn:Hwr.
    - destruct Hr as [Hr|Hr]; [discriminate Hr|].
      apply (mapM_fails_at _ _ r' KeyError Hin'). rewrite Hw.
      apply entry_of_raises. now rewrite Hw.
    - apply (mapM_fails_at _ _ r' AttributeError Hin'). now rewrite Hw. }
  split; [|split; [|split; [|split]]].
  - split; [|exact Hfails].
    intros [e H]. destruct (Hat e H) as [r [Hin Hr]]. exists r. split; [exact Hin|].
    destruct Hr as [[Hr _]|[_ [_ Hr]]]; auto.
  - intros e H. destruct (Hat e H) as [r [_ [[_ ->]|[_ [-> _]]]]]; auto.
  - intros H. destruct (Hat _ H) as [r [Hin [[Hr _]|[_ [He _]]]]];
      [now exists r | discriminate He].
  - intros H. destruct (Hat _ H) as [r [Hin [[_ He]|[_ [_ Hr]]]]];
      [discriminate He | now exists r].
  - intros Htext. split.
    + intros H. destruct (Hat _ H) as [r [Hin [[_ He]|[_ [_ Hr]]]]];
        [discriminate He | now exists r].
    + intros [r [Hin Hr]].
      destruct Hfails as [e He]; [exists r; auto|].
      destruct (Hat e He) as [r' [Hin' [[Hnull _]|[_ [-> _]]]]]; [|exact He].
      now apply Htext in Hin'.
Qed.

(** When [get_calendar] returns, every row of the frame has its entry in
    the table (its service, its period and the flags of its weekly
    pattern), and the table has no other entries. *)
Theorem get_calendar_entries (gtfs_info : list row) (calendar : list calendar_entry) :
  get_calendar gtfs_info = Ok calendar ->
  (forall r, In r gtfs_info -> exists c, In c calendar /\ entry_of r = Ok c)
  /\ (forall c, In c calendar -> exists r, In r gtfs_info /\ entry_of r = Ok c).
Proof.
  intros H. rewrite get_calendar_rows in H.
  destruct (mapM_In _ _ _ H) as [H1 H2]. split.
  - intros r Hin.
    destruct (drop_duplicates_covers use_cols_eqb use_cols _ _ use_cols_eqb_spec Hin)
      as [r' [Hin' Hcols]].
    destruct (H1 r' Hin') as [c [Hc Hr']]. exists c. split; [exact Hc|].
    rewrite <- (entry_of_use_cols r r' Hcols). now apply read_entry_ok.
  - intros c Hc. destruct (H2 c Hc) as [r [Hin Hr]]. exists r. split.
    + now apply (drop_duplicates_In use_cols_eqb use_cols _ _ use_cols_eqb_spec).
    + now apply read_entry_ok.
Qed.

(** *** The trips table *)

Lemma get_trips_In (gtfs_info : list row) (t : trip) :
  In t (get_trips gtfs_info) -> exists r, In r gtfs_info /\ t = select_trip_cols r.
Proof.
  unfold get_trips. intros H. apply in_map_iff in H. destruct H as [r [<- Hin]].
  exists r. split; [|reflexivity].
  now apply (drop_duplicates_In trip_key_eqb trip_key _ _ trip_key_eqb_spec).
Qed.

Lemma get_trips_covers (gtfs_info : list row) (r : row) :
  In r gtfs_info ->
  exists r', In (select_trip_cols r') (get_trips gtfs_info) /\ trip_key r' = trip_key r.
Proof.
  intros Hin.
  destruct (drop_duplicates_covers trip_key_eqb trip_key _ _ trip_key_eqb_spec Hin)
    as [r' [Hin' Hkey]].
  exists r'. split; [|exact Hkey]. unfold get_trips. now apply in_map.
Qed.

(** No two rows of the trips table share route, service and trip
    identifier; every such triple of the frame has its row; and the row of
    a triple has the headsign and the direction of the first row of the
    frame with that triple. *)
Theorem get_trips_one_row_per_key (gtfs_info : list row) :
  NoDup (map (fun t => (tr_route_id t, tr_service_id t, tr_trip_id t))
             (get_trips gtfs_info))
  /\ (forall r, In r gtfs_info ->
        exists first,
          find (fun x => trip_key_eqb (trip_key x) (trip_key r)) gtfs_info = Some first
          /\ trip_key first = trip_key r
          /\ In (select_trip_cols first) (get_trips gtfs_info)
          /\ find (fun t => trip_key_eqb (tr_route_id t, tr_service_id t, tr_trip_id t)
                                         (trip_key r))
                  (get_trips gtfs_info)
             = Some (select_trip_cols first)).
Proof.
  split.
  - unfold get_trips. rewrite map_map.
    apply (drop_duplicates_from_NoDup trip_key_eqb trip_key trip_key_eqb_spec [] gtfs_info).
  - intros r Hin.
    destruct (find (fun x => trip_key_eqb (trip_key x) (trip_key r)) gtfs_info)
      as [first|] eqn:Hfind.
    + exists first. destruct (find_some _ _ Hfind) as [Hfin Hkey].
      apply trip_key_eqb_spec in Hkey.
      assert (Hdd : find (fun x => trip_key_eqb (trip_key x) (trip_key r))
                         (drop_duplicates trip_key_eqb trip_key gtfs_info) = Some first).
      { unfold drop_duplicates.
        rewrite (drop_duplicates_from_find trip_key_eqb trip_key trip_key_eqb_spec)
          by (intros []).
        exact Hfind. }
      repeat split; try assumption.
      * unfold get_trips. apply in_map. now destruct (find_some _ _ Hdd).
      * unfold get_trips. rewrite find_map.
        change (fun x => trip_key_eqb
                           (tr_route_id (select_trip_cols x),
                            tr_service_id (select_trip_cols x),
                            tr_trip_id (select_trip_cols x)) (trip_key r))
          with (fun x => trip_key_eqb (trip_key x) (trip_key r)).
        now rewrite Hdd.
    + exfalso. apply (find_none _ _ Hfind) in Hin.
      assert (trip_key_eqb (trip_key r) (trip_key r) = true)
        by now apply trip_key_eqb_spec.
      congruence.
Qed.

(** *** The stop-times table *)

Lemma NoDup_by_trip (l : list stop_time) :
  (forall t, NoDup (trip_rows t l)) -> NoDup l.
Proof.
  induction l as [|x l IH]; intros H; constructor.
  - intros Hin. specialize (H (st_trip_id x)). unfold trip_rows in H.
    cbn [filter] in H. rewrite String.eqb_refl in H. inversion H as [|? ? Hn _].
    apply Hn. apply filter_In. split; [exact Hin | apply String.eqb_refl].
  - apply IH. intros t. specialize (H t). unfold trip_rows in *. cbn [filter] in H.
    destruct (String.eqb (st_trip_id x) t); [now inversion H | exact H].
Qed.

Lemma trip_records_NoDup (t : string) (gtfs_info : list row) :
  NoDup (trip_records t gtfs_info).
Proof.
  unfold trip_records, trip_rows. apply NoDup_filter.
  pose proof (drop_duplicates_from_NoDup stop_time_eqb (fun r => r) stop_time_eqb_spec
                [] (map select_stop_times_cols gtfs_info)) as H.
  now rewrite map_id in H.
Qed.

Lemma trip_records_In (t : string) (gtfs_info : list row) (st : stop_time) :
  In st (trip_records t gtfs_info) ->
  exists r, In r gtfs_info /\ st = select_stop_times_cols r.
Proof.
  unfold trip_records, trip_rows. intros H. apply filter_In in H. destruct H as [H _].
  apply (drop_duplicates_In stop_time_eqb (fun r => r) _ _ stop_time_eqb_spec) in H.
  apply in_map_iff in H. destruct H as [r [<- Hin]]. eauto.
Qed.

Lemma get_stop_times_In (gtfs_info : list row) (st : stop_time) :
  In st (get_stop_times gtfs_info) ->
  In st (trip_records (st_trip_id st) gtfs_info)
  /\ (2 <= List.length (trip_rows (st_trip_id st) (get_stop_times gtfs_info)))%nat.
Proof.
  intros H.
  assert (Hin : In st (trip_rows (st_trip_id st) (get_stop_times gtfs_info))).
  { unfold trip_rows. apply filter_In. split; [exact H | apply String.eqb_refl]. }
  rewrite get_stop_times_trip in *.
  destruct (1 <? List.length (trip_records (st_trip_id st) gtfs_info))%nat eqn:Hlen.
  - split; [exact Hin|]. apply Nat.ltb_lt in Hlen. lia.
  - destruct Hin.
Qed.

(** The stop-times table repeats no record, every record of it comes from
    a row of the frame, and a trip that appears in it has at least two
    records there. *)
Theorem get_stop_times_records (gtfs_info : list row) :
  NoDup (get_stop_times gtfs_info)
  /\ (forall st, In st (get_stop_times gtfs_info) ->
        (exists r, In r gtfs_info /\ st = select_stop_times_cols r)
        /\ (2 <= List.length (trip_rows (st_trip_id st) (get_stop_times gtfs_info)))%nat).
Proof.
  split.
  - apply NoDup_by_trip. intros t. rewrite get_stop_times_trip.
    destruct (1 <? _)%nat; [apply trip_records_NoDup | constructor].
  - intros st H. destruct (get_stop_times_In _ _ H) as [Hrec Hlen]. split.
    + now apply (trip_records_In (st_trip_id st)).
    + exact Hlen.
Qed.

(** *** References between the tables *)

(** The tables made from one frame refer to rows that exist: the trip of
    every stop-time record is in the trips table, and the service of every
    trip is in the calendar table when that table can be made. *)
Theorem tables_references_resolve (gtfs_info : list row) :
  (forall st, In st (get_stop_times gtfs_info) ->
     exists t, In t (get_trips gtfs_info) /\ tr_trip_id t = st_trip_id st)
  /\ (forall calendar t,
        get_calendar gtfs_info = Ok calendar -> In t (get_trips gtfs_info) ->
        exists c, In c calendar /\ cal_service_id c = tr_service_id t).
Proof.
  split.
  - intros st H. destruct (get_stop_times_In _ _ H) as [Hrec _].
    destruct (trip_records_In _ _ _ Hrec) as [r [Hin ->]].
    destruct (get_trips_covers _ _ Hin) as [r' [Ht Hkey]].
    exists (select_trip_cols r'). split; [exact Ht|].
    unfold trip_key in Hkey. now injection Hkey.
  - intros calendar t Hcal Ht.
    destruct (get_trips_In _ _ Ht) as [r [Hin ->]].
    rewrite get_calendar_rows in Hcal.
    destruct (drop_duplicates_covers use_cols_eqb use_cols _ _ use_cols_eqb_spec Hin)
      as [r' [Hin' Hcols]].
    destruct (proj1 (mapM_In _ _ _ Hcal) r' Hin') as [c [Hc Hr']].
    exists c. split; [exact Hc|]. apply read_entry_ok in Hr'.
    unfold entry_of in Hr'. destruct (parse_day_range (weekdays r')); [|discriminate].
    cbn [bind] in Hr'. injection Hr' as <-. cbn.
    unfold use_cols in Hcols. now injection Hcols.
Qed.

End Tables.

(** ** The calendar-dates table *)

Section Dates.

Import Py StopTimes CalendarTable CalendarDates Exceptions.

Context {Date : Type}.
Variable get_bank_holiday_dates : list row -> option (list Date).

Lemma exception_names_nil (info : string) : exception_names info = [] <-> info = "".
Proof.
  unfold exception_names. split.
  - destruct (contains "|" info) eqn:Hbar.
    + intros H. now apply split_scan_not_nil in H.
    + destruct (String.eqb_spec info ""); [auto | discriminate].
  - intros ->. reflexivity.
Qed.

Lemma flat_map_nil {A B : Type} (f : A -> list B) (l : list A) :
  flat_map f l = [] <-> forall x, In x l -> f x = [].
Proof.
  induction l as [|x l IH]; simpl.
  - split; [intros _ ? [] | reflexivity].
  - split.
    + intros H. apply app_eq_nil in H. destruct H as [Hx Hl].
      intros y [<-|Hy]; [exact Hx | now apply IH].
    + intros H. rewrite (H x) by auto. apply IH. intros y Hy. apply H. auto.
Qed.

Lemma with_exceptions_values (gtfs_info : list row) (v : string) :
  In v (non_null (map non_operative_days (with_exceptions gtfs_info)))
  <-> exists r, In r gtfs_info /\ non_operative_days r = Some v.
Proof.
  rewrite non_null_In, in_map_iff. unfold with_exceptions. split.
  - intros [r [Hv Hin]]. apply filter_In in Hin. exists r. tauto.
  - intros [r [Hin Hv]]. exists r. split; [exact Hv|]. apply filter_In.
    split; [exact Hin|]. now rewrite Hv.
Qed.

(** The names collected from the frame: there is none exactly when no row
    names a day of non-operation. *)
Lemma no_exception_names (gtfs_info : list row) :
  flat_map exception_names
    (drop_duplicates String.eqb (fun v => v)
       (non_null (map non_operative_days (with_exceptions gtfs_info)))) = []
  <-> forall r, In r gtfs_info -> ~ names_exception r.
Proof.
  rewrite flat_map_nil. split.
  - intros H r Hin [v [Hv Hne]]. apply Hne. apply exception_names_nil.
    assert (Hval : In v (non_null (map non_operative_days (with_exceptions gtfs_info))))
      by (apply with_exceptions_values; eauto).
    destruct (drop_duplicates_covers String.eqb (fun v => v) _ _ string_eqb_spec Hval)
      as [v' [Hin' ->]].
    now apply H.
  - intros H v Hv. apply exception_names_nil.
    apply (drop_duplicates_In String.eqb (fun v => v) _ _ string_eqb_spec) in Hv.
    apply with_exceptions_values in Hv. destruct Hv as [r [Hin Hr]].
    destruct (String.eqb_spec v ""); [assumption|].
    exfalso. apply (H r Hin). now exists v.
Qed.

(** The table of a frame in which some row names a day of non-operation. *)
Lemma get_calendar_dates_named (gtfs_info : list row) (r : row) :
  In r gtfs_info -> names_exception r ->
  get_calendar_dates get_bank_holiday_dates gtfs_info
  = match get_bank_holiday_dates (with_exceptions gtfs_info) with
    | None => Ok None
    | Some bank_holidays =>
        match flat_map (fun row =>
                          map (fun date => mk_calendar_date (service_id row) date 2)
                              bank_holidays)
                (drop_duplicates option_eqb service_id (with_exceptions gtfs_info)) with
        | [] => Raise KeyError
        | calendar_dates => Ok (Some calendar_dates)
        end
    end.
Proof.
  intros Hin Hr. unfold get_calendar_dates. cbv zeta. fold (with_exceptions gtfs_info).
  destruct (flat_map exception_names _) eqn:Hnames.
  - exfalso. exact (proj1 (no_exception_names gtfs_info) Hnames r Hin Hr).
  - destruct (get_bank_holiday_dates (with_exceptions gtfs_info)); [|reflexivity].
    set (rows := flat_map _ (drop_duplicates option_eqb service_id _)).
    now destruct rows.
Qed.

(** [get_calendar_dates] gives no table for a frame in which no row names
    a day of non-operation, whatever the bank holidays are.  For a frame in
    which a row does, it gives no table when there are no bank holiday
    dates to be had, and raises a [KeyError] when the list of dates is
    empty. *)
Theorem get_calendar_dates_without_rows (gtfs_info : list row) :
  ((forall r, In r gtfs_info -> ~ names_exception r) ->
   get_calendar_dates get_bank_holiday_dates gtfs_info = Ok None)
  /\ (forall r, In r gtfs_info -> names_exception r ->
        (get_bank_holiday_dates (with_exceptions gtfs_info) = None ->
         get_calendar_dates get_bank_holiday_dates gtfs_info = Ok None)
        /\ (get_bank_holiday_dates (with_exceptions gtfs_info) = Some [] ->
            get_calendar_dates get_bank_holiday_dates gtfs_info = Raise KeyError)).
Proof.
  split.
  - intros H. unfold get_calendar_dates. cbv zeta. fold (with_exceptions gtfs_info).
    now rewrite (proj2 (no_exception_names gtfs_info) H).
  - intros r Hin Hr. rewrite (get_calendar_dates_named _ r Hin Hr). split; intros ->.
    + reflexivity.
    + replace (flat_map _ _) with (@nil (calendar_date Date)); [reflexivity|].
      symmetry. apply flat_map_nil. reflexivity.
Qed.

(** When [get_calendar_dates] returns a table, the table removes every
    bank holiday date from every service that has a row with days of
    non-operation, whatever those days are: its rows are exactly the pairs
    of such a service and such a date, all of exception type 2. *)
Theorem get_calendar_dates_rows (gtfs_info : list row)
    (calendar_dates : list (calendar_date Date)) :
  get_calendar_dates get_bank_holiday_dates gtfs_info = Ok (Some calendar_dates) ->
  exists bank_holidays,
    get_bank_holiday_dates (with_exceptions gtfs_info) = Some bank_holidays
    /\ forall cd,
         In cd calendar_dates
         <-> (cd_exception_type cd = 2
              /\ In (cd_date cd) bank_holidays
              /\ exists r, In r gtfs_info /\ non_operative_days r <> None
                           /\ service_id r = cd_service_id cd).
Proof.
  unfold get_calendar_dates. cbv zeta. fold (with_exceptions gtfs_info).
  destruct (flat_map exception_names _); [discriminate|].
  destruct (get_bank_holiday_dates (with_exceptions gtfs_info)) as [bank_holidays|];
    [|discriminate].
  set (rows := flat_map _ _).
  intros H. assert (Hrows : calendar_dates = rows)
    by (destruct rows; [discriminate | now injection H]).
  subst calendar_dates. exists bank_holidays. split; [reflexivity|].
  intros cd. unfold rows. rewrite in_flat_map. split.
  - intros [row [Hrow Hcd]]. apply in_map_iff in Hcd. destruct Hcd as [date [<- Hdate]].
    cbn. repeat split; [exact Hdate|].
    apply (drop_duplicates_In option_eqb service_id _ _ option_eqb_spec) in Hrow.
    unfold with_exceptions in Hrow. apply filter_In in Hrow.
    destruct Hrow as [Hin Hnull]. exists row. repeat split; [exact Hin|].
    now destruct (non_operative_days row).
  - intros [Htype [Hdate [r [Hin [Hnod Hsid]]]]].
    assert (Hwith : In r (with_exceptions gtfs_info)).
    { unfold with_exceptions. apply filter_In. split; [exact Hin|].
      now destruct (non_operative_days r). }
    destruct (drop_duplicates_covers option_eqb service_id _ _ option_eqb_spec Hwith)
      as [r' [Hin' Hkey]].
    exists r'. split; [exact Hin'|]. apply in_map_iff. exists (cd_date cd).
    split; [|exact Hdate]. destruct cd as [sid date type]. cbn in *. congruence.
Qed.

End Dates.

(** ** The routes table *)

Section RouteRows.

Import Py StopTimes Untangle Routes.

Lemma prefix_mono (a b x : string) : prefix a b = true -> prefix a (b ++ x) = true.
Proof.
  revert b. induction a as [|c a IH]; intros b H; [apply prefix_nil|].
  destruct b as [|d b]; [discriminate|].
  cbn [append]. rewrite prefix_cons in *. apply andb_prop in H. destruct H as [-> H].
  now rewrite (IH b H).
Qed.

Lemma prefix_split (a b : string) : prefix a b = true -> exists q, b = a ++ q.
Proof.
  revert b. induction a as [|c a IH]; intros b H; [now exists b|].
  destruct b as [|d b]; [discriminate|].
  rewrite prefix_cons in H. apply andb_prop in H. destruct H as [Hc H].
  apply Ascii.eqb_eq in Hc. subst d. destruct (IH b H) as [q ->]. now exists q.
Qed.

(** The first piece of [s.split(sep)] is the text before the first [sep]. *)
Lemma split_scan_first (sep cur s : string) :
  sep <> "" ->
  exists p rest,
    split_scan sep 0 cur s = (cur ++ p) :: rest
    /\ contains sep p = false
    /\ (s = p \/ exists q, s = p ++ sep ++ q).
Proof.
  intros Hsep. assert (He : contains sep "" = false) by (now destruct sep).
  revert cur. induction s as [|c s IH]; intros cur.
  - exists "", []. rewrite append_nil_r. auto.
  - cbn [split_scan]. destruct (prefix sep (String c s)) eqn:Hp.
    + exists "". eexists. split; [now rewrite append_nil_r|]. split; [exact He|].
      right. now apply prefix_split.
    + destruct (IH (cur ++ String c "")) as [p [rest [Hs [Hc Hq]]]].
      exists (String c p), rest. split; [now rewrite Hs, append_snoc|]. split.
      * cbn [contains]. rewrite Hc, orb_false_r.
        destruct (prefix sep (String c p)) eqn:Hpp; [|reflexivity].
        destruct Hq as [->|[q ->]]; [congruence|].
        apply (prefix_mono _ _ (sep ++ q)) in Hpp. cbn [append] in Hpp. congruence.
      * destruct Hq as [->|[q ->]]; [now left | right; now exists q].
Qed.

Lemma cdata_ok (children : list string) (text : string) :
  cdata children = Ok text -> children = [text].
Proof.
  destruct children as [|x [|y l]]; cbn; congruence.
Qed.

Lemma cdata_raises (children : list string) (e : exn) :
  cdata children = Raise e -> e = AttributeError.
Proof.
  destruct children as [|x [|y l]]; cbn; congruence.
Qed.

Lemma agencies_of_route_first (gtfs_info : list row) (route : option string) :
  match Py.index (agencies_of_route gtfs_info route) 0 with
  | Raise IndexError => Ok "UNKNOWN_AGENCY"
  | other => other
  end
  = Ok match route with
       | Some id =>
           match find (fun r => String.eqb (route_id r) id) gtfs_info with
           | Some r => agency_id r
           | None => "UNKNOWN_AGENCY"
           end
       | None => "UNKNOWN_AGENCY"
       end.
Proof.
  unfold agencies_of_route, drop_duplicates. destruct route as [id|].
  - induction gtfs_info as [|r g IH]; [reflexivity|].
    cbn [filter find]. destruct (String.eqb (route_id r) id); [reflexivity | exact IH].
  - induction gtfs_info as [|r g IH]; [reflexivity | exact IH].
Qed.

Lemma get_mode_range (mode : option string) : 0 <= get_mode mode <= 4.
Proof.
  unfold get_mode.
  repeat match goal with |- context [if ?b then _ else _] => destruct b end; lia.
Qed.

Lemma get_route_type_raises (Service : list (list string)) (e : exn) :
  get_route_type Service = Raise e -> e = AttributeError.
Proof.
  unfold get_route_type. destruct Service as [|Mode [|s l]]; cbn [bind];
    try congruence.
  destruct Mode as [|m [|m' l]]; cbn; congruence.
Qed.

Lemma get_route_type_range (Service : list (list string)) (t : Z) :
  get_route_type Service = Ok t -> 0 <= t <= 4.
Proof.
  unfold get_route_type.
  destruct (match Service with [] => _ | _ => _ end) as [mode|]; cbn [bind];
    [|discriminate].
  intros [= <-]. apply get_mode_range.
Qed.

Lemma mapM_Forall2 {A B : Type} (f : A -> result B) (P : A -> B -> Prop) (xs : list A)
    (ys : list B) :
  (forall x y, f x = Ok y -> P x y) -> mapM f xs = Ok ys -> Forall2 P xs ys.
Proof.
  intros Hf. revert ys. induction xs as [|x xs IH]; intros ys H.
  - injection H as <-. constructor.
  - destruct (mapM_cons f x xs ys H) as [y [ys' [-> [Hx Hxs]]]].
    constructor; [now apply Hf | now apply IH].
Qed.

(** The row that [get_routes] makes of a [Route] element. *)
Lemma get_routes_rows (gtfs_info : list row) (route_elements : list route_element)
    (Service : list (list string)) (routes : list route) :
  get_routes gtfs_info route_elements Service = Ok routes ->
  Forall2 (fun e r =>
             exists code,
               PrivateCode e = [code]
               /\ Py.index (split "-_-" code) 0 = Ok (rt_route_short_name r)
               /\ rt_route_id r = route_element_id e
               /\ Description e = [rt_route_long_name r]
               /\ (exists ref, RouteSectionRef e = [ref])
               /\ get_route_type Service = Ok (rt_route_type r)
               /\ rt_agency_id r
                  = match route_element_id e with
                    | Some id =>
                        match find (fun x => String.eqb (route_id x) id) gtfs_info with
                        | Some x => agency_id x
                        | None => "UNKNOWN_AGENCY"
                        end
                    | None => "UNKNOWN_AGENCY"
                    end)
          route_elements routes.
Proof.
  unfold get_routes. apply mapM_Forall2. intros e r.
  rewrite agencies_of_route_first. cbn [bind].
  destruct (cdata (Description e)) as [long|] eqn:Hlong; cbn [bind]; [|discriminate].
  destruct (cdata (PrivateCode e)) as [code|] eqn:Hcode; cbn [bind]; [|discriminate].
  destruct (Py.index (split "-_-" code) 0) as [short|] eqn:Hshort; cbn [bind];
    [|discriminate].
  destruct (cdata (RouteSectionRef e)) as [ref|] eqn:Href; cbn [bind]; [|discriminate].
  destruct (get_route_type Service) as [t|] eqn:Ht; cbn [bind]; [|discriminate].
  intros [= <-]. cbn. apply cdata_ok in Hlong, Hcode, Href.
  exists code. repeat split; try assumption. now exists ref.
Qed.

Lemma Forall2_weaken {A B : Type} (P Q : A -> B -> Prop) (xs : list A) (ys : list B) :
  (forall x y, P x y -> Q x y) -> Forall2 P xs ys -> Forall2 Q xs ys.
Proof. intros H F. induction F; constructor; auto. Qed.

(** When [get_routes] returns, it gives one row for each [Route] element,
    in document order: every element has one [Description], one
    [PrivateCode] and one [RouteSectionRef].  The short name of a route is
    its private code up to the first separator "-_-", the whole code when
    it has none, and never contains the separator; the route type is that
    of the mode of the service, a number from 0 to 4.  [get_routes] raises
    nothing but an [AttributeError], and none for a document without
    [Route] elements. *)
Theorem get_routes_short_names (gtfs_info : list row) (route_elements : list route_element)
    (Service : list (list string)) :
  (forall routes,
      get_routes gtfs_info route_elements Service = Ok routes ->
      Forall2 (fun e r =>
                 rt_route_id r = route_element_id e
                 /\ Description e = [rt_route_long_name r]
                 /\ (exists ref, RouteSectionRef e = [ref])
                 /\ contains "-_-" (rt_route_short_name r) = false
                 /\ (PrivateCode e = [rt_route_short_name r]
                     \/ exists rest,
                          PrivateCode e = [rt_route_short_name r ++ "-_-" ++ rest])
                 /\ get_route_type Service = Ok (rt_route_type r)
                 /\ 0 <= rt_route_type r <= 4)
              route_elements routes)
  /\ (forall e, get_routes gtfs_info route_elements Service = Raise e ->
                e = AttributeError)
  /\ (route_elements = [] -> get_routes gtfs_info route_elements Service = Ok []).
Proof.
  split; [|split].
  - intros routes H. apply get_routes_rows in H. revert H. apply Forall2_weaken.
    intros e r (code & Hcode & Hshort & Hid & Hlong & Href & Htype & _).
    destruct (split_scan_first "-_-" "" code) as [p [rest [Hs [Hp Hq]]]];
      [discriminate|].
    unfold split in Hshort. rewrite Hs in Hshort. cbn in Hshort.
    injection Hshort as <-.
    repeat split; try assumption.
    + destruct Hq as [->|[q ->]]; [now left | right; now exists q].
    + now apply (get_route_type_range Service).
    + now apply (get_route_type_range Service).
  - intros e H. unfold get_routes in H.
    apply (mapM_raises _ _ _ AttributeError) in H; [exact H|].
    intros x e'. rewrite agencies_of_route_first. cbn [bind].
    destruct (cdata (Description x)) as [long|] eqn:Hlong; cbn [bind];
      [|intros [= <-]; now apply cdata_raises in Hlong].
    destruct (cdata (PrivateCode x)) as [code|] eqn:Hcode; cbn [bind];
      [|intros [= <-]; now apply cdata_raises in Hcode].
    destruct (split_scan_first "-_-" "" code) as [p [rest [Hs _]]]; [discriminate|].
    unfold split. rewrite Hs. cbn [Py.index nth_error bind].
    destruct (cdata (RouteSectionRef x)) as [ref|] eqn:Href; cbn [bind];
      [|intros [= <-]; now apply cdata_raises in Href].
    destruct (get_route_type Service) as [t|] eqn:Ht; cbn [bind];
      [discriminate | intros [= <-]; now apply get_route_type_raises in Ht].
  - intros ->. reflexivity.
Qed.

(** When [get_routes] returns, the agency of a route in the routes table
    is that of the first row of the frame with the route, and
    "UNKNOWN_AGENCY" when the frame has no row with the route, as for a
    [Route] element without an [id]. *)
Theorem get_routes_agency (gtfs_info : list row) (route_elements : list route_element)
    (Service : list (list string)) (routes : list route) :
  get_routes gtfs_info route_elements Service = Ok routes ->
  Forall2 (fun e r =>
             rt_agency_id r
             = match route_element_id e with
               | Some id =>
                   match find (fun x => String.eqb (route_id x) id) gtfs_info with
                   | Some x => agency_id x
                   | None => "UNKNOWN_AGENCY"
                   end
               | None => "UNKNOWN_AGENCY"
               end)
          route_elements routes.
Proof.
  intros H. apply get_routes_rows in H. revert H. apply Forall2_weaken.
  intros e r (code & _ & _ & _ & _ & _ & _ & Hagency). exact Hagency.
Qed.

End RouteRows.

(** ** Journeys and their sections *)

Section Journeys.

Import Py StopTimes TransXChange Timetable Sections.

Lemma find_filter {A : Type} (p : A -> bool) (l : list A) (x : A) :
  find p l = Some x -> exists rest, filter p l = x :: rest.
Proof.
  induction l as [|y l IH]; cbn [find filter]; [discriminate|].
  destruct (p y); [intros [= ->]; eauto | exact IH].
Qed.

(** A journey whose pattern and departure time are read goes on to walk
    the sections that its pattern names. *)
Lemma journey_step_walk (jps : list jp_info) (sections : list section)
    (sod snod : option string) (st : run_state) (j : vehicle_journey) (jp : jp_info)
    (hour minute second : Z) :
  pattern_of_journey jps j = Some jp ->
  parse_departure_time (DepartureTime j) = Ok (hour, minute, second) ->
  journey_step jps sections sod snod st j
  = (ss <- for_each (section_step (context_of jp j sod snod hour minute)
                                  (section_references jps (JourneyPatternRef j)))
             {| ss_current_dt := None; ss_stop_num := 1;
                ss_section_times := rs_section_times st |}
             (sections_of_journey jps sections j) ;;
     match ss_section_times ss with
     | Some section_times =>
         Ok {| rs_gtfs_info := (rs_gtfs_info st ++ section_times)%list;
               rs_section_times := Some section_times |}
     | None => Raise UnboundLocalError
     end).
Proof.
  unfold pattern_of_journey, sections_of_journey. intros Hjp Hdep.
  destruct (find_filter _ _ _ Hjp) as [found Hf].
  unfold journey_step, section_references.
  destruct jps as [|jp0 jps0] eqn:Ejps; [discriminate Hjp|]. rewrite <- Ejps in *.
  cbn [bind]. rewrite Hf. cbn [Py.index nth_error bind]. rewrite Hdep. cbn [bind].
  fold (context_of jp j sod snod hour minute).
  now rewrite sections_loop_matching.
Qed.

Lemma generate_service_id_clear (stop_times : list row) :
  map (set_service_id None) (generate_service_id stop_times)
  = map (set_service_id None) stop_times.
Proof.
  rewrite generate_service_id_rows, map_map. apply map_ext. now intros [].
Qed.

(** *** A journey without a section *)

Lemma section_step_times (ctx : journey_context) (refs : list string)
    (st st' : section_state) (sec : section) :
  section_step ctx refs st sec = Ok st' ->
  ss_section_times st' = ss_section_times st
  \/ exists rows info, ss_section_times st' = Some (rows ++ [info])%list.
Proof.
  unfold section_step. destruct (negb _); [intros [= <-]; now left|].
  destruct (match JourneyPatternTimingLink sec with [] => _ | _ => _ end) as [links|];
    cbn [bind]; [|discriminate].
  destruct (for_each _ _ links) as [ls|]; cbn [bind]; [|discriminate].
  destruct (ls_last ls) as [[link duration]|]; [|discriminate].
  destruct (ls_current_dt ls); [|discriminate].
  intros [= <-]. right. cbn. eauto.
Qed.

Lemma sections_loop_times (ctx : journey_context) (refs : list string)
    (secs : list section) (st st' : section_state) :
  for_each (section_step ctx refs) st secs = Ok st' ->
  ss_section_times st' = ss_section_times st
  \/ exists rows info, ss_section_times st' = Some (rows ++ [info])%list.
Proof.
  revert st. induction secs as [|sec secs IH]; intros st; cbn [for_each].
  - intros [= <-]. now left.
  - destruct (section_step ctx refs st sec) as [st1|] eqn:H1; cbn [bind]; [|discriminate].
    intros H. destruct (IH _ H) as [E|E]; [|now right].
    rewrite E. now apply (section_step_times ctx refs st st1 sec).
Qed.

Lemma journey_step_times (jps : list jp_info) (sections : list section)
    (sod snod : option string) (st st' : run_state) (j : vehicle_journey) :
  journey_step jps sections sod snod st j = Ok st' ->
  (forall x, rs_section_times st = Some x -> x <> []) ->
  exists rows, rows <> [] /\ rs_section_times st' = Some rows
               /\ rs_gtfs_info st' = (rs_gtfs_info st ++ rows)%list.
Proof.
  unfold journey_step. intros H Hst.
  repeat match type of H with
         | bind (for_each ?f ?s ?l) _ = Ok _ =>
             let E := fresh "Eloop" in
             destruct (for_each f s l) as [ss|] eqn:E; cbn [bind] in H; [|discriminate H]
         | bind ?m _ = Ok _ =>
             let x := fresh in destruct m as [x|]; cbn [bind] in H; [|discriminate H]
         | (let (_, _) := ?p in _) = Ok _ => destruct p
         end.
  destruct (ss_section_times ss) as [rows|] eqn:Ess; [|discriminate H].
  injection H as <-. exists rows. cbn. repeat split.
  destruct (sections_loop_times _ _ _ _ _ Eloop) as [E|[r [info E]]].
  - cbn in E. apply Hst. congruence.
  - rewrite Ess in E. injection E as ->. now destruct r.
Qed.

Lemma journeys_loop_times (jps : list jp_info) (sections : list section)
    (sod snod : option string) (js : list vehicle_journey) (st st' : run_state) :
  for_each (journey_step jps sections sod snod) st js = Ok st' ->
  js <> [] ->
  (forall x, rs_section_times st = Some x -> x <> []) ->
  exists pre rows, rows <> [] /\ rs_section_times st' = Some rows
                   /\ rs_gtfs_info st' = (pre ++ rows)%list.
Proof.
  revert st. induction js as [|j js IH]; intros st H Hne Hst; [congruence|].
  cbn [for_each] in H.
  destruct (journey_step jps sections sod snod st j) as [st1|] eqn:H1; cbn [bind] in H;
    [|discriminate H].
  destruct (journey_step_times _ _ _ _ _ _ _ H1 Hst) as [rows [Hrows [Ht Hg]]].
  destruct js as [|j2 js].
  - injection H as <-. eauto.
  - apply (IH st1 H); [discriminate|]. intros x Hx. congruence.
Qed.

Lemma journey_step_no_section (jps : list jp_info) (sections : list section)
    (sod snod : option string) (st : run_state) (j : vehicle_journey) (jp : jp_info)
    (hour minute second : Z) :
  pattern_of_journey jps j = Some jp ->
  parse_departure_time (DepartureTime j) = Ok (hour, minute, second) ->
  sections_of_journey jps sections j = [] ->
  journey_step jps sections sod snod st j
  = match rs_section_times st with
    | Some section_times =>
        Ok {| rs_gtfs_info := (rs_gtfs_info st ++ section_times)%list;
              rs_section_times := Some section_times |}
    | None => Raise UnboundLocalError
    end.
Proof.
  intros Hjp Hdep Hsec. rewrite (journey_step_walk _ _ _ _ _ _ _ _ _ _ Hjp Hdep), Hsec.
  reflexivity.
Qed.

(** A journey whose pattern names no section of the document, met first in
    a run, makes the run fail with an [UnboundLocalError]: the rows of a
    section are read before a section has set them. *)
Theorem process_vehicle_journeys_no_section (jps : list jp_info) (sections : list section)
    (sod snod : option string) (j : vehicle_journey) (after : list vehicle_journey)
    (jp : jp_info) (hour minute second : Z) :
  pattern_of_journey jps j = Some jp ->
  parse_departure_time (DepartureTime j) = Ok (hour, minute, second) ->
  sections_of_journey jps sections j = [] ->
  process_vehicle_journeys (j :: after) jps sections sod snod = Raise UnboundLocalError.
Proof.
  intros Hjp Hdep Hsec. unfold process_vehicle_journeys. cbn [for_each].
  rewrite (journey_step_no_section _ _ _ _ _ _ _ _ _ _ Hjp Hdep Hsec). reflexivity.
Qed.

(** A journey whose pattern names no section of the document, met after
    other journeys, adds no row of its own: the run appends once more the
    rows that the journey before it left, under the identifiers of that
    journey. *)
Theorem process_vehicle_journeys_repeats_rows (jps : list jp_info)
    (sections : list section) (sod snod : option string)
    (before : list vehicle_journey) (j : vehicle_journey) (out : list row)
    (jp : jp_info) (hour minute second : Z) :
  before <> [] ->
  process_vehicle_journeys before jps sections sod snod = Ok out ->
  pattern_of_journey jps j = Some jp ->
  parse_departure_time (DepartureTime j) = Ok (hour, minute, second) ->
  sections_of_journey jps sections j = [] ->
  exists pre rows out',
    rows <> []
    /\ map (set_service_id None) out = (pre ++ rows)%list
    /\ process_vehicle_journeys (before ++ [j]) jps sections sod snod = Ok out'
    /\ map (set_service_id None) out' = (pre ++ rows ++ rows)%list.
Proof.
  intros Hne Hout Hjp Hdep Hsec. unfold process_vehicle_journeys in *.
  destruct (for_each _ _ before) as [st|] eqn:Hloop; cbn [bind] in Hout; [|discriminate].
  injection Hout as <-.
  destruct (journeys_loop_times _ _ _ _ _ _ _ Hloop Hne) as [pre [rows [Hrows [Ht Hg]]]];
    [discriminate|].
  exists (map (set_service_id None) pre), (map (set_service_id None) rows).
  eexists. split; [now destruct rows|]. split.
  - now rewrite generate_service_id_clear, Hg, map_app.
  - rewrite for_each_app, Hloop. cbn [bind for_each].
    rewrite (journey_step_no_section _ _ _ _ _ _ _ _ _ _ Hjp Hdep Hsec), Ht.
    cbn [bind rs_gtfs_info]. split; [reflexivity|].
    now rewrite generate_service_id_clear, Hg, !map_app, <- app_assoc.
Qed.

(** *** Several sections *)

Lemma link_step_shape (ctx : journey_context) (trip : string) (link : timing_link)
    (cur : option datetime) (n d : Z) (rows : list row) (lst : option (timing_link * Z)) :
  parse_runtime_duration (RunTime link) = Ok d ->
  (cur = None -> is_ok (combine_time (ctx_hour ctx) (ctx_minute ctx)) = true) ->
  exists c' row,
    link_step ctx trip
      {| ls_current_dt := cur; ls_stop_num := n; ls_section_times := rows;
         ls_last := lst |} link
    = Ok {| ls_current_dt := Some c'; ls_stop_num := n + 1;
            ls_section_times := (rows ++ [row])%list; ls_last := Some (link, d) |}
    /\ trip_id row = trip
    /\ vehicle_journey_id row = ctx_vehicle_journey_id ctx
    /\ stop_sequence row = n.
Proof.
  intros Hd Hc. destruct cur as [c|].
  - rewrite (link_step_next _ _ _ _ _ _ _ _ Hd). do 2 eexists. split; [reflexivity|].
    now cbn.
  - destruct (combine_time (ctx_hour ctx) (ctx_minute ctx)) as [start|] eqn:Es;
      [|now specialize (Hc eq_refl)].
    rewrite (link_step_first _ _ _ _ _ _ _ _ Hd Es). do 2 eexists.
    split; [reflexivity|]. now cbn.
Qed.

Lemma links_loop_shape (ctx : journey_context) (trip : string) (links : list timing_link)
    (ds : list Z) (cur : option datetime) (n : Z) (rows : list row)
    (lst : option (timing_link * Z)) :
  mapM parse_runtime_duration (map RunTime links) = Ok ds ->
  links <> [] ->
  (cur = None -> is_ok (combine_time (ctx_hour ctx) (ctx_minute ctx)) = true) ->
  exists c' new l d,
    for_each (link_step ctx trip)
      {| ls_current_dt := cur; ls_stop_num := n; ls_section_times := rows;
         ls_last := lst |} links
    = Ok {| ls_current_dt := Some c'; ls_stop_num := n + Z.of_nat (List.length links);
            ls_section_times := (rows ++ new)%list; ls_last := Some (l, d) |}
    /\ List.length new = List.length links
    /\ Forall (fun r => trip_id r = trip
                        /\ vehicle_journey_id r = ctx_vehicle_journey_id ctx) new
    /\ map stop_sequence new
       = map (fun k => n + Z.of_nat k) (seq 0 (List.length links)).
Proof.
  revert ds cur n rows lst. induction links as [|link links IH];
    intros ds cur n rows lst Hds Hne Hc; [congruence|].
  cbn [map] in Hds. apply mapM_cons in Hds as (d & ds' & -> & Hd & Hds).
  destruct (link_step_shape ctx trip link cur n d rows lst Hd Hc)
    as [c1 [row [Hstep [Htrip [Hvj Hseq]]]]].
  cbn [for_each]. rewrite Hstep. cbn [bind].
  destruct links as [|link2 links].
  - cbn [for_each]. exists c1, [row], link, d. cbn. repeat split.
    + repeat constructor; assumption.
    + now rewrite Hseq, Z.add_0_r.
  - destruct (IH ds' (Some c1) (n + 1) (rows ++ [row])%list (Some (link, d)) Hds)
      as [c' [new [l [d' [Hloop [Hlen [Hall Hseqs]]]]]]]; [discriminate.. |].
    rewrite Hloop. exists c', (row :: new), l, d'. repeat split.
    + f_equal. f_equal; [cbn [List.length]; lia | now rewrite <- app_assoc].
    + cbn [List.length]. now rewrite Hlen.
    + constructor; [split|]; assumption.
    + cbn [map]. rewrite Hseq, Hseqs.
      change (seq 0 (List.length (link :: link2 :: links)))
        with (0%nat :: seq 1 (List.length (link2 :: links))).
      cbn [map]. rewrite Z.add_0_r. f_equal.
      rewrite <- seq_shift, map_map. apply map_ext. intros k. lia.
Qed.

Lemma section_step_shape (ctx : journey_context) (refs : list string) (sec : section)
    (cur : option datetime) (n : Z) (stale : option (list row)) :
  existsb (String.eqb (section_id sec)) refs = true ->
  walkable sec ->
  (cur = None -> is_ok (combine_time (ctx_hour ctx) (ctx_minute ctx)) = true) ->
  exists c' rows,
    section_step ctx refs
      {| ss_current_dt := cur; ss_stop_num := n; ss_section_times := stale |} sec
    = Ok {| ss_current_dt := Some c';
            ss_stop_num := n + Z.of_nat (List.length (JourneyPatternTimingLink sec));
            ss_section_times := Some rows |}
    /\ List.length rows = S (List.length (JourneyPatternTimingLink sec))
    /\ Forall (fun r => trip_id r = trip_id_of ctx sec
                        /\ vehicle_journey_id r = ctx_vehicle_journey_id ctx) rows
    /\ map stop_sequence rows
       = map (fun k => n + Z.of_nat k)
             (seq 0 (S (List.length (JourneyPatternTimingLink sec)))).
Proof.
  intros Hm [Hne Hok] Hc. unfold section_step. rewrite Hm. cbn [negb].
  fold (trip_id_of ctx sec).
  destruct (mapM parse_runtime_duration (map RunTime (JourneyPatternTimingLink sec)))
    as [ds|] eqn:Hds; [|discriminate].
  destruct (links_loop_shape ctx (trip_id_of ctx sec) _ ds cur n [] None Hds Hne Hc)
    as [c' [new [l [d [Hloop [Hlen [Hall Hseq]]]]]]].
  destruct (JourneyPatternTimingLink sec) as [|l1 links] eqn:El; [congruence|].
  cbn [bind ss_current_dt ss_stop_num]. rewrite Hloop.
  cbn [bind ls_last ls_current_dt ls_stop_num ls_section_times app].
  rewrite last_stop_row_eq. do 2 eexists. split; [reflexivity|]. repeat split.
  - rewrite length_app, Hlen. cbn [List.length]. lia.
  - apply Forall_app. split; [exact Hall|]. repeat constructor.
  - rewrite map_app, Hseq. cbn [map stop_sequence stop_row].
    now rewrite (seq_S (List.length (l1 :: links))), map_app.
Qed.

Lemma sections_loop_shape (ctx : journey_context) (refs : list string)
    (secs : list section) (cur : option datetime) (n : Z) (stale : option (list row)) :
  Forall (fun sec => existsb (String.eqb (section_id sec)) refs = true /\ walkable sec)
         secs ->
  (cur = None -> is_ok (combine_time (ctx_hour ctx) (ctx_minute ctx)) = true) ->
  exists cur' stale',
    for_each (section_step ctx refs)
      {| ss_current_dt := cur; ss_stop_num := n; ss_section_times := stale |} secs
    = Ok {| ss_current_dt := cur';
            ss_stop_num :=
              n + Z.of_nat (List.length (flat_map JourneyPatternTimingLink secs));
            ss_section_times := stale' |}
    /\ (cur' = None -> is_ok (combine_time (ctx_hour ctx) (ctx_minute ctx)) = true).
Proof.
  revert cur n stale. induction secs as [|sec secs IH]; intros cur n stale Hall Hc.
  - exists cur, stale. cbn. now rewrite Z.add_0_r.
  - inversion Hall as [|? ? [Hm Hw] Hrest]; subst.
    destruct (section_step_shape ctx refs sec cur n stale Hm Hw Hc)
      as [c1 [rows [Hstep _]]].
    cbn [for_each]. rewrite Hstep. cbn [bind].
    destruct (IH (Some c1) (n + Z.of_nat (List.length (JourneyPatternTimingLink sec)))
                 (Some rows) Hrest) as [cur' [stale' [Hloop Hcur]]]; [discriminate|].
    rewrite Hloop. exists cur', stale'. split; [|exact Hcur].
    cbn [flat_map]. rewrite length_app. f_equal. f_equal. lia.
Qed.

Lemma sections_of_journey_match (jps : list jp_info) (sections : list section)
    (j : vehicle_journey) :
  Forall (fun sec =>
            existsb (String.eqb (section_id sec))
                    (section_references jps (JourneyPatternRef j)) = true)
         (sections_of_journey jps sections j).
Proof.
  apply Forall_forall. intros sec H. unfold sections_of_journey, matching_sections in H.
  now apply filter_In in H.
Qed.

Lemma combine_time_ok (hour minute : Z) :
  0 <= hour <= 23 -> 0 <= minute <= 59 -> is_ok (combine_time hour minute) = true.
Proof.
  intros Hh Hm. unfold combine_time.
  replace ((0 <=? hour) && (hour <=? 23) && (0 <=? minute) && (minute <=? 59)) with true;
    [reflexivity|].
  symmetry. rewrite !andb_true_iff, !Z.leb_le. lia.
Qed.

(** The rows of a journey whose sections can all be walked, the clock
    staying within the range of [datetime]. *)
Lemma last_section_rows (jps : list jp_info)
    (sections : list section) (sod snod : option string) (j : vehicle_journey)
    (jp : jp_info) (hour minute second : Z) (earlier : list section) (sec : section) :
  pattern_of_journey jps j = Some jp ->
  parse_departure_time (DepartureTime j) = Ok (hour, minute, second) ->
  is_ok (combine_time hour minute) = true ->
  sections_of_journey jps sections j = (earlier ++ [sec])%list ->
  Forall walkable (earlier ++ [sec]) ->
  exists out,
    process_vehicle_journeys [j] jps sections sod snod = Ok out
    /\ List.length out = S (List.length (JourneyPatternTimingLink sec))
    /\ Forall (fun r => trip_id r = trip_id_of (context_of jp j sod snod hour minute) sec
                        /\ vehicle_journey_id r = VehicleJourneyCode j) out
    /\ map stop_sequence out
       = map (fun k => 1 + Z.of_nat (List.length (flat_map JourneyPatternTimingLink
                                                           earlier))
                       + Z.of_nat k)
             (seq 0 (S (List.length (JourneyPatternTimingLink sec)))).
Proof.
  intros Hjp Hdep Hc Hsecs Hwalk.
  set (ctx := context_of jp j sod snod hour minute).
  set (refs := section_references jps (JourneyPatternRef j)).
  pose proof (sections_of_journey_match jps sections j) as Hmatch.
  rewrite Hsecs in Hmatch. fold refs in Hmatch.
  apply Forall_app in Hmatch. destruct Hmatch as [Hm1 Hm2].
  apply Forall_app in Hwalk. destruct Hwalk as [Hw1 Hw2].
  inversion Hm2 as [|? ? Hmsec _]; subst. inversion Hw2 as [|? ? Hwsec _]; subst.
  assert (Hearlier : Forall (fun s => existsb (String.eqb (section_id s)) refs = true
                                      /\ walkable s) earlier).
  { apply Forall_forall. intros s Hs. split.
    - now apply (proj1 (Forall_forall _ _) Hm1).
    - now apply (proj1 (Forall_forall _ _) Hw1). }
  destruct (sections_loop_shape ctx refs earlier None 1 None Hearlier (fun _ => Hc))
    as [cur' [stale' [Hloop Hcur]]].
  destruct (section_step_shape ctx refs sec cur'
              (1 + Z.of_nat (List.length (flat_map JourneyPatternTimingLink earlier)))
              stale' Hmsec Hwsec Hcur) as [c' [rows [Hstep [Hlen [Hall Hseq]]]]].
  exists (generate_service_id rows). split; [|repeat split].
  - unfold process_vehicle_journeys. cbn [for_each].
    rewrite (journey_step_walk _ _ _ _ _ _ _ _ _ _ Hjp Hdep), Hsecs.
    fold ctx refs. rewrite for_each_app. cbn [rs_section_times].
    rewrite Hloop. cbn [bind for_each]. rewrite Hstep. reflexivity.
  - rewrite generate_service_id_rows, length_map. exact Hlen.
  - apply Forall_forall. intros r Hr. apply generate_service_id_In in Hr.
    destruct Hr as [r0 [Hr0 ->]]. exact (proj1 (Forall_forall _ _) Hall r0 Hr0).
  - rewrite generate_service_id_rows, map_map. exact Hseq.
Qed.

(** *** What a run that returns has walked *)

Lemma link_step_walked (ctx : journey_context) (trip : string) (st st' : link_state)
    (link : timing_link) :
  link_step ctx trip st link = Ok st' ->
  is_ok (parse_runtime_duration (RunTime link)) = true
  /\ (ls_current_dt st = None ->
      is_ok (combine_time (ctx_hour ctx) (ctx_minute ctx)) = true)
  /\ ls_current_dt st' <> None.
Proof.
  unfold link_step.
  destruct (parse_runtime_duration (RunTime link)) as [d|]; cbn [bind]; [|discriminate].
  destruct (ls_current_dt st) as [c|]; cbn [bind].
  - destruct (get_midnight_formatted_times _ _ _ _ _). intros [= <-].
    repeat split; discriminate.
  - destruct (combine_time (ctx_hour ctx) (ctx_minute ctx)) as [start|]; cbn [bind];
      [|discriminate].
    destruct (get_midnight_formatted_times _ _ _ _ _). intros [= <-].
    repeat split; discriminate.
Qed.

Lemma links_loop_walked (ctx : journey_context) (trip : string) (links : list timing_link)
    (st st' : link_state) :
  for_each (link_step ctx trip) st links = Ok st' ->
  is_ok (mapM parse_runtime_duration (map RunTime links)) = true
  /\ (links <> [] -> ls_current_dt st = None ->
      is_ok (combine_time (ctx_hour ctx) (ctx_minute ctx)) = true).
Proof.
  revert st. induction links as [|link links IH]; intros st H.
  - split; [reflexivity | congruence].
  - cbn [for_each] in H.
    destruct (link_step ctx trip st link) as [st1|] eqn:H1; cbn [bind] in H;
      [|discriminate H].
    destruct (link_step_walked _ _ _ _ _ H1) as (Hd & Hc & _).
    destruct (IH st1 H) as [Hds _]. split; [|intros _; exact Hc].
    cbn [map mapM].
    destruct (parse_runtime_duration (RunTime link)); [|discriminate Hd].
    cbn [bind]. now destruct (mapM parse_runtime_duration (map RunTime links)).
Qed.

Lemma section_step_walked (ctx : journey_context) (refs : list string)
    (st st' : section_state) (sec : section) :
  existsb (String.eqb (section_id sec)) refs = true ->
  section_step ctx refs st sec = Ok st' ->
  walkable sec
  /\ (ss_current_dt st = None ->
      is_ok (combine_time (ctx_hour ctx) (ctx_minute ctx)) = true)
  /\ ss_current_dt st' <> None.
Proof.
  intros Hm. unfold section_step, walkable. rewrite Hm. cbn [negb].
  destruct (JourneyPatternTimingLink sec) as [|l links] eqn:El; cbn [bind];
    [discriminate|].
  destruct (for_each _ _ (l :: links)) as [ls|] eqn:Hloop; cbn [bind]; [|discriminate].
  destruct (links_loop_walked _ _ _ _ _ Hloop) as [Hds Hc].
  destruct (ls_last ls) as [[link duration]|]; [|discriminate].
  destruct (ls_current_dt ls) as [c|] eqn:Ec; [|discriminate].
  intros [= <-]. cbn [ss_current_dt]. split; [split|split].
  - discriminate.
  - exact Hds.
  - apply Hc. discriminate.
  - discriminate.
Qed.

Lemma sections_loop_walked (ctx : journey_context) (refs : list string)
    (secs : list section) (st st' : section_state) :
  Forall (fun sec => existsb (String.eqb (section_id sec)) refs = true) secs ->
  for_each (section_step ctx refs) st secs = Ok st' ->
  Forall walkable secs
  /\ (secs <> [] -> ss_current_dt st = None ->
      is_ok (combine_time (ctx_hour ctx) (ctx_minute ctx)) = true).
Proof.
  revert st. induction secs as [|sec secs IH]; intros st Hall H.
  - split; [constructor | congruence].
  - inversion Hall as [|? ? Hm Hrest]; subst. cbn [for_each] in H.
    destruct (section_step ctx refs st sec) as [st1|] eqn:H1; cbn [bind] in H;
      [|discriminate H].
    destruct (section_step_walked _ _ _ _ _ Hm H1) as (Hw & Hc & _).
    destruct (IH st1 Hrest H) as [Hws _].
    split; [now constructor | intros _; exact Hc].
Qed.

(** Of the sections that the pattern of a journey names, the rows of the
    last one alone reach the frame of a run that returns: as many rows as
    that section has links and one more, all of the trip of that section,
    numbered on from the links of the sections before it, whose stops are
    left out. *)
Theorem process_vehicle_journeys_last_section (jps : list jp_info)
    (sections : list section) (sod snod : option string) (j : vehicle_journey)
    (jp : jp_info) (hour minute second : Z) (earlier : list section) (sec : section)
    (out : list row) :
  pattern_of_journey jps j = Some jp ->
  parse_departure_time (DepartureTime j) = Ok (hour, minute, second) ->
  sections_of_journey jps sections j = (earlier ++ [sec])%list ->
  process_vehicle_journeys [j] jps sections sod snod = Ok out ->
  List.length out = S (List.length (JourneyPatternTimingLink sec))
  /\ Forall (fun r => trip_id r = trip_id_of (context_of jp j sod snod hour minute) sec
                      /\ vehicle_journey_id r = VehicleJourneyCode j) out
  /\ map stop_sequence out
     = map (fun k => 1 + Z.of_nat (List.length (flat_map JourneyPatternTimingLink
                                                         earlier))
                     + Z.of_nat k)
           (seq 0 (S (List.length (JourneyPatternTimingLink sec)))).
Proof.
  intros Hjp Hdep Hsecs Hout.
  assert (Hwalked : Forall walkable (earlier ++ [sec])
                    /\ is_ok (combine_time hour minute) = true).
  { pose proof Hout as H. unfold process_vehicle_journeys in H. cbn [for_each] in H.
    rewrite (journey_step_walk _ _ _ _ _ _ _ _ _ _ Hjp Hdep), Hsecs in H.
    destruct (for_each _ _ (earlier ++ [sec])) as [ss|] eqn:Hloop;
      [|discriminate H].
    pose proof (sections_of_journey_match jps sections j) as Hmatch.
    rewrite Hsecs in Hmatch.
    destruct (sections_loop_walked _ _ _ _ _ Hmatch Hloop) as [Hw Hc].
    split; [exact Hw|]. apply Hc; [now destruct earlier | reflexivity]. }
  destruct Hwalked as [Hwalk Hc].
  destruct (last_section_rows jps sections sod snod j jp hour minute second earlier sec
              Hjp Hdep Hc Hsecs Hwalk) as [out0 [Hrun Hshape]].
  rewrite Hrun in Hout. injection Hout as <-. exact Hshape.
Qed.

(** *** The departure time *)

Lemma parse_departure_time_raises (departure_time : string) (e : exn) :
  parse_departure_time departure_time = Raise e -> e = ValueError.
Proof.
  unfold parse_departure_time.
  destruct (split ":" departure_time) as [|a [|b [|c [|x l]]]]; try congruence.
  destruct (int a) as [h|e1] eqn:Ha; cbn [bind];
    [|intros [= <-]; now apply int_raises in Ha].
  destruct (int b) as [m|e2] eqn:Hb; cbn [bind];
    [|intros [= <-]; now apply int_raises in Hb].
  destruct (int c) as [x|e3] eqn:Hc; cbn [bind];
    [discriminate | intros [= <-]; now apply int_raises in Hc].
Qed.

Lemma journey_step_departure (jps : list jp_info) (sections : list section)
    (sod snod : option string) (st : run_state) (j : vehicle_journey) (jp : jp_info)
    (e : exn) :
  pattern_of_journey jps j = Some jp ->
  parse_departure_time (DepartureTime j) = Raise e ->
  journey_step jps sections sod snod st j = Raise ValueError.
Proof.
  unfold pattern_of_journey. intros Hjp Hdep.
  destruct (find_filter _ _ _ Hjp) as [found Hf].
  unfold journey_step.
  destruct jps as [|jp0 jps0] eqn:Ejps; [discriminate Hjp|]. rewrite <- Ejps in *.
  cbn [bind]. rewrite Hf. cbn [Py.index nth_error bind]. rewrite Hdep. cbn [bind].
  now rewrite (parse_departure_time_raises _ _ Hdep).
Qed.



End Journeys.

(** ** Runtime codes, clock hours and service identifiers, continued *)

Section Further.

Import Py StopTimes TransXChange Services.

Lemma split_scan_PT (x r cur : string) :
  all_chars (is_not "P") x = true ->
  split_scan "PT" 0 cur (x ++ "PT" ++ r) = (cur ++ x) :: split_scan "PT" 0 "" r.
Proof.
  revert cur. induction x as [|c x IH]; intros cur Hx.
  - cbn [append split_scan]. rewrite !prefix_cons, prefix_nil. cbn.
    now rewrite append_nil_r.
  - cbn [all_chars] in Hx. apply andb_prop in Hx. destruct Hx as [Hc Hx].
    cbn [append split_scan]. rewrite prefix_cons.
    unfold is_not in Hc. apply negb_true_iff in Hc. rewrite Ascii.eqb_sym in Hc.
    rewrite Hc. cbn [andb]. rewrite (IH _ Hx). now rewrite append_snoc.
Qed.

(** Whatever stands before the first "PT" of a runtime code is not read:
    the code gives what it gives without it.  A sign before the code is
    lost in this way. *)
Theorem parse_runtime_duration_ignores_prefix (x r : string) :
  all_chars (is_not "P") x = true ->
  parse_runtime_duration (x ++ "PT" ++ r) = parse_runtime_duration ("PT" ++ r).
Proof.
  intros Hx.
  pose proof (split_scan_PT x r "" Hx) as H1.
  pose proof (split_scan_PT "" r "" eq_refl) as H2.
  cbn [append] in H1, H2. unfold parse_runtime_duration, split. cbn [append].
  rewrite H1, H2.
  destruct (split_scan "PT" 0 "" r); reflexivity.
Qed.

Lemma parse_runtime_duration_ignores_prefix_witness :
  parse_runtime_duration "-PT5M" = parse_runtime_duration "PT5M"
  /\ parse_runtime_duration "PT5M" = Ok 300.
Proof.
  split; [|reflexivity].
  exact (parse_runtime_duration_ignores_prefix "-" "5M" eq_refl).
Defined.

(** The hours that [get_midnight_formatted_times] gives are never below
    the hour in which the journey starts: an arrival hour below it is
    replaced by an hour of 24 or more, and any other is kept. *)
Theorem get_midnight_formatted_times_floor
    (arrival_hour departure_hour hour : Z) (current_dt departure_dt : datetime) :
  hour <= 24 ->
  hour <= fst (get_midnight_formatted_times arrival_hour departure_hour hour
                                            current_dt departure_dt)
  /\ (arrival_hour < hour ->
      24 <= fst (get_midnight_formatted_times arrival_hour departure_hour hour
                                              current_dt departure_dt)
      /\ 24 <= snd (get_midnight_formatted_times arrival_hour departure_hour hour
                                                 current_dt departure_dt))
  /\ (hour <= arrival_hour ->
      get_midnight_formatted_times arrival_hour departure_hour hour
                                   current_dt departure_dt
      = (arrival_hour, departure_hour)).
Proof.
  intros Hh. unfold get_midnight_formatted_times, td_seconds.
  destruct (arrival_hour <? hour) eqn:E.
  - apply Z.ltb_lt in E. cbn [fst snd].
    pose proof (Z.mod_pos_bound
                  (td_div (td_div (dt_sub current_dt (23 * 3600 + 59 * 60 + 59)) 60) 60
                   / 1000000) 86400 eq_refl) as H1.
    pose proof (Z.mod_pos_bound
                  (td_div (td_div (dt_sub departure_dt (23 * 3600 + 59 * 60 + 59)) 60) 60
                   / 1000000) 86400 eq_refl) as H2.
    repeat split; try lia.
  - apply Z.ltb_ge in E. cbn [fst snd]. repeat split; try lia.
Qed.

Lemma get_midnight_formatted_times_floor_witness :
  8 <= fst (get_midnight_formatted_times 0 0 8 (86400 + 600) (86400 + 600))
  /\ fst (get_midnight_formatted_times 0 0 8 (86400 + 600) (86400 + 600)) = 24.
Proof.
  split; [|reflexivity].
  exact (proj1 (get_midnight_formatted_times_floor 0 0 8 (86400 + 600) (86400 + 600)
                  ltac:(lia))).
Defined.

Lemma calendar_info_of_generate (stop_times : list row) :
  calendar_info_of (generate_service_id stop_times) = calendar_info_of stop_times.
Proof.
  unfold calendar_info_of. now rewrite generate_service_id_clear.
Qed.

(** [generate_service_id] is idempotent: the identifiers depend on the
    other columns only, and the other columns are left as they are. *)
Theorem generate_service_id_idempotent (stop_times : list row) :
  generate_service_id (generate_service_id stop_times) = generate_service_id stop_times.
Proof.
  rewrite (generate_service_id_rows (generate_service_id stop_times)).
  rewrite calendar_info_of_generate.
  rewrite (generate_service_id_rows stop_times), map_map. apply map_ext.
  intros r. reflexivity.
Qed.

(** In a frame whose journeys have one weekly pattern each, the rows that
    are left without a service identifier are exactly the rows of the
    journeys without a weekly pattern. *)
Theorem generate_service_id_null (stop_times : list row) (r : row) :
  consistent stop_times ->
  In r (generate_service_id stop_times) ->
  (service_id r = None <-> weekdays r = None).
Proof.
  intros Hc Hr. apply generate_service_id_In in Hr. destruct Hr as [r0 [Hin ->]].
  cbn [service_id weekdays set_service_id]. unfold assigned.
  rewrite (journey_weekdays_row _ _ Hc Hin).
  destruct (weekdays r0) as [wd|] eqn:Hwd; [|tauto].
  destruct (group_service_id_first _ _ _ Hc Hin Hwd) as [g [_ [_ ->]]].
  split; discriminate.
Qed.

End Further.

(** ** The index of journey patterns, and the frame of a document *)

Section Index.

Import Py StopTimes TransXChange Untangle Routes Dates ServicePatterns Pipeline.
Import Timetable Sections PatternIndex.

Lemma get_direction_ok (text : string) (direction : Z) :
  get_direction text = Ok direction ->
  (text = "inbound" /\ direction = 0) \/ (text = "outbound" /\ direction = 1).
Proof.
  unfold get_direction.
  destruct (String.eqb_spec text "inbound") as [->|_]; [intros [= <-]; auto|].
  destruct (String.eqb_spec text "outbound") as [->|_]; [intros [= <-]; auto|].
  discriminate.
Qed.


Lemma pattern_step_row (s : service) (description : string) (mode : Z)
    (line code agency start_date end_date : string)
    (acc acc' : list service_jp_row) (jp : journey_pattern) :
  pattern_step s description mode line code agency start_date end_date acc jp = Ok acc' ->
  exists row,
    acc' = (acc ++ [row])%list
    /\ jp_journey_pattern_id (read_columns row) = journey_pattern_id jp
    /\ JourneyPatternSectionRefs jp = [jp_section_reference (read_columns row)]
    /\ RouteRef jp = [jp_route_id (read_columns row)]
    /\ heads s jp (jp_direction_id (read_columns row)) (jp_trip_headsign (read_columns row))
    /\ jp_agency_id (read_columns row) = agency
    /\ jp_travel_mode (read_columns row) = Some mode
    /\ jp_start_date (read_columns row) = start_date
    /\ jp_end_date (read_columns row) = end_date.
Proof.
  unfold pattern_step. intros H.
  destruct (cdata (JourneyPatternSectionRefs jp)) as [ref|] eqn:Href; cbn [bind] in H;
    [|discriminate].
  destruct (cdata (Direction jp)) as [text|] eqn:Htext; cbn [bind] in H; [|discriminate].
  destruct (get_direction text) as [direction|] eqn:Hdir; cbn [bind] in H; [|discriminate].
  destruct (if direction =? 0 then _ else _) as [headsign|] eqn:Hhead; cbn [bind] in H;
    [|discriminate].
  destruct (cdata (RouteRef jp)) as [route|] eqn:Hroute; cbn [bind] in H; [|discriminate].
  injection H as <-. eexists. split; [reflexivity|]. cbn.
  apply cdata_ok in Href, Htext, Hroute. repeat split; try assumption.
  unfold heads. destruct (get_direction_ok _ _ Hdir) as [[-> ->]|[-> ->]];
    cbn in Hhead; apply cdata_ok in Hhead; auto.
Qed.

Lemma patterns_loop_rows (s : service) (description : string) (mode : Z)
    (line code agency start_date end_date : string) (jps : list journey_pattern)
    (acc acc' : list service_jp_row) :
  for_each (pattern_step s description mode line code agency start_date end_date) acc jps
  = Ok acc' ->
  exists rows,
    acc' = (acc ++ rows)%list
    /\ Forall2 (fun jp row =>
                  jp_journey_pattern_id (read_columns row) = journey_pattern_id jp
                  /\ JourneyPatternSectionRefs jp = [jp_section_reference (read_columns row)]
                  /\ RouteRef jp = [jp_route_id (read_columns row)]
                  /\ heads s jp (jp_direction_id (read_columns row))
                           (jp_trip_headsign (read_columns row))
                  /\ jp_agency_id (read_columns row) = agency
                  /\ jp_travel_mode (read_columns row) = Some mode
                  /\ jp_start_date (read_columns row) = start_date
                  /\ jp_end_date (read_columns row) = end_date)
               jps rows.
Proof.
  revert acc. induction jps as [|jp jps IH]; intros acc; cbn [for_each].
  - intros [= <-]. exists []. split; [now rewrite app_nil_r | constructor].
  - destruct (pattern_step _ _ _ _ _ _ _ _ acc jp) as [acc1|] eqn:H1; cbn [bind];
      [|discriminate].
    intros H. destruct (pattern_step_row _ _ _ _ _ _ _ _ _ _ _ H1) as [row [-> Hrow]].
    destruct (IH _ H) as [rows [-> Hrows]].
    exists (row :: rows). split; [now rewrite <- app_assoc | now constructor].
Qed.

Lemma service_step_rows (acc acc' : list service_jp_row) (s : service) :
  service_step acc s = Ok acc' ->
  exists rows,
    acc' = (acc ++ rows)%list
    /\ Forall2 (fun jp row => row_of_pattern (s, jp) row) (JourneyPattern s) rows.
Proof.
  unfold service_step. intros H.
  destruct (match Lines s with [] => _ | _ => _ end) as [line|]; cbn [bind] in H;
    [|discriminate].
  destruct (cdata (ServiceCode s)) as [code|]; cbn [bind] in H; [|discriminate].
  destruct (cdata (RegisteredOperatorRef s)) as [agency|] eqn:Hagency; cbn [bind] in H;
    [|discriminate].
  destruct (cdata (StartDate s)) as [start|] eqn:Hstart; cbn [bind] in H; [|discriminate].
  destruct (reformat_date start) as [start_date|] eqn:Hsd; cbn [bind] in H; [|discriminate].
  destruct (match EndDate s with Some _ => _ | None => _ end) as [end_date|] eqn:Hed;
    cbn [bind] in H; [|discriminate].
  destruct (JourneyPattern s) as [|jp0 jps0] eqn:Hjps; cbn [bind] in H; [discriminate|].
  destruct (patterns_loop_rows _ _ _ _ _ _ _ _ _ _ _ H) as [rows [-> Hrows]].
  exists rows. split; [reflexivity|].
  apply cdata_ok in Hagency, Hstart.
  eapply Forall2_impl; [|exact Hrows]. cbn beta.
  intros jp row (Hid & Href & Hroute & Hheads & Hag & Hmode & Hs & He).
  unfold row_of_pattern. rewrite Hag, Hs, He. repeat split; try assumption.
  - rewrite Hmode. now destruct (Mode s).
  - now exists start.
  - destruct (EndDate s); [exact Hed | now injection Hed].
Qed.

Lemma services_loop_rows (services : list service) (acc acc' : list service_jp_row) :
  for_each service_step acc services = Ok acc' ->
  exists rows,
    acc' = (acc ++ rows)%list /\ Forall2 row_of_pattern (patterns_of services) rows.
Proof.
  revert acc. induction services as [|s services IH]; intros acc; cbn [for_each].
  - intros [= <-]. exists []. split; [now rewrite app_nil_r | constructor].
  - destruct (service_step acc s) as [acc1|] eqn:H1; cbn [bind]; [|discriminate].
    intros H. destruct (service_step_rows _ _ _ H1) as [rows1 [-> Hrows1]].
    destruct (IH _ H) as [rows [-> Hrows]].
    exists (rows1 ++ rows)%list. split; [now rewrite <- app_assoc|].
    unfold patterns_of. cbn [flat_map]. apply Forall2_app; [|exact Hrows].
    clear -Hrows1. induction Hrows1; cbn [map]; constructor; assumption.
Qed.

Lemma service_index_rows (services : list service) (rows : list service_jp_row) :
  get_service_journey_pattern_info services = Ok rows ->
  Forall2 row_of_pattern (patterns_of services) rows.
Proof.
  intros H. destruct (services_loop_rows _ _ _ H) as [rows' [-> Hrows]]. exact Hrows.
Qed.

Lemma Forall2_In_l {A B : Type} (R : A -> B -> Prop) (l1 : list A) (l2 : list B) (a : A) :
  Forall2 R l1 l2 -> In a l1 -> exists b, In b l2 /\ R a b.
Proof.
  induction 1 as [|x y l1 l2 Hxy _ IH]; intros Hin; [contradiction|].
  destruct Hin as [<-|Hin]; [exists y; simpl; auto|].
  destruct (IH Hin) as [b [Hb Hab]]. exists b. simpl. auto.
Qed.

Lemma Forall2_In_r {A B : Type} (R : A -> B -> Prop) (l1 : list A) (l2 : list B) (b : B) :
  Forall2 R l1 l2 -> In b l2 -> exists a, In a l1 /\ R a b.
Proof.
  induction 1 as [|x y l1 l2 Hxy _ IH]; intros Hin; [contradiction|].
  destruct Hin as [<-|Hin]; [exists x; simpl; auto|].
  destruct (IH Hin) as [a [Ha Hab]]. exists a. simpl. auto.
Qed.

Lemma patterns_of_In (services : list service) (s : service) (jp : journey_pattern) :
  In (s, jp) (patterns_of services) <-> In s services /\ In jp (JourneyPattern s).
Proof.
  unfold patterns_of. rewrite in_flat_map. split.
  - intros [s' [Hs Hin]]. apply in_map_iff in Hin. destruct Hin as [jp' [[= -> ->] Hjp]].
    auto.
  - intros [Hs Hjp]. exists s. split; [exact Hs | now apply in_map].
Qed.

(** When [get_service_journey_pattern_info] returns, the frame has one row
    for each journey pattern of each service, in document order: the row
    has the identifier, the section reference and the route of the
    pattern, the operator and the converted dates of its service (the end
    date "20991231" when the service has none), the number of its mode,
    direction 0 and the origin of the service as headsign for an inbound
    pattern, direction 1 and the destination for an outbound one. *)
Theorem get_service_journey_pattern_info_rows (services : list service)
    (rows : list service_jp_row) :
  get_service_journey_pattern_info services = Ok rows ->
  Forall2 row_of_pattern (patterns_of services) rows.
Proof. apply service_index_rows. Qed.

(** [get_service_journey_pattern_info] returns no frame for a document
    with a journey pattern whose direction is neither "inbound" nor
    "outbound", or which has not exactly one [JourneyPatternSectionRefs]
    element: one such pattern anywhere makes the call raise. *)
Theorem get_service_journey_pattern_info_rejects (services : list service)
    (s : service) (jp : journey_pattern) :
  In s services -> In jp (JourneyPattern s) ->
  (Direction jp <> ["inbound"] /\ Direction jp <> ["outbound"])
  \/ List.length (JourneyPatternSectionRefs jp) <> 1%nat ->
  is_ok (get_service_journey_pattern_info services) = false.
Proof.
  intros Hs Hjp Hbad.
  destruct (get_service_journey_pattern_info services) as [rows|] eqn:H; [|reflexivity].
  exfalso. apply service_index_rows in H.
  destruct (Forall2_In_l _ _ _ (s, jp) H) as [row [_ Hrow]];
    [now apply patterns_of_In|].
  destruct Hrow as (_ & Href & _ & _ & Hheads & _).
  destruct Hbad as [[Hin Hout]|Hlen].
  - destruct Hheads as [[Hd _]|[Hd _]]; congruence.
  - rewrite Href in Hlen. now apply Hlen.
Qed.

(** *** The frame of a document *)

Lemma index_lookup (services : list service) (rows : list service_jp_row)
    (j : vehicle_journey) :
  Forall2 row_of_pattern (patterns_of services) rows ->
  (exists s jp, In (s, jp) (patterns_of services)
                /\ journey_pattern_id jp = JourneyPatternRef j) ->
  exists row s jp,
    pattern_of_journey (map read_columns rows) j = Some (read_columns row)
    /\ In row rows /\ In (s, jp) (patterns_of services)
    /\ row_of_pattern (s, jp) row
    /\ journey_pattern_id jp = JourneyPatternRef j.
Proof.
  intros Hrows [s0 [jp0 [Hin0 Hid0]]]. unfold pattern_of_journey.
  destruct (Forall2_In_l _ _ _ _ Hrows Hin0) as [row0 [Hrow0 Hdesc0]].
  rewrite find_map.
  destruct (find (fun x => String.eqb (jp_journey_pattern_id (read_columns x))
                                      (JourneyPatternRef j)) rows) as [row|] eqn:Hfind.
  - destruct (find_some _ _ Hfind) as [Hrow Hid]. apply String.eqb_eq in Hid.
    destruct (Forall2_In_r _ _ _ _ Hrows Hrow) as [[s jp] [Hin Hdesc]].
    exists row, s, jp. split; [reflexivity|]. split; [exact Hrow|].
    split; [exact Hin|]. split; [exact Hdesc|].
    destruct Hdesc as [Hjp _]. congruence.
  - exfalso. apply (find_none _ _ Hfind) in Hrow0.
    destruct Hdesc0 as [Hjp _]. rewrite Hjp, Hid0, String.eqb_refl in Hrow0.
    discriminate.
Qed.

(** The frame of a document that lacks a part.  Without vehicle journeys
    the frame is empty.  With journeys and without services the call
    raises a [KeyError].  With a first journey whose pattern is in the
    document, and without journey pattern sections, it raises an
    [UnboundLocalError]. *)
Theorem get_gtfs_info_missing_parts (data : document) :
  (VehicleJourney data = [] ->
   is_ok (get_service_journey_pattern_info (Service data)) = true ->
   get_gtfs_info data = Ok [])
  /\ (Service data = [] -> VehicleJourney data <> [] ->
      get_gtfs_info data = Raise KeyError)
  /\ (forall j after s jp hour minute second,
        VehicleJourney data = j :: after ->
        JourneyPatternSection data = [] ->
        is_ok (get_service_journey_pattern_info (Service data)) = true ->
        In s (Service data) -> In jp (JourneyPattern s) ->
        journey_pattern_id jp = JourneyPatternRef j ->
        parse_departure_time (DepartureTime j) = Ok (hour, minute, second) ->
        get_gtfs_info data = Raise UnboundLocalError).
Proof.
  unfold get_gtfs_info. repeat split.
  - intros Hj Hok. rewrite Hj.
    destruct (get_service_journey_pattern_info (Service data)); [reflexivity|discriminate].
  - intros Hs Hj. rewrite Hs. cbn [get_service_journey_pattern_info for_each bind map].
    destruct (VehicleJourney data) as [|j after]; [congruence|].
    unfold process_vehicle_journeys. cbn [for_each].
    rewrite journey_step_unresolved by (intros ? []). reflexivity.
  - intros j after s jp hour minute second Hj Hsec Hok Hs Hjp Hid Hdep.
    rewrite Hj, Hsec.
    destruct (get_service_journey_pattern_info (Service data)) as [rows|] eqn:Hrows;
      [|discriminate].
    cbn [bind]. apply service_index_rows in Hrows.
    destruct (index_lookup _ _ j Hrows) as [row [s' [jp' [Hfind _]]]].
    { exists s, jp. split; [now apply patterns_of_In | exact Hid]. }
    unfold process_vehicle_journeys. cbn [for_each].
    rewrite (journey_step_no_section _ _ _ _ _ _ _ _ _ _ Hfind Hdep); reflexivity.
Qed.

(** *** The rows of a journey *)

Lemma link_step_journey (jp : jp_info) (j : vehicle_journey) (sod snod : option string)
    (hour minute : Z) (trip : string) (st st' : link_state) (link : timing_link) :
  link_step (context_of jp j sod snod hour minute) trip st link = Ok st' ->
  exists row, ls_section_times st' = (ls_section_times st ++ [row])%list
              /\ row_of_journey jp j row.
Proof.
  unfold link_step. intros H.
  destruct (parse_runtime_duration (RunTime link)) as [d|]; cbn [bind] in H;
    [|discriminate].
  destruct (match ls_current_dt st with None => _ | Some _ => _ end)
    as [[[current_dt departure_dt] timepoint]|]; cbn [bind] in H; [|discriminate].
  destruct (get_midnight_formatted_times _ _ _ _ _) as [arrival_hour departure_hour].
  injection H as <-. eexists. split; [reflexivity|].
  unfold row_of_journey. cbn. repeat split.
Qed.

Lemma links_loop_journey (jp : jp_info) (j : vehicle_journey) (sod snod : option string)
    (hour minute : Z) (trip : string) (links : list timing_link) (st st' : link_state) :
  for_each (link_step (context_of jp j sod snod hour minute) trip) st links = Ok st' ->
  Forall (row_of_journey jp j) (ls_section_times st) ->
  Forall (row_of_journey jp j) (ls_section_times st').
Proof.
  revert st. induction links as [|link links IH]; intros st; cbn [for_each].
  - now intros [= <-].
  - destruct (link_step _ trip st link) as [st1|] eqn:H1; cbn [bind]; [|discriminate].
    intros H Hst. apply (IH st1 H).
    destruct (link_step_journey _ _ _ _ _ _ _ _ _ _ H1) as [row [-> Hrow]].
    apply Forall_app. split; [exact Hst | now constructor].
Qed.

Lemma section_step_journey (jp : jp_info) (j : vehicle_journey) (sod snod : option string)
    (hour minute : Z) (refs : list string) (st st' : section_state) (sec : section) :
  section_step (context_of jp j sod snod hour minute) refs st sec = Ok st' ->
  ss_section_times st' = ss_section_times st
  \/ exists rows, ss_section_times st' = Some rows /\ Forall (row_of_journey jp j) rows.
Proof.
  unfold section_step. destruct (negb _); [intros [= <-]; now left|].
  destruct (match JourneyPatternTimingLink sec with [] => _ | _ => _ end) as [links|];
    cbn [bind]; [|discriminate].
  destruct (for_each _ _ links) as [ls|] eqn:Hloop; cbn [bind]; [|discriminate].
  destruct (ls_last ls) as [[link duration]|]; [|discriminate].
  destruct (ls_current_dt ls); [|discriminate].
  intros [= <-]. right. eexists. split; [reflexivity|].
  apply Forall_app. split.
  - apply (links_loop_journey _ _ _ _ _ _ _ _ _ _ Hloop). constructor.
  - constructor; [|constructor]. rewrite last_stop_row_eq.
    unfold row_of_journey. cbn. repeat split.
Qed.

Lemma sections_loop_journey (jp : jp_info) (j : vehicle_journey) (sod snod : option string)
    (hour minute : Z) (refs : list string) (secs : list section)
    (st st' : section_state) :
  for_each (section_step (context_of jp j sod snod hour minute) refs) st secs = Ok st' ->
  ss_section_times st' = ss_section_times st
  \/ exists rows, ss_section_times st' = Some rows /\ Forall (row_of_journey jp j) rows.
Proof.
  revert st. induction secs as [|sec secs IH]; intros st; cbn [for_each].
  - intros [= <-]. now left.
  - destruct (section_step _ refs st sec) as [st1|] eqn:H1; cbn [bind]; [|discriminate].
    intros H. destruct (IH _ H) as [E|E]; [|now right].
    rewrite E. now apply (section_step_journey _ _ _ _ _ _ _ _ _ _ H1).
Qed.

Lemma pattern_of_journey_none (jps : list jp_info) (j : vehicle_journey) :
  pattern_of_journey jps j = None ->
  forall jp, In jp jps -> jp_journey_pattern_id jp <> JourneyPatternRef j.
Proof.
  unfold pattern_of_journey. intros H jp Hin Hid.
  apply (find_none _ _ H) in Hin. rewrite Hid, String.eqb_refl in Hin. discriminate.
Qed.

Lemma journey_step_journey (jps : list jp_info) (sections : list section)
    (sod snod : option string) (st st' : run_state) (j : vehicle_journey) :
  journey_step jps sections sod snod st j = Ok st' ->
  exists rows,
    rs_section_times st' = Some rows
    /\ rs_gtfs_info st' = (rs_gtfs_info st ++ rows)%list
    /\ (rs_section_times st = Some rows
        \/ exists jp, pattern_of_journey jps j = Some jp
                      /\ Forall (row_of_journey jp j) rows).
Proof.
  intros H. destruct (pattern_of_journey jps j) as [jp|] eqn:Hjp.
  - destruct (parse_departure_time (DepartureTime j)) as [[[hour minute] second]|e]
      eqn:Hdep.
    + rewrite (journey_step_walk _ _ _ _ _ _ _ _ _ _ Hjp Hdep) in H.
      destruct (for_each _ _ (sections_of_journey jps sections j)) as [ss|] eqn:Hloop;
        cbn [bind] in H; [|discriminate].
      destruct (ss_section_times ss) as [rows|] eqn:Hss; [|discriminate].
      injection H as <-. exists rows. cbn. repeat split.
      destruct (sections_loop_journey _ _ _ _ _ _ _ _ _ _ Hloop) as [E|[rows' [E Hrows]]].
      * left. cbn in E. congruence.
      * right. exists jp. split; [reflexivity|]. congruence.
    + rewrite (journey_step_departure _ _ _ _ _ _ _ _ Hjp Hdep) in H. discriminate.
  - rewrite (journey_step_unresolved _ _ _ _ _ _ (pattern_of_journey_none _ _ Hjp)) in H.
    discriminate.
Qed.

Lemma journeys_loop_journey (jps : list jp_info) (sections : list section)
    (sod snod : option string) (all js : list vehicle_journey) (st st' : run_state) :
  let known r := exists j jp, In j all /\ pattern_of_journey jps j = Some jp
                              /\ row_of_journey jp j r in
  (forall j, In j js -> In j all) ->
  for_each (journey_step jps sections sod snod) st js = Ok st' ->
  Forall known (rs_gtfs_info st) ->
  (forall rows, rs_section_times st = Some rows -> Forall known rows) ->
  Forall known (rs_gtfs_info st').
Proof.
  intros known. revert st. induction js as [|j js IH]; intros st Hall; cbn [for_each].
  - now intros [= <-].
  - destruct (journey_step jps sections sod snod st j) as [st1|] eqn:H1; cbn [bind];
      [|discriminate].
    intros H Hg Ht.
    destruct (journey_step_journey _ _ _ _ _ _ _ H1) as [rows [Ht1 [Hg1 Hrows]]].
    assert (Hknown : Forall known rows).
    { destruct Hrows as [E|[jp [Hjp Hrows]]]; [now apply Ht|].
      eapply Forall_impl; [|exact Hrows]. intros r Hr. exists j, jp.
      split; [apply Hall; now left | auto]. }
    apply (IH st1); try assumption.
    + intros j' Hj'. apply Hall. now right.
    + rewrite Hg1. apply Forall_app. auto.
    + intros rows' E. rewrite Ht1 in E. now injection E as <-.
Qed.

Lemma row_of_journey_service_id (jp : jp_info) (j : vehicle_journey) (r : row)
    (sid : option string) :
  row_of_journey jp j r -> row_of_journey jp j (set_service_id sid r).
Proof. intros H. exact H. Qed.

Lemma process_rows_known (vjourneys : list vehicle_journey) (jps : list jp_info)
    (sections : list section) (sod snod : option string) (out : list row) :
  process_vehicle_journeys vjourneys jps sections sod snod = Ok out ->
  Forall (fun r => exists j jp, In j vjourneys /\ pattern_of_journey jps j = Some jp
                                /\ row_of_journey jp j r) out.
Proof.
  unfold process_vehicle_journeys. intros H.
  destruct (for_each _ _ vjourneys) as [st|] eqn:Hloop; cbn [bind] in H; [|discriminate].
  injection H as <-.
  pose proof (journeys_loop_journey jps sections sod snod vjourneys vjourneys _ _
                (fun _ Hj => Hj) Hloop) as Hknown.
  cbn zeta in Hknown.
  assert (Hrows : Forall (fun r => exists j jp, In j vjourneys
                                     /\ pattern_of_journey jps j = Some jp
                                     /\ row_of_journey jp j r) (rs_gtfs_info st)).
  { apply Hknown; [constructor | intros rows E; discriminate E]. }
  apply Forall_forall. intros r Hr. apply generate_service_id_In in Hr.
  destruct Hr as [r0 [Hr0 ->]].
  destruct (proj1 (Forall_forall _ _) Hrows r0 Hr0) as [j [jp [Hj [Hjp Hrow]]]].
  exists j, jp. split; [exact Hj|]. split; [exact Hjp|].
  now apply row_of_journey_service_id.
Qed.

(** Every row of the frame of [process_vehicle_journeys] is the row of a
    journey of the input: it has the code and the service of the journey,
    and the operator, route, direction, line, headsign and dates of the
    first row of the index that has the pattern of the journey. *)
Theorem process_vehicle_journeys_rows_of_journeys (vjourneys : list vehicle_journey)
    (jps : list jp_info) (sections : list section) (sod snod : option string)
    (out : list row) :
  process_vehicle_journeys vjourneys jps sections sod snod = Ok out ->
  forall r, In r out ->
    exists j jp, In j vjourneys /\ pattern_of_journey jps j = Some jp
                 /\ row_of_journey jp j r.
Proof.
  intros H. apply Forall_forall.
  exact (process_rows_known vjourneys jps sections sod snod out H).
Qed.

(** Every row of the frame of a document has direction 0 or 1, and is the
    row of a vehicle journey and of a journey pattern of the document with
    the identifier that the journey names: the row has the route of the
    pattern and the operator of its service, with direction 0 and the
    origin of the service as headsign when the pattern is inbound, with
    direction 1 and the destination when it is outbound. *)
Theorem get_gtfs_info_rows (data : document) (frame : list row) :
  get_gtfs_info data = Ok frame ->
  forall r, In r frame ->
    (direction_id r = 0 \/ direction_id r = 1)
    /\ exists j s jp,
         In j (VehicleJourney data) /\ In s (Service data) /\ In jp (JourneyPattern s)
         /\ journey_pattern_id jp = JourneyPatternRef j
         /\ vehicle_journey_id r = VehicleJourneyCode j
         /\ RouteRef jp = [route_id r]
         /\ RegisteredOperatorRef s = [agency_id r]
         /\ heads s jp (direction_id r) (trip_headsign r).
Proof.
  unfold get_gtfs_info. intros H r Hr.
  destruct (get_service_journey_pattern_info (Service data)) as [rows|] eqn:Hrows;
    cbn [bind] in H; [|discriminate].
  apply service_index_rows in Hrows.
  destruct (proj1 (Forall_forall _ _) (process_rows_known _ _ _ _ _ _ H) r Hr)
    as [j [jpi [Hj [Hfind Hrow]]]].
  unfold pattern_of_journey in Hfind. destruct (find_some _ _ Hfind) as [Hin Hid].
  apply String.eqb_eq in Hid. apply in_map_iff in Hin. destruct Hin as [row [<- Hin]].
  destruct (Forall2_In_r _ _ _ _ Hrows Hin) as [[s jp] [Hsp Hdesc]].
  apply patterns_of_In in Hsp. destruct Hsp as [Hs Hjp].
  destruct Hdesc as (Hjid & _ & Hroute & Hagency & Hheads & _).
  destruct Hrow as (Hvj & _ & Hag & Hrt & Hdir & _ & Hhead & _).
  rewrite <- Hag in Hagency. rewrite <- Hrt in Hroute.
  rewrite <- Hdir, <- Hhead in Hheads. split.
  - destruct Hheads as [(_ & E & _)|(_ & E & _)]; auto.
  - exists j, s, jp. repeat split; try assumption. congruence.
Qed.

End Index.

(** ** Stops *)

Section StopRows.

Import Untangle Stops StopIndex.

Context {Coord : Type}.

Lemma stop_step_cases (naptan_stops stop_data : list (naptan_stop Coord)) (ref : string) :
  stop_step naptan_stops stop_data [ref]
  = match stops_with_id naptan_stops ref with
    | [] => Ok stop_data
    | [s] => Ok (stop_data ++ [s])%list
    | _ => Raise ValueError
    end.
Proof.
  unfold stop_step, stops_with_id. cbn [cdata bind].
  destruct (filter _ naptan_stops) as [|s [|s' l]]; reflexivity.
Qed.

Lemma stop_step_no_ref (naptan_stops stop_data : list (naptan_stop Coord))
    (p : list string) :
  (forall ref, p <> [ref]) -> stop_step naptan_stops stop_data p = Raise AttributeError.
Proof.
  intros H. unfold stop_step. destruct p as [|ref [|ref' l]]; try reflexivity.
  now destruct (H ref).
Qed.

Lemma stops_loop_ok (naptan_stops : list (naptan_stop Coord)) (refs : list string)
    (stop_data : list (naptan_stop Coord)) :
  (forall ref, In ref refs -> (List.length (stops_with_id naptan_stops ref) <= 1)%nat) ->
  for_each (stop_step naptan_stops) stop_data (map (fun ref => [ref]) refs)
  = Ok (stop_data ++ flat_map (stops_with_id naptan_stops) refs)%list.
Proof.
  revert stop_data. induction refs as [|ref refs IH]; intros stop_data H;
    cbn [map for_each].
  - cbn. now rewrite app_nil_r.
  - rewrite stop_step_cases. pose proof (H ref (or_introl eq_refl)) as Href.
    cbn [flat_map].
    destruct (stops_with_id naptan_stops ref) as [|s [|s' l]]; cbn [bind].
    + apply IH. intros r Hr. apply H. now right.
    + rewrite IH by (intros r Hr; apply H; now right). now rewrite <- app_assoc.
    + cbn in Href. lia.
Qed.

Lemma stops_loop_fails (naptan_stops : list (naptan_stop Coord)) (refs : list string)
    (ref : string) (stop_data : list (naptan_stop Coord)) :
  In ref refs -> (1 < List.length (stops_with_id naptan_stops ref))%nat ->
  for_each (stop_step naptan_stops) stop_data (map (fun ref => [ref]) refs)
  = Raise ValueError.
Proof.
  revert stop_data. induction refs as [|r refs IH]; intros stop_data Hin Hlen;
    [contradiction|].
  cbn [map for_each]. rewrite stop_step_cases.
  destruct (stops_with_id naptan_stops r) as [|s [|s' l]] eqn:Hr; cbn [bind];
    try reflexivity.
  - destruct Hin as [->|Hin]; [rewrite Hr in Hlen; cbn in Hlen; lia | now apply IH].
  - destruct Hin as [->|Hin]; [rewrite Hr in Hlen; cbn in Hlen; lia | now apply IH].
Qed.

Lemma stops_with_id_known (naptan_stops : list (naptan_stop Coord)) (ref : string) :
  (List.length (stops_with_id naptan_stops ref) <= 1)%nat ->
  map ns_stop_id (stops_with_id naptan_stops ref)
  = if known_stop naptan_stops ref then [ref] else [].
Proof.
  unfold stops_with_id, known_stop.
  induction naptan_stops as [|s l IH]; cbn [filter existsb]; [reflexivity|].
  destruct (String.eqb_spec (ns_stop_id s) ref) as [E|_]; cbn [orb].
  - cbn [List.length map]. intros H. rewrite E.
    destruct (filter _ l) eqn:Hf; [|cbn in H; lia].
    cbn [map]. specialize (IH ltac:(cbn; lia)). cbn [map] in IH.
    now destruct (existsb _ l).
  - exact IH.
Qed.

Lemma stops_elements (naptan_stops : list (naptan_stop Coord))
    (elements : list (list string)) :
  elements <> [] ->
  _get_txc_21_style_stops naptan_stops elements
  = for_each (stop_step naptan_stops) [] elements.
Proof. destruct elements; [congruence | reflexivity]. Qed.

(** The stops of a document in the TransXChange 2.1 style.  A document
    without [AnnotatedStopPointRef] elements makes the call raise an
    [AttributeError], and so does an element without its one
    [StopPointRef], when the elements before it are read.  Of elements
    that each have their reference: a reference to an identifier that the
    NaPTAN frame has more than once makes the call raise a [ValueError];
    otherwise the call gives, for the references in document order, the
    NaPTAN rows of those that the frame knows: a reference that it does
    not know is passed over, and one that the document repeats is given
    again. *)
Theorem get_txc_21_style_stops_rows (naptan_stops : list (naptan_stop Coord)) :
  _get_txc_21_style_stops naptan_stops [] = Raise AttributeError
  /\ (forall (before : list string) (p : list string) (after : list (list string)),
        (forall ref, In ref before ->
                     (List.length (stops_with_id naptan_stops ref) <= 1)%nat) ->
        (forall ref, p <> [ref]) ->
        _get_txc_21_style_stops naptan_stops
          (map (fun ref => [ref]) before ++ p :: after)
        = Raise AttributeError)
  /\ (forall (refs : list string) (ref : string),
        In ref refs ->
        (1 < List.length (stops_with_id naptan_stops ref))%nat ->
        _get_txc_21_style_stops naptan_stops (map (fun ref => [ref]) refs)
        = Raise ValueError)
  /\ (forall refs : list string,
        refs <> [] ->
        (forall ref, In ref refs ->
                     (List.length (stops_with_id naptan_stops ref) <= 1)%nat) ->
        exists stops,
          _get_txc_21_style_stops naptan_stops (map (fun ref => [ref]) refs) = Ok stops
          /\ map ns_stop_id stops = filter (known_stop naptan_stops) refs
          /\ forall s, In s stops -> In s naptan_stops).
Proof.
  split; [reflexivity|]. split; [|split].
  - intros before p after Hbefore Hp.
    rewrite stops_elements by (now destruct before).
    rewrite for_each_app, (stops_loop_ok naptan_stops before [] Hbefore).
    cbn [bind for_each]. now rewrite stop_step_no_ref.
  - intros refs ref Hin Hlen.
    rewrite stops_elements by (now destruct refs).
    now apply (stops_loop_fails naptan_stops refs ref).
  - intros refs Hne H.
    rewrite stops_elements by (now destruct refs).
    rewrite (stops_loop_ok naptan_stops refs [] H). cbn [app].
    eexists. split; [reflexivity|]. split.
    + clear Hne. induction refs as [|ref refs IH]; [reflexivity|].
      cbn [flat_map filter]. rewrite map_app.
      rewrite stops_with_id_known by (apply H; now left).
      rewrite IH by (intros r Hr; apply H; now right).
      now destruct (known_stop naptan_stops ref).
    + intros s Hs. apply in_flat_map in Hs. destruct Hs as [ref [_ Hs]].
      unfold stops_with_id in Hs. now apply filter_In in Hs.
Qed.

End StopRows.

(** ** The statements on sample frames and documents *)

Section Trials.

Import Py StopTimes Calendar TransXChange Weekday WeekdaySets CalendarTable CalendarRows.
Import TripsTable CalendarDates Routes Trips Services Timetable Sections Exceptions.
Import Dates Untangle ServicePatterns Pipeline PatternIndex Stops StopIndex.
Import Samples Cases.

Lemma parse_day_range_only_key_error_witness :
  parse_day_range (Some "HolidaysOnly") = Raise KeyError
  /\ KeyError = KeyError /\ Some "HolidaysOnly" <> None.
Proof.
  split; [reflexivity|].
  exact (parse_day_range_only_key_error (Some "HolidaysOnly") KeyError eq_refl).
Defined.

Lemma parse_day_range_single_name_witness :
  parse_day_range (Some "MONDAY")
  = Ok [("monday", 1); ("tuesday", 0); ("wednesday", 0); ("thursday", 0);
        ("friday", 0); ("saturday", 0); ("sunday", 0)]
  /\ parse_day_range (Some "Someday") = Raise KeyError.
Proof.
  split.
  - exact (proj1 (parse_day_range_single_name "MONDAY") Monday eq_refl).
  - apply (proj2 (parse_day_range_single_name "Someday")); try reflexivity.
    intros []; discriminate.
Defined.

Lemma get_weekday_info_day_elements_witness :
  parse_day_range (get_weekday_info (Some ["Saturday"; "Monday"; "Saturday"]))
  = Ok [("monday", 1); ("tuesday", 0); ("wednesday", 0); ("thursday", 0);
        ("friday", 0); ("saturday", 1); ("sunday", 0)]
  /\ parse_day_range (get_weekday_info (Some [])) = Raise KeyError.
Proof.
  split.
  - exact (proj1 (get_weekday_info_day_elements ["Saturday"; "Monday"; "Saturday"]
                    [Saturday; Monday; Saturday] eq_refl)
                 ltac:(discriminate)).
  - exact (proj2 (get_weekday_info_day_elements [] [] eq_refl) eq_refl).
Defined.

Lemma get_weekday_info_range_among_days_witness :
  parse_day_range (get_weekday_info (Some ["MondayToFriday"; "Saturday"]))
  = Raise KeyError.
Proof.
  apply (get_weekday_info_range_among_days [] ["Saturday"] [] [Saturday]
           "Monday" "Friday" Monday Friday); [reflexivity.. | right; discriminate].
Defined.

Lemma parse_day_range_weekend_anywhere_witness :
  parse_day_range (Some "Monday|Weekend")
  = Ok [("monday", 0); ("tuesday", 0); ("wednesday", 0); ("thursday", 0);
        ("friday", 0); ("saturday", 1); ("sunday", 1)].
Proof.
  exact (parse_day_range_weekend_anywhere "Monday|" "Weekend" "" eq_refl).
Defined.

Lemma get_calendar_fails_witness :
  get_calendar holiday_frame = Raise KeyError
  /\ (exists e, get_calendar with_and_without = Raise e)
  /\ is_ok (get_calendar three_journeys) = true.
Proof.
  split; [|split; [|reflexivity]].
  - apply (proj2 (proj2 (proj2 (proj2 (get_calendar_fails holiday_frame))))).
    + intros r [<-|[<-|[]]]; discriminate.
    + exists (sample_row "T2" "VJ2" "SVC1" "20240101" "20241231" (Some "HolidaysOnly") 1).
      split; [simpl; auto | reflexivity].
  - apply (proj1 (get_calendar_fails with_and_without)).
    exists (sample_row "T2" "VJ2" "SVC1" "20240101" "20241231" None 1).
    split; [simpl; auto | left; reflexivity].
Defined.

Lemma get_calendar_entries_witness :
  exists calendar,
    get_calendar (generate_service_id three_journeys) = Ok calendar
    /\ map cal_service_id calendar
       = [Some "SVC1_20240101_20241231_MondayToFriday";
          Some "SVC1_20240101_20241231_Weekend"]
    /\ forall r, In r (generate_service_id three_journeys) ->
                 exists c, In c calendar /\ entry_of r = Ok c.
Proof.
  eexists. split; [reflexivity|]. split; [reflexivity|].
  exact (proj1 (get_calendar_entries (generate_service_id three_journeys) _ eq_refl)).
Defined.

Lemma get_trips_one_row_per_key_witness :
  map tr_trip_id (get_trips short_and_long) = ["T1"; "T2"]
  /\ exists first,
       find (fun x => trip_key_eqb (trip_key x) ("R1", None, "T2")) short_and_long
       = Some first
       /\ stop_sequence first = 1.
Proof.
  split; [reflexivity|].
  destruct (proj2 (get_trips_one_row_per_key short_and_long)
              (sample_row "T2" "VJ2" "SVC1" "20240101" "20241231"
                          (Some "MondayToFriday") 2)
              ltac:(simpl; auto))
    as [first [Hfind _]].
  exists first. split; [exact Hfind|].
  vm_compute in Hfind. injection Hfind as <-. reflexivity.
Defined.

Lemma get_stop_times_records_witness :
  map st_stop_sequence (get_stop_times short_and_long) = [1; 2]
  /\ (2 <= List.length (trip_rows "T2" (get_stop_times short_and_long)))%nat.
Proof.
  split; [reflexivity|].
  exact (proj2 (proj2 (get_stop_times_records short_and_long)
                  (select_stop_times_cols
                     (sample_row "T2" "VJ2" "SVC1" "20240101" "20241231"
                                 (Some "MondayToFriday") 2))
                  ltac:(vm_compute; auto))).
Defined.

Lemma tables_references_resolve_witness :
  exists t, In t (get_trips short_and_long) /\ tr_trip_id t = "T2".
Proof.
  exact (proj1 (tables_references_resolve short_and_long)
           (select_stop_times_cols
              (sample_row "T2" "VJ2" "SVC1" "20240101" "20241231"
                          (Some "MondayToFriday") 2))
           ltac:(vm_compute; auto)).
Defined.

Lemma get_calendar_dates_without_rows_witness :
  get_calendar_dates (fun _ => Some ["20241225"; "20241226"])
    [exception_row (Some "S1") None; exception_row (Some "S2") (Some "")]
  = Ok None
  /\ get_calendar_dates (fun _ => @Some (list string) []) exception_frame
     = Raise KeyError.
Proof.
  split.
  - apply (proj1 (get_calendar_dates_without_rows
                    (fun _ => Some ["20241225"; "20241226"])
                    [exception_row (Some "S1") None; exception_row (Some "S2") (Some "")])).
    intros r [<-|[<-|[]]] [v [Hv Hne]]; cbn in Hv; congruence.
  - apply (proj2 (proj2 (get_calendar_dates_without_rows
                           (fun _ => @Some (list string) []) exception_frame)
                    (exception_row (Some "S1") (Some "ChristmasDay"))
                    ltac:(simpl; auto)
                    ltac:(exists "ChristmasDay"; split; [reflexivity | discriminate]))).
    reflexivity.
Defined.

Lemma get_calendar_dates_rows_witness :
  get_calendar_dates (fun _ => Some ["20241225"; "20241226"]) exception_frame
  = Ok (Some [mk_calendar_date (Some "S1") "20241225" 2;
              mk_calendar_date (Some "S1") "20241226" 2;
              mk_calendar_date (Some "S3") "20241225" 2;
              mk_calendar_date (Some "S3") "20241226" 2])
  /\ exists bank_holidays,
       Some ["20241225"; "20241226"] = Some bank_holidays
       /\ forall cd,
            In cd [mk_calendar_date (Some "S1") "20241225" 2;
                   mk_calendar_date (Some "S1") "20241226" 2;
                   mk_calendar_date (Some "S3") "20241225" 2;
                   mk_calendar_date (Some "S3") "20241226" 2]
            <-> (cd_exception_type cd = 2
                 /\ In (cd_date cd) bank_holidays
                 /\ exists r, In r exception_frame /\ non_operative_days r <> None
                              /\ service_id r = cd_service_id cd).
Proof.
  split; [reflexivity|].
  exact (get_calendar_dates_rows (fun _ => Some ["20241225"; "20241226"])
           exception_frame _ eq_refl).
Defined.

Lemma process_vehicle_journeys_no_section_witness :
  run [journey_at "VJ1" "JP1" "08:00:00"] [pattern_of "JPS9"] [section_ABC]
  = Raise UnboundLocalError.
Proof.
  exact (process_vehicle_journeys_no_section [pattern_of "JPS9"] [section_ABC] None None
           (journey_at "VJ1" "JP1" "08:00:00") [] (pattern_of "JPS9") 8 0 0
           eq_refl eq_refl eq_refl).
Defined.

Lemma process_vehicle_journeys_repeats_rows_witness :
  stop_columns (run [journey_at "VJ1" "JP1" "08:00:00"; journey_at "VJ2" "JP2" "09:00:00"]
                    [pattern_with "JP1" "JPS1"; pattern_with "JP2" "JPS9"]
                    [section_AB "PT1M"])
  = Ok [("A", 1, 1, "08:00:00", "08:00:00"); ("B", 2, 0, "08:01:00", "08:01:00");
        ("A", 1, 1, "08:00:00", "08:00:00"); ("B", 2, 0, "08:01:00", "08:01:00")]
  /\ exists pre rows out',
       rows <> []
       /\ process_vehicle_journeys
            ([journey_at "VJ1" "JP1" "08:00:00"] ++ [journey_at "VJ2" "JP2" "09:00:00"])
            [pattern_with "JP1" "JPS1"; pattern_with "JP2" "JPS9"]
            [section_AB "PT1M"] None None = Ok out'
       /\ map (set_service_id None) out' = (pre ++ rows ++ rows)%list.
Proof.
  split; [reflexivity|].
  destruct (process_vehicle_journeys_repeats_rows
              [pattern_with "JP1" "JPS1"; pattern_with "JP2" "JPS9"]
              [section_AB "PT1M"] None None
              [journey_at "VJ1" "JP1" "08:00:00"] (journey_at "VJ2" "JP2" "09:00:00")
              _ (pattern_with "JP2" "JPS9") 9 0 0
              ltac:(discriminate) eq_refl eq_refl eq_refl eq_refl)
    as [pre [rows [out' [H1 [_ [H2 H3]]]]]].
  exists pre, rows, out'. auto.
Defined.

Lemma process_vehicle_journeys_last_section_witness :
  stop_columns (run [journey_at "VJ1" "JP1" "08:00:00"]
                    [pattern_of "JPS1"; pattern_of "JPS2"]
                    [section_AB "PT1M"; section_BC])
  = Ok [("B", 2, 0, "08:02:00", "08:02:00"); ("C", 3, 0, "08:04:00", "08:04:00")]
  /\ exists out,
       process_vehicle_journeys [journey_at "VJ1" "JP1" "08:00:00"]
         [pattern_of "JPS1"; pattern_of "JPS2"] [section_AB "PT1M"; section_BC]
         None None = Ok out
       /\ List.length out = 2%nat
       /\ map stop_sequence out = [2; 3].
Proof.
  split; [reflexivity|].
  eexists. split; [vm_compute; reflexivity|].
  pose proof (process_vehicle_journeys_last_section
                [pattern_of "JPS1"; pattern_of "JPS2"] [section_AB "PT1M"; section_BC]
                None None (journey_at "VJ1" "JP1" "08:00:00") (pattern_of "JPS1")
                8 0 0 [section_AB "PT1M"] section_BC) as H.
  specialize (H _ ltac:(reflexivity) ltac:(reflexivity) ltac:(reflexivity)
                ltac:(vm_compute; reflexivity)).
  destruct H as [H2 [_ H3]]. split; [exact H2 | exact H3].
Defined.


Lemma with_and_without_consistent : consistent with_and_without.
Proof.
  intros r1 r2 [<-|[<-|[]]] [<-|[<-|[]]]; cbn; congruence.
Qed.

Lemma generate_service_id_null_witness :
  map service_id (generate_service_id with_and_without)
  = [Some "SVC1_20240101_20241231_MondayToFriday"; None]
  /\ (service_id (set_service_id None
                    (sample_row "T2" "VJ2" "SVC1" "20240101" "20241231" None 1)) = None
      <-> weekdays (set_service_id None
                      (sample_row "T2" "VJ2" "SVC1" "20240101" "20241231" None 1)) = None).
Proof.
  split; [reflexivity|].
  exact (generate_service_id_null with_and_without _ with_and_without_consistent
           ltac:(vm_compute; auto)).
Defined.

Lemma get_service_journey_pattern_info_rows_witness :
  exists rows,
    get_service_journey_pattern_info
      [service_with [pattern_JP1 "inbound" ["JPS1"]; pattern_JP1 "outbound" ["JPS2"]]]
    = Ok rows
    /\ map (fun row => (jp_direction_id (read_columns row),
                        jp_trip_headsign (read_columns row),
                        jp_start_date (read_columns row),
                        jp_end_date (read_columns row))) rows
       = [(0, "Town", "20240101", "20991231"); (1, "Station", "20240101", "20991231")]
    /\ Forall2 row_of_pattern
         (patterns_of
            [service_with [pattern_JP1 "inbound" ["JPS1"]; pattern_JP1 "outbound" ["JPS2"]]])
         rows.
Proof.
  eexists. split; [reflexivity|]. split; [reflexivity|].
  apply get_service_journey_pattern_info_rows. reflexivity.
Defined.

Lemma get_service_journey_pattern_info_rejects_witness :
  get_service_journey_pattern_info [service_with [pattern_JP1 "clockwise" ["JPS1"]]]
  = Raise ValueError
  /\ get_service_journey_pattern_info
       [service_with [pattern_JP1 "inbound" ["JPS1"; "JPS2"]]]
     = Raise AttributeError
  /\ is_ok (get_service_journey_pattern_info
              [service_with [pattern_JP1 "clockwise" ["JPS1"]]]) = false.
Proof.
  split; [reflexivity|]. split; [reflexivity|].
  apply (get_service_journey_pattern_info_rejects
           [service_with [pattern_JP1 "clockwise" ["JPS1"]]]
           (service_with [pattern_JP1 "clockwise" ["JPS1"]])
           (pattern_JP1 "clockwise" ["JPS1"])).
  - simpl. auto.
  - simpl. auto.
  - left. split; discriminate.
Defined.

Lemma get_gtfs_info_missing_parts_witness :
  get_gtfs_info (document_with [] [journey_at "VJ1" "JP1" "08:00:00"]
                               [service_with [pattern_JP1 "inbound" ["JPS1"]]])
  = Raise UnboundLocalError
  /\ get_gtfs_info (document_with [section_ABC] [journey_at "VJ1" "JP1" "08:00:00"] [])
     = Raise KeyError.
Proof.
  split.
  - apply (proj2 (proj2 (get_gtfs_info_missing_parts
                           (document_with [] [journey_at "VJ1" "JP1" "08:00:00"]
                              [service_with [pattern_JP1 "inbound" ["JPS1"]]])))
                 (journey_at "VJ1" "JP1" "08:00:00") []
                 (service_with [pattern_JP1 "inbound" ["JPS1"]])
                 (pattern_JP1 "inbound" ["JPS1"]) 8 0 0);
      try reflexivity; simpl; auto.
  - apply (proj1 (proj2 (get_gtfs_info_missing_parts
                           (document_with [section_ABC]
                              [journey_at "VJ1" "JP1" "08:00:00"] []))));
      [reflexivity | discriminate].
Defined.

Lemma process_vehicle_journeys_rows_of_journeys_witness :
  exists out,
    run [journey_at "VJ1" "JP1" "08:00:00"] [pattern_of "JPS1"] [section_ABC] = Ok out
    /\ map route_id out = ["R1"; "R1"; "R1"]
    /\ forall r, In r out ->
         exists j jp,
           In j [journey_at "VJ1" "JP1" "08:00:00"]
           /\ pattern_of_journey [pattern_of "JPS1"] j = Some jp
           /\ row_of_journey jp j r.
Proof.
  eexists. split; [reflexivity|]. split; [reflexivity|].
  apply (process_vehicle_journeys_rows_of_journeys
           [journey_at "VJ1" "JP1" "08:00:00"] [pattern_of "JPS1"] [section_ABC]
           None None).
  reflexivity.
Defined.

Lemma get_gtfs_info_rows_witness :
  exists frame,
    get_gtfs_info (document_with [section_ABC] [journey_at "VJ1" "JP1" "08:00:00"]
                                 [service_with [pattern_JP1 "outbound" ["JPS1"]]])
    = Ok frame
    /\ map (fun r => (stop_id r, direction_id r, trip_headsign r, start_date r)) frame
       = [("A", 1, "Station", "20240101"); ("B", 1, "Station", "20240101");
          ("C", 1, "Station", "20240101")]
    /\ forall r, In r frame -> direction_id r = 0 \/ direction_id r = 1.
Proof.
  eexists. split; [vm_compute; reflexivity|]. split; [vm_compute; reflexivity|].
  intros r Hr.
  apply (get_gtfs_info_rows
           (document_with [section_ABC] [journey_at "VJ1" "JP1" "08:00:00"]
                          [service_with [pattern_JP1 "outbound" ["JPS1"]]])
           _ ltac:(vm_compute; reflexivity) r Hr).
Defined.

Lemma get_txc_21_style_stops_rows_witness :
  _get_txc_21_style_stops naptan_frame [["C"]; ["X"]; ["A"]; ["C"]]
  = Ok [mk_naptan_stop "C" 3 53 "Stop C"; mk_naptan_stop "A" 1 51 "Stop A";
        mk_naptan_stop "C" 3 53 "Stop C"]
  /\ _get_txc_21_style_stops naptan_frame [["A"]; ["B"]] = Raise ValueError
  /\ _get_txc_21_style_stops naptan_frame [["A"]; []; ["B"]] = Raise AttributeError
  /\ exists stops,
       _get_txc_21_style_stops naptan_frame [["C"]; ["X"]; ["A"]] = Ok stops
       /\ map ns_stop_id stops = ["C"; "A"].
Proof.
  split; [reflexivity|]. split; [|split].
  - apply (proj1 (proj2 (proj2 (get_txc_21_style_stops_rows naptan_frame)))
                 ["A"; "B"] "B").
    + simpl. auto.
    + vm_compute. lia.
  - apply (proj1 (proj2 (get_txc_21_style_stops_rows naptan_frame)) ["A"] [] [["B"]]).
    + intros ref [<-|[]]. vm_compute. lia.
    + discriminate.
  - destruct (proj2 (proj2 (proj2 (get_txc_21_style_stops_rows naptan_frame)))
                    ["C"; "X"; "A"])
      as [stops [H1 [H2 _]]].
    + discriminate.
    + intros ref [<-|[<-|[<-|[]]]]; vm_compute; lia.
    + exists stops. split; [exact H1 | exact H2].
Defined.

Lemma get_routes_short_names_witness :
  exists routes,
    get_routes two_services
      [mk_route_element (Some "R1") ["Town - Station"] ["7-_-OP1"] ["RS1"];
       mk_route_element (Some "R2") ["Station - Town"] ["7A"] ["RS2"]]
      [["coach"]]
    = Ok routes
    /\ map rt_route_short_name routes = ["7"; "7A"]
    /\ Forall (fun r => 0 <= rt_route_type r <= 4) routes.
Proof.
  eexists. split; [vm_compute; reflexivity|]. split; [reflexivity|].
  pose proof (proj1 (get_routes_short_names two_services
                       [mk_route_element (Some "R1") ["Town - Station"] ["7-_-OP1"] ["RS1"];
                        mk_route_element (Some "R2") ["Station - Town"] ["7A"] ["RS2"]]
                       [["coach"]])
                    _ ltac:(vm_compute; reflexivity)) as H.
  inversion H as [|e1 r1 l1 l1' H1 Hrest]; subst.
  inversion Hrest as [|e2 r2 l2 l2' H2 _]; subst.
  repeat constructor; [apply H1 | apply H1 | apply H2 | apply H2].
Defined.

Lemma get_routes_agency_witness :
  exists routes,
    get_routes two_services
      [mk_route_element (Some "R1") ["Town - Station"] ["7-_-OP1"] ["RS1"];
       mk_route_element (Some "R2") ["Station - Town"] ["7A"] ["RS2"];
       mk_route_element None ["Depot"] ["D"] ["RS3"]]
      [["coach"]]
    = Ok routes
    /\ map rt_agency_id routes = ["OP1"; "UNKNOWN_AGENCY"; "UNKNOWN_AGENCY"].
Proof.
  eexists. split; [vm_compute; reflexivity|].
  pose proof (get_routes_agency two_services
                [mk_route_element (Some "R1") ["Town - Station"] ["7-_-OP1"] ["RS1"];
                 mk_route_element (Some "R2") ["Station - Town"] ["7A"] ["RS2"];
                 mk_route_element None ["Depot"] ["D"] ["RS3"]]
                [["coach"]] _ ltac:(vm_compute; reflexivity)) as H.
  inversion H as [|e1 r1 l1 l1' H1 Hrest1]; subst.
  inversion Hrest1 as [|e2 r2 l2 l2' H2 Hrest2]; subst.
  inversion Hrest2 as [|e3 r3 l3 l3' H3 _]; subst.
  cbn [map]. now rewrite H1, H2, H3.
Defined.

End Trials.
